(** * Expense tracker: record store, summarizer and persistence

    A shallow embedding of [expense_tracker.py].

    Conventions of the embedding.
    - Python [str] values are [string]s; the text handled is ASCII, so
      [str.lower], [str.strip] and the digit class of the date parser are the
      ASCII ones.  A statement that characterises every text a routine
      accepts says so, with [ascii_text].
    - Python [int] is [Z].  Amounts are Python floats.  In the record store
      and in the monad of the operations an amount is a rational, [Q]: the
      statements made there move amounts around, or add them in the order
      the code adds them.  Where a statement depends on how an addition
      rounds, the summarizer is taken on binary64 numbers, in the module
      [Binary64].
    - [input], [print], the clock and the data file are fields of an explicit
      [World]; every operation of [ExpenseTracker] is a function in a small
      state-and-exception monad over the tracker and the world.  [print] and
      the opening of the data file for writing are taken to succeed, and the
      store holds entries with a number and two strings.
    - [datetime.strptime], [date.isocalendar] and [int] are library routines;
      they are transcribed from the reference (pure Python) implementation of
      the standard library, and [strftime] is the one of the C library of
      CPython 3.11 on glibc.  [float] is a parameter. *)

From Corelib Require Import PrimFloat.
From Stdlib Require Import ZArith QArith List Bool Ascii String Lia Lqa.
From Stdlib Require Import Sorted Permutation.
Import ListNotations.

Open Scope string_scope.
Open Scope Z_scope.

(* ================================================================== *)
(** ** Characters and strings *)

Module Str.

Definition code (c : ascii) : Z := Z.of_N (N_of_ascii c).

(** Value of an ASCII decimal digit, the class [\d] of the parser. *)
Definition digit_val (c : ascii) : option Z :=
  let n := code c in
  if (48 <=? n) && (n <=? 57) then Some (n - 48) else None.

Definition digit_char (d : Z) : ascii := ascii_of_N (Z.to_N (48 + d)).

(** [str.isspace] on ASCII: tab, LF, VT, FF, CR, FS, GS, RS, US, space. *)
Definition is_space (c : ascii) : bool :=
  let n := code c in
  ((9 <=? n) && (n <=? 13)) || ((28 <=? n) && (n <=? 32)).

Fixpoint lstrip (s : string) : string :=
  match s with
  | String c s' => if is_space c then lstrip s' else s
  | EmptyString => EmptyString
  end.

Fixpoint rstrip (s : string) : string :=
  match s with
  | String c s' =>
      match rstrip s' with
      | EmptyString => if is_space c then EmptyString else String c EmptyString
      | r => String c r
      end
  | EmptyString => EmptyString
  end.

(** [s.strip()] *)
Definition strip (s : string) : string := rstrip (lstrip s).

Definition lower_char (c : ascii) : ascii :=
  let n := code c in
  if (65 <=? n) && (n <=? 90) then ascii_of_N (Z.to_N (n + 32)) else c.

(** [s.lower()] *)
Fixpoint lower (s : string) : string :=
  match s with
  | String c s' => String (lower_char c) (lower s')
  | EmptyString => EmptyString
  end.

(** Decimal digits of a natural number, most significant first; [fuel]
    bounds the number of digits. *)
Fixpoint digits_fuel (fuel : nat) (n : Z) (acc : string) : string :=
  match fuel with
  | O => acc
  | S f =>
      let acc' := String (digit_char (n mod 10)) acc in
      if n <? 10 then acc' else digits_fuel f (n / 10) acc'
  end.

(** [str(n)] / [f"{n}"] for an [int] *)
Definition of_int (n : Z) : string :=
  if n <? 0
  then String "-" (digits_fuel (S (Z.to_nat (Z.log2 (- n)))) (- n) "")
  else digits_fuel (S (Z.to_nat (Z.log2 n))) n "".

Fixpoint zfill_fuel (k : nat) (s : string) : string :=
  match k with
  | O => s
  | S k' => String "0" (zfill_fuel k' s)
  end.

(** [f"{n:0{w}d}"] for [n >= 0]: left padding with zeros to width [w]. *)
Definition zero_pad (w : nat) (n : Z) : string :=
  let s := of_int n in
  zfill_fuel (w - String.length s) s.

End Str.

(* ================================================================== *)
(** ** Calendar arithmetic of [datetime] *)

Module Calendar.

Definition MINYEAR : Z := 1.
Definition MAXYEAR : Z := 9999.

Definition is_leap (year : Z) : bool :=
  (year mod 4 =? 0) && (negb (year mod 100 =? 0) || (year mod 400 =? 0)).

Definition DAYS_IN_MONTH : list Z :=
  [-1; 31; 28; 31; 30; 31; 30; 31; 31; 30; 31; 30; 31].

Definition DAYS_BEFORE_MONTH : list Z :=
  [-1; 0; 31; 59; 90; 120; 151; 181; 212; 243; 273; 304; 334].

Definition days_before_year (year : Z) : Z :=
  let y := year - 1 in
  y * 365 + y / 4 - y / 100 + y / 400.

Definition days_in_month (year month : Z) : Z :=
  if (month =? 2) && is_leap year then 29
  else nth (Z.to_nat month) DAYS_IN_MONTH 0.

Definition days_before_month (year month : Z) : Z :=
  nth (Z.to_nat month) DAYS_BEFORE_MONTH 0
  + (if (2 <? month) && is_leap year then 1 else 0).

Definition ymd2ord (year month day : Z) : Z :=
  days_before_year year + days_before_month year month + day.

(** The range check of the [date] constructor. *)
Definition check_date_fields (year month day : Z) : bool :=
  (MINYEAR <=? year) && (year <=? MAXYEAR)
  && (1 <=? month) && (month <=? 12)
  && (1 <=? day) && (day <=? days_in_month year month).

Definition isoweek1monday (year : Z) : Z :=
  let THURSDAY := 3 in
  let firstday := ymd2ord year 1 1 in
  let firstweekday := (firstday + 6) mod 7 in
  let week1monday := firstday - firstweekday in
  if THURSDAY <? firstweekday then week1monday + 7 else week1monday.

(** [date(year, month, day).isocalendar()]: ISO year, ISO week, ISO weekday. *)
Definition isocalendar (year month day : Z) : Z * Z * Z :=
  let week1monday := isoweek1monday year in
  let today := ymd2ord year month day in
  let week := (today - week1monday) / 7 in
  let wday := (today - week1monday) mod 7 in
  if week <? 0 then
    let year' := year - 1 in
    let week1monday' := isoweek1monday year' in
    (year', (today - week1monday') / 7 + 1, (today - week1monday') mod 7 + 1)
  else if (52 <=? week) && (isoweek1monday (year + 1) <=? today) then
    (year + 1, 1, wday + 1)
  else (year, week + 1, wday + 1).

End Calendar.

(* ================================================================== *)
(** ** [datetime.strptime(s, "%Y-%m-%d")] *)

(** A [datetime] value; only the calendar fields matter here. *)
Record datetime := mkDate { year : Z; month : Z; day : Z }.

Module Strptime.

Import Str.

(** The directive [%m], regular expression [1[0-2]|0[1-9]|[1-9]]:
    the alternatives are tried in this order on the front of the text. *)
Definition directive_m (s : string) : option (Z * string) :=
  match s with
  | String c1 rest1 =>
      let one :=
        match digit_val c1 with
        | Some v1 => if 1 <=? v1 then Some (v1, rest1) else None
        | None => None
        end in
      match digit_val c1, rest1 with
      | Some v1, String c2 rest2 =>
          match digit_val c2 with
          | Some v2 =>
              if (v1 =? 1) && (v2 <=? 2) then Some (10 + v2, rest2)
              else if (v1 =? 0) && (1 <=? v2) then Some (v2, rest2)
              else one
          | None => one
          end
      | _, _ => one
      end
  | EmptyString => None
  end.

(** The directive [%d], regular expression
    [3[0-1]|[1-2]\d|0[1-9]|[1-9]| [1-9]]. *)
Definition directive_d (s : string) : option (Z * string) :=
  match s with
  | String c1 rest1 =>
      let one :=
        match digit_val c1 with
        | Some v1 => if 1 <=? v1 then Some (v1, rest1) else None
        | None =>
            if (code c1 =? 32) then
              match rest1 with
              | String c2 rest2 =>
                  match digit_val c2 with
                  | Some v2 => if 1 <=? v2 then Some (v2, rest2) else None
                  | None => None
                  end
              | EmptyString => None
              end
            else None
        end in
      match digit_val c1, rest1 with
      | Some v1, String c2 rest2 =>
          match digit_val c2 with
          | Some v2 =>
              if (v1 =? 3) && (v2 <=? 1) then Some (30 + v2, rest2)
              else if (1 <=? v1) && (v1 <=? 2) then Some (10 * v1 + v2, rest2)
              else if (v1 =? 0) && (1 <=? v2) then Some (v2, rest2)
              else one
          | None => one
          end
      | _, _ => one
      end
  | EmptyString => None
  end.

(** The directive [%Y], regular expression [\d\d\d\d]. *)
Definition directive_Y (s : string) : option (Z * string) :=
  match s with
  | String c1 (String c2 (String c3 (String c4 rest))) =>
      match digit_val c1, digit_val c2, digit_val c3, digit_val c4 with
      | Some v1, Some v2, Some v3, Some v4 =>
          Some (1000 * v1 + 100 * v2 + 10 * v3 + v4, rest)
      | _, _, _, _ => None
      end
  | _ => None
  end.

Definition hyphen (s : string) : option string :=
  match s with
  | String c rest => if code c =? 45 then Some rest else None
  | EmptyString => None
  end.

(** The match of the format's regular expression against the front of the
    text: year, month, day and what is left unconverted. *)
Definition match_format (s : string) : option (Z * Z * Z * string) :=
  match directive_Y s with
  | Some (y, s1) =>
      match hyphen s1 with
      | Some s2 =>
          match directive_m s2 with
          | Some (m, s3) =>
              match hyphen s3 with
              | Some s4 =>
                  match directive_d s4 with
                  | Some (d, s5) => Some (y, m, d, s5)
                  | None => None
                  end
              | None => None
              end
          | None => None
          end
      | None => None
      end
  | None => None
  end.

(** [datetime.strptime(s, "%Y-%m-%d")]; [None] is [ValueError]: the text does
    not match the format, unconverted data remains, or the fields are not a
    date of the calendar. *)
Definition strptime (s : string) : option datetime :=
  match match_format s with
  | Some (y, m, d, EmptyString) =>
      if Calendar.check_date_fields y m d then Some (mkDate y m d) else None
  | Some (_, _, _, String _ _) => None
  | None => None
  end.

End Strptime.

(* ================================================================== *)
(** ** [int(s)] for a string, base 10 *)

Module PyInt.

Import Str.

(** Digits with single underscores between them. *)
Fixpoint int_digits (s : string) (acc : Z) (after_digit : bool) : option Z :=
  match s with
  | EmptyString => if after_digit then Some acc else None
  | String c s' =>
      match digit_val c with
      | Some v => int_digits s' (10 * acc + v) true
      | None =>
          if (code c =? 95) && after_digit then int_digits s' acc false
          else None
      end
  end.

(** [int(s)]; [None] is [ValueError]. *)
Definition int (s : string) : option Z :=
  match strip s with
  | String c r =>
      if code c =? 43 then int_digits r 0 false
      else if code c =? 45 then option_map Z.opp (int_digits r 0 false)
      else int_digits (String c r) 0 false
  | EmptyString => None
  end.

End PyInt.

(* ================================================================== *)
(** ** Data model *)

(** [class Expense]: amount, category, date.  The store never holds one
    [Expense] object in two positions ([add_expenses] and [from_dict] build a
    fresh object each time), so the list of objects is a list of values and
    the in-place update of [edit_expense] is an update at an index. *)
Record Expense := mkExpense {
  amount : Q;
  category : string;
  date : string
}.

(** JSON documents as [json.load] returns them (objects are [dict]s, with
    one value per key; [lookup] takes the first binding). *)
#[warnings="-register-all"]
Inductive json :=
| JNull
| JBool (b : bool)
| JNumber (q : Q)
| JString (s : string)
| JArray (items : list json)
| JObject (fields : list (string * json)).

(** What a path holds, as [open(filename, 'r')] and [json.load] see it: a
    directory or a file that may not be read, bytes that are not text in the
    encoding of the locale, text that is not JSON, JSON text nested deeper
    than the recursion limit of the interpreter, or a JSON document. *)
Inductive file_content :=
| Unreadable
| NotText
| NotJson (text : string)
| TooDeep
| Json (doc : json).

(** Exceptions.  [Untyped] is not a Python exception: it marks that
    [from_dict] was given a field whose JSON type is not the one of the data
    model (number, string, string); Python stores such a value as it is, and
    the typed record cannot. *)
Inductive exn :=
| ValueError
| KeyError
| TypeError
| EOFError
| OSError
| FileNotFoundError
| JSONDecodeError
| UnicodeDecodeError
| RecursionError
| IndexError
| Untyped.

(** [isinstance(e, cls)]: [JSONDecodeError] and [UnicodeDecodeError] are
    subclasses of [ValueError], [FileNotFoundError] is one of [OSError]. *)
Definition isinstance (e cls : exn) : bool :=
  match e, cls with
  | ValueError, ValueError => true
  | JSONDecodeError, ValueError => true
  | UnicodeDecodeError, ValueError => true
  | KeyError, KeyError => true
  | TypeError, TypeError => true
  | EOFError, EOFError => true
  | OSError, OSError => true
  | FileNotFoundError, OSError => true
  | FileNotFoundError, FileNotFoundError => true
  | JSONDecodeError, JSONDecodeError => true
  | UnicodeDecodeError, UnicodeDecodeError => true
  | RecursionError, RecursionError => true
  | IndexError, IndexError => true
  | Untyped, Untyped => true
  | _, _ => false
  end.

(** The questions asked with [input]. *)
Inductive prompt :=
| AskAmount | AskCategory | AskDate
| AskSummaryChoice | AskCategoryName | AskTimeChoice
| AskDeleteNumber | AskEditNumber
| AskNewAmount | AskNewCategory | AskNewDate.

(** The lines written with [print] (and the prompts of [input]). *)
Inductive message :=
| Prompt (p : prompt)
| MsgInvalidDate
| MsgAdded (a : Q) (c d : string)
| MsgInvalidAmount
| MsgNoExpenses
| MsgInvalidNumber
| MsgCategoryTotal (c : string) (total : Q)
| MsgOverallTotal (total : Q)
| MsgSkipInvalidDate (d : string)
| MsgInvalidChoice
| MsgSummaryHeader
| MsgPeriod (period : string) (a : Q)
| MsgInvalidOption
| MsgSaved (filename : string)
| MsgLoaded (n : nat) (filename : string)
| MsgNoData
| MsgCorrupted
| MsgNoDelete
| MsgItem (idx : Z) (e : Expense)
| MsgDeleted (e : Expense)
| MsgInvalidSelection
| MsgNoEdit
| MsgEditing (e : Expense)
| MsgKeepAmount
| MsgKeepDate
| MsgUpdated
| MsgNoChartData.

(** The world around the tracker: pending input lines, the output written
    so far, the bar charts handed to the renderer, the files and the local
    date of the clock. *)
Record World := mkWorld {
  stdin : list string;
  stdout : list message;
  charts : list (list string * list Q);
  files : string -> option file_content;
  clock : datetime
}.

(** [class ExpenseTracker] with its world. *)
Record State := mkState {
  expenses : list Expense;
  world : World
}.

Definition with_expenses (es : list Expense) (st : State) : State :=
  mkState es (world st).

Definition with_world (w : World) (st : State) : State :=
  mkState (expenses st) w.

(* ================================================================== *)
(** ** State and exceptions *)

Inductive outcome (A : Type) :=
| Done (a : A)
| Raise (e : exn).

Arguments Done {A} a.
Arguments Raise {A} e.

Definition M (A : Type) : Type := State -> outcome A * State.

Definition ret {A} (a : A) : M A := fun st => (Done a, st).

Definition bind {A B} (m : M A) (k : A -> M B) : M B :=
  fun st =>
    match m st with
    | (Done a, st') => k a st'
    | (Raise e, st') => (Raise e, st')
    end.

Definition raise {A} (e : exn) : M A := fun st => (Raise e, st).

(** The first [except] clause whose class the exception is an instance of. *)
Fixpoint handler_for {A} (e : exn) (handlers : list (exn * M A)) : option (M A) :=
  match handlers with
  | [] => None
  | (cls, h) :: rest => if isinstance e cls then Some h else handler_for e rest
  end.

(** [try: m except cls1: h1 except cls2: h2 ...] *)
Definition try_except {A} (m : M A) (handlers : list (exn * M A)) : M A :=
  fun st =>
    match m st with
    | (Done a, st') => (Done a, st')
    | (Raise e, st') =>
        match handler_for e handlers with
        | Some h => h st'
        | None => (Raise e, st')
        end
    end.

Declare Scope monad_scope.
Delimit Scope monad_scope with monad.
Notation "x <- m ;; k" := (bind m (fun x => k))
  (at level 61, m at next level, right associativity) : monad_scope.
Notation "m ;; k" := (bind m (fun _ => k))
  (at level 61, right associativity) : monad_scope.
Open Scope monad_scope.

Definition get_expenses : M (list Expense) := fun st => (Done (expenses st), st).

Definition set_expenses (es : list Expense) : M unit :=
  fun st => (Done tt, with_expenses es st).

(** The output grows by [msgs]. *)
Definition emit (msgs : list message) (st : State) : State :=
  let w := world st in
  with_world
    (mkWorld (stdin w) (stdout w ++ msgs)%list (charts w) (files w) (clock w)) st.

(** [print(...)] *)
Definition print (msg : message) : M unit :=
  fun st => (Done tt, emit [msg] st).

(** [input(prompt)]: the next line, [EOFError] at the end of the input. *)
Definition input (p : prompt) : M string :=
  fun st =>
    let w := world st in
    let out := (stdout w ++ [Prompt p])%list in
    match stdin w with
    | line :: rest =>
        (Done line, with_world (mkWorld rest out (charts w) (files w) (clock w)) st)
    | [] =>
        (Raise EOFError, with_world (mkWorld [] out (charts w) (files w) (clock w)) st)
    end.

(** [datetime.now()] *)
Definition now : M datetime := fun st => (Done (clock (world st)), st).

Definition write_file (filename : string) (c : file_content) : M unit :=
  fun st =>
    let w := world st in
    (Done tt,
     with_world
       (mkWorld (stdin w) (stdout w) (charts w)
          (fun f => if String.eqb f filename then Some c else files w f)
          (clock w)) st).

(** [plt.bar(categories, amounts)] ... [plt.show()] *)
Definition show_bar_chart (categories : list string) (amounts : list Q) : M unit :=
  fun st =>
    let w := world st in
    (Done tt,
     with_world
       (mkWorld (stdin w) (stdout w) (charts w ++ [(categories, amounts)])%list
          (files w) (clock w)) st).

(** Lifting of a library call that raises. *)
Definition lift {A} (o : option A) (e : exn) : M A :=
  match o with
  | Some a => ret a
  | None => raise e
  end.

(* ================================================================== *)
(** ** Library helpers: formatting, lists, dictionaries *)

(** [d.strftime("%Y-%m-%d")] and [d.strftime("%Y-%m")].  CPython hands the
    format to the [strftime] of the C library; the one of glibc writes [%Y]
    as the year in decimal with no padding (["999"] for the year 999) and
    [%m] and [%d] on two digits.  Other C libraries pad the year to four
    digits; the two agree from the year 1000 on. *)
Definition strftime_Ymd (d : datetime) : string :=
  Str.of_int (year d) ++ "-" ++ Str.zero_pad 2 (month d) ++ "-"
  ++ Str.zero_pad 2 (day d).

Definition strftime_Ym (d : datetime) : string :=
  Str.of_int (year d) ++ "-" ++ Str.zero_pad 2 (month d).

(** [not s] for a string *)
Definition is_empty (s : string) : bool :=
  match s with
  | EmptyString => true
  | String _ _ => false
  end.

(** The index Python resolves [l[i]] and [l.pop(i)] to: negative indices
    count from the end. *)
Definition resolve_index {A} (l : list A) (i : Z) : option nat :=
  let n := Z.of_nat (List.length l) in
  let j := if i <? 0 then i + n else i in
  if (0 <=? j) && (j <? n) then Some (Z.to_nat j) else None.

Definition remove_at {A} (k : nat) (l : list A) : list A :=
  (firstn k l ++ skipn (S k) l)%list.

Fixpoint update_at {A} (k : nat) (f : A -> A) (l : list A) : list A :=
  match l, k with
  | [], _ => []
  | x :: l', O => f x :: l'
  | x :: l', S k' => x :: update_at k' f l'
  end.

(** A [defaultdict(float)], in insertion order. *)
Definition dict : Type := list (string * Q).

(** [d[k] += a]: a missing key starts from [float()], that is 0. *)
Fixpoint dict_add (k : string) (a : Q) (d : dict) : dict :=
  match d with
  | [] => [(k, (0 + a)%Q)]
  | (k', v) :: d' =>
      if String.eqb k' k then (k', (v + a)%Q) :: d'
      else (k', v) :: dict_add k a d'
  end.

(** [d[k]] *)
Fixpoint dict_get (d : dict) (k : string) : Q :=
  match d with
  | [] => 0%Q
  | (k', v) :: d' => if String.eqb k' k then v else dict_get d' k
  end.

Definition keys (d : dict) : list string := map fst d.
Definition values (d : dict) : list Q := map snd d.

(** [sum(xs)]: the additions from the left, starting at 0. *)
Definition sum (xs : list Q) : Q := fold_left Qplus xs 0%Q.

(** [sorted(d.items())]: the keys of a dictionary are distinct, so the order
    of the pairs is the order of their keys. *)
Fixpoint insert_sorted (kv : string * Q) (l : list (string * Q)) : list (string * Q) :=
  match l with
  | [] => [kv]
  | kv' :: l' =>
      if String.leb (fst kv) (fst kv') then kv :: l
      else kv' :: insert_sorted kv l'
  end.

Definition sorted_items (d : dict) : list (string * Q) :=
  fold_right insert_sorted [] d.

Fixpoint lookup (k : string) (fields : list (string * json)) : option json :=
  match fields with
  | [] => None
  | (k', v) :: rest => if String.eqb k' k then Some v else lookup k rest
  end.

(** [for x in xs: f(x)] and [[f(x) for x in xs]] *)
Fixpoint for_each {A} (f : A -> M unit) (xs : list A) : M unit :=
  match xs with
  | [] => ret tt
  | x :: xs' => f x ;; for_each f xs'
  end.

Fixpoint map_M {A B} (f : A -> M B) (xs : list A) : M (list B) :=
  match xs with
  | [] => ret []
  | x :: xs' => y <- f x ;; ys <- map_M f xs' ;; ret (y :: ys)
  end.

(* ================================================================== *)
(** ** [class Expense] *)

(** [Expense.to_dict] *)
Definition to_dict (e : Expense) : json :=
  JObject [("amount", JNumber (amount e));
           ("category", JString (category e));
           ("date", JString (date e))].

(** [data[key]] for a string key *)
Definition getitem (data : json) (key : string) : M json :=
  match data with
  | JObject fields => lift (lookup key fields) KeyError
  | _ => raise TypeError
  end.

(** [Expense.from_dict] *)
Definition from_dict (data : json) : M Expense :=
  a <- getitem data "amount" ;;
  c <- getitem data "category" ;;
  d <- getitem data "date" ;;
  match a, c, d with
  | JNumber q, JString c', JString d' => ret (mkExpense q c' d')
  | _, _, _ => raise Untyped
  end.

(** [iter(data)]: a list gives its items, a [dict] its keys, a string its
    characters; the other values are not iterable. *)
Definition iter (data : json) : M (list json) :=
  match data with
  | JArray items => ret items
  | JObject fields => ret (map (fun kv => JString (fst kv)) fields)
  | JString s =>
      ret (map (fun c => JString (String c EmptyString)) (list_ascii_of_string s))
  | _ => raise TypeError
  end.

(* ================================================================== *)
(** ** [class ExpenseTracker] *)

Definition DEFAULT_FILENAME : string := "expenses.json".

(** [ExpenseTracker()] *)
Definition init (w : World) : State := mkState [] w.

(** [validate_date]: whether [strptime] raises [ValueError]. *)
Definition validate_date (date_str : string) : bool :=
  match Strptime.strptime date_str with
  | Some _ => true
  | None => false
  end.

(** [save_to_file] *)
Definition save_to_file (filename : string) : M unit :=
  es <- get_expenses ;;
  write_file filename (Json (JArray (map to_dict es))) ;;
  print (MsgSaved filename).

(** [open(filename, 'r')] followed by [json.load]: [open] raises
    [FileNotFoundError] on a missing path and another [OSError]
    ([IsADirectoryError], [PermissionError]) on one it cannot read; [read]
    raises [UnicodeDecodeError] on bytes that are not text; the decoder raises
    [JSONDecodeError] on text that is not JSON and [RecursionError] on text
    nested too deep. *)
Definition json_load (filename : string) : M json :=
  fun st =>
    match files (world st) filename with
    | None => (Raise FileNotFoundError, st)
    | Some Unreadable => (Raise OSError, st)
    | Some NotText => (Raise UnicodeDecodeError, st)
    | Some (NotJson _) => (Raise JSONDecodeError, st)
    | Some TooDeep => (Raise RecursionError, st)
    | Some (Json doc) => (Done doc, st)
    end.

(** [load_from_file] *)
Definition load_from_file (filename : string) : M unit :=
  try_except
    (data <- json_load filename ;;
     items <- iter data ;;
     es <- map_M from_dict items ;;
     set_expenses es ;;
     es' <- get_expenses ;;
     print (MsgLoaded (List.length es') filename))
    [(FileNotFoundError, print MsgNoData);
     (JSONDecodeError, print MsgCorrupted)].

(** The key of the time summary for one entry with a valid date;
    [None] when [time_choice] is none of 1, 2, 3. *)
Definition period_key (time_choice : Z) (expense : Expense) (date_obj : datetime)
  : option string :=
  if time_choice =? 1 then Some (date expense)
  else if time_choice =? 2 then Some (strftime_Ym date_obj)
  else if time_choice =? 3 then
    let year := year date_obj in
    let week :=
      snd (fst (Calendar.isocalendar (year) (month date_obj) (day date_obj))) in
    Some (Str.of_int year ++ "-W" ++ Str.of_int week)
  else None.

(** The loop of the time summary: [None] when it left [view_summary] on an
    invalid choice. *)
Fixpoint summary_loop (time_choice : Z) (es : list Expense) (summary : dict)
  : M (option dict) :=
  match es with
  | [] => ret (Some summary)
  | expense :: rest =>
      if negb (validate_date (date expense)) then
        print (MsgSkipInvalidDate (date expense)) ;;
        summary_loop time_choice rest summary
      else
        date_obj <- lift (Strptime.strptime (date expense)) ValueError ;;
        match period_key time_choice expense date_obj with
        | Some key =>
            summary_loop time_choice rest (dict_add key (amount expense) summary)
        | None => print MsgInvalidChoice ;; ret None
        end
  end.

(** [int(input(...).strip())] under [try], [None] after [ValueError]. *)
Definition input_int (p : prompt) : M (option Z) :=
  try_except
    (line <- input p ;;
     n <- lift (PyInt.int (Str.strip line)) ValueError ;;
     ret (Some n))
    [(ValueError, print MsgInvalidNumber ;; ret None)].

(** [view_summary], option 1 *)
Definition total_by_category (es : list Expense) (cat : string) : Q :=
  sum (map amount
         (filter (fun exp => String.eqb (Str.lower (category exp)) (Str.lower cat)) es)).

(** [view_summary], option 2 *)
Definition total_overall (es : list Expense) : Q := sum (map amount es).

(** [view_summary] *)
Definition view_summary : M unit :=
  es <- get_expenses ;;
  match es with
  | [] => print MsgNoExpenses
  | _ :: _ =>
      c <- input_int AskSummaryChoice ;;
      match c with
      | None => ret tt
      | Some choice =>
          if choice =? 1 then
            line <- input AskCategoryName ;;
            let cat := Str.strip line in
            print (MsgCategoryTotal cat (total_by_category es cat))
          else if choice =? 2 then
            print (MsgOverallTotal (total_overall es))
          else if choice =? 3 then
            t <- input_int AskTimeChoice ;;
            match t with
            | None => ret tt
            | Some time_choice =>
                r <- summary_loop time_choice es [] ;;
                match r with
                | None => ret tt
                | Some summary =>
                    print MsgSummaryHeader ;;
                    for_each (fun kv => print (MsgPeriod (fst kv) (snd kv)))
                      (sorted_items summary)
                end
            end
          else print MsgInvalidOption
      end
  end.

(** The listing printed by [delete_expense] and [edit_expense]. *)
Fixpoint print_items (idx : Z) (es : list Expense) : M unit :=
  match es with
  | [] => ret tt
  | exp :: rest => print (MsgItem (idx + 1) exp) ;; print_items (idx + 1) rest
  end.

(** [self.expenses.pop(i)] *)
Definition pop (i : Z) : M Expense :=
  es <- get_expenses ;;
  match resolve_index es i with
  | Some k =>
      match nth_error es k with
      | Some e => set_expenses (remove_at k es) ;; ret e
      | None => raise IndexError
      end
  | None => raise IndexError
  end.

(** [delete_expense] *)
Definition delete_expense : M unit :=
  es <- get_expenses ;;
  match es with
  | [] => print MsgNoDelete
  | _ :: _ =>
      print_items 0 es ;;
      try_except
        (line <- input AskDeleteNumber ;;
         choice <- lift (PyInt.int (Str.strip line)) ValueError ;;
         if (1 <=? choice) && (choice <=? Z.of_nat (List.length es)) then
           removed <- pop (choice - 1) ;;
           print (MsgDeleted removed) ;;
           save_to_file DEFAULT_FILENAME
         else print MsgInvalidSelection)
        [(ValueError, print MsgInvalidNumber)]
  end.

(** The totals handed to the chart by [graphical_summary]. *)
Definition category_totals (es : list Expense) : dict :=
  fold_left (fun d exp => dict_add (category exp) (amount exp) d) es [].

(** [graphical_summary] *)
Definition graphical_summary : M unit :=
  es <- get_expenses ;;
  match es with
  | [] => print MsgNoChartData
  | _ :: _ =>
      let totals := category_totals es in
      let categories := keys totals in
      let amounts := map (dict_get totals) categories in
      show_bar_chart categories amounts
  end.

Section Float.

(** [float(s)] for a string; [None] is [ValueError]. *)
Variable float : string -> option Q.

(** [add_expenses] *)
Definition add_expenses : M unit :=
  try_except
    (line <- input AskAmount ;;
     amount <- lift (float (Str.strip line)) ValueError ;;
     line <- input AskCategory ;;
     let category := Str.strip line in
     line <- input AskDate ;;
     let date := Str.strip line in
     date <- (if is_empty date
              then (t <- now ;; ret (strftime_Ymd t))
              else ret date) ;;
     if negb (validate_date date) then print MsgInvalidDate
     else
       let expense := mkExpense amount category date in
       es <- get_expenses ;;
       set_expenses (es ++ [expense])%list ;;
       print (MsgAdded amount category date) ;;
       save_to_file DEFAULT_FILENAME)
    [(ValueError, print MsgInvalidAmount)].

(** An assignment to a field of the object at position [k] of the store. *)
Definition modify (k : nat) (f : Expense -> Expense) : M unit :=
  es <- get_expenses ;;
  set_expenses (update_at k f es).

(** [self.expenses[i]] and its position *)
Definition item (i : Z) : M (nat * Expense) :=
  es <- get_expenses ;;
  match resolve_index es i with
  | Some k =>
      match nth_error es k with
      | Some e => ret (k, e)
      | None => raise IndexError
      end
  | None => raise IndexError
  end.

(** [edit_expense] *)
Definition edit_expense : M unit :=
  es <- get_expenses ;;
  match es with
  | [] => print MsgNoEdit
  | _ :: _ =>
      print_items 0 es ;;
      try_except
        (line <- input AskEditNumber ;;
         choice <- lift (PyInt.int (Str.strip line)) ValueError ;;
         if (1 <=? choice) && (choice <=? Z.of_nat (List.length es)) then
           ke <- item (choice - 1) ;;
           let k := fst ke in
           print (MsgEditing (snd ke)) ;;
           line <- input AskNewAmount ;;
           let new_amount := Str.strip line in
           line <- input AskNewCategory ;;
           let new_category := Str.strip line in
           line <- input AskNewDate ;;
           let new_date := Str.strip line in
           (if negb (is_empty new_amount) then
              try_except
                (a <- lift (float new_amount) ValueError ;;
                 modify k (fun e => mkExpense a (category e) (date e)))
                [(ValueError, print MsgKeepAmount)]
            else ret tt) ;;
           (if negb (is_empty new_category) then
              modify k (fun e => mkExpense (amount e) new_category (date e))
            else ret tt) ;;
           (if negb (is_empty new_date) then
              if validate_date new_date then
                modify k (fun e => mkExpense (amount e) (category e) new_date)
              else print MsgKeepDate
            else ret tt) ;;
           save_to_file DEFAULT_FILENAME ;;
           print MsgUpdated
         else print MsgInvalidSelection)
        [(ValueError, print MsgInvalidNumber)]
  end.

End Float.

(* ================================================================== *)
(** ** Terms of the statements *)

(** A world for the examples: no input, no output yet, the data file with
    the given content (or no data file), the clock on 2024-03-01. *)
Definition sample_world (c : option file_content) : World :=
  mkWorld [] [] []
    (fun p => if String.eqb p DEFAULT_FILENAME then c else None)
    (mkDate 2024 3 1).

(** The same world with lines of input. *)
Definition feed (lines : list string) (w : World) : World :=
  mkWorld lines (stdout w) (charts w) (files w) (clock w).

(** An instance of [float] for the examples: it reads integer literals. *)
Definition float_of_int_literal (s : string) : option Q :=
  option_map inject_Z (PyInt.int s).

(** The lines of the listing of a store, numbered from [idx + 1]. *)
Fixpoint item_msgs (idx : Z) (es : list Expense) : list message :=
  match es with
  | [] => []
  | e :: rest => MsgItem (idx + 1) e :: item_msgs (idx + 1) rest
  end.

(** The categories of a store up to letter case, each by the spelling of its
    first entry. *)
Fixpoint distinct_categories_from (seen : list string) (es : list Expense)
  : list string :=
  match es with
  | [] => []
  | e :: rest =>
      let k := Str.lower (category e) in
      if existsb (String.eqb k) seen then distinct_categories_from seen rest
      else category e :: distinct_categories_from (k :: seen) rest
  end.

Definition distinct_categories (es : list Expense) : list string :=
  distinct_categories_from [] es.

Definition valid_date_entries (es : list Expense) : list Expense :=
  filter (fun e => validate_date (date e)) es.

(** Whether the category [c] has the lower-case form [k]. *)
Definition same_category (k c : string) : bool := String.eqb k (Str.lower c).

(** The text is made of ASCII characters. *)
Definition ascii_text (s : string) : bool :=
  forallb (fun c => Str.code c <? 128) (list_ascii_of_string s).

(** The number a text of decimal digits denotes. *)
Fixpoint digits_value (t : string) (acc : Z) : option Z :=
  match t with
  | EmptyString => Some acc
  | String c t' =>
      match Str.digit_val c with
      | Some v => digits_value t' (10 * acc + v)
      | None => None
      end
  end.

(** [t] is a numeral of [w] decimal digits that denotes [v]. *)
Definition numeral (w : nat) (t : string) (v : Z) : Prop :=
  String.length t = w /\ digits_value t 0 = Some v.

(** A date of the calendar, in the years 1 to 9999. *)
Definition gregorian (y m d : Z) : Prop :=
  1 <= y <= 9999 /\ 1 <= m <= 12 /\ 1 <= d <= Calendar.days_in_month y m.

Definition ymd_text (ys ms ds : string) : string :=
  ys ++ "-" ++ ms ++ "-" ++ ds.

(** The grammar [YYYY-MM-DD]: four, two and two digits. *)
Definition canonical_date (s : string) : Prop :=
  exists ys ms ds y m d,
    s = ymd_text ys ms ds /\
    numeral 4 ys y /\ numeral 2 ms m /\ numeral 2 ds d /\
    gregorian y m d.

(** The texts [validate_date] accepts: the month and the day may also be
    written on one digit, and the day on one digit after a space. *)
Definition accepted_date (s : string) : Prop :=
  exists ys ms ds y m d,
    s = ymd_text ys ms ds /\
    numeral 4 ys y /\
    (numeral 2 ms m \/ numeral 1 ms m) /\
    (numeral 2 ds d \/ numeral 1 ds d
     \/ exists t, ds = String " " t /\ numeral 1 t d) /\
    gregorian y m d.

(** [date.weekday()] from the ordinal of a day: 0 is Monday, 6 is Sunday. *)
Definition weekday_of_ordinal (n : Z) : Z := (n + 6) mod 7.

(** The rule of ISO 8601 for the number of the week of a day: weeks run from
    Monday to Sunday, and week 1 of a year is the week that holds the first
    Thursday of that year.  So the week of a day belongs to the year [Y] of
    its Thursday, and its number is the rank of that Thursday among the
    Thursdays of [Y]. *)
Definition iso_week_rule (y m d w : Z) : Prop :=
  let n := Calendar.ymd2ord y m d in
  let thursday := n - weekday_of_ordinal n + 3 in
  exists Y,
    Calendar.ymd2ord Y 1 1 <= thursday < Calendar.ymd2ord (Y + 1) 1 1 /\
    w = (thursday - Calendar.ymd2ord Y 1 1) / 7 + 1.

(** The week number [isocalendar] gives. *)
Definition iso_week (dt : datetime) : Z :=
  snd (fst (Calendar.isocalendar (year dt) (month dt) (day dt))).

(** An entry object of the data file: the three keys with a number and two
    strings, whatever else the object holds and in whatever order. *)
Definition entry_object (item : json) (e : Expense) : Prop :=
  exists fields,
    item = JObject fields /\
    lookup "amount" fields = Some (JNumber (amount e)) /\
    lookup "category" fields = Some (JString (category e)) /\
    lookup "date" fields = Some (JString (date e)).

(** Every date of a store passes [validate_date]. *)
Definition dates_valid (es : list Expense) : Prop :=
  Forall (fun e => validate_date (date e) = true) es.

(** The data file holds the store. *)
Definition saved (st : State) : Prop :=
  files (world st) DEFAULT_FILENAME
  = Some (Json (JArray (map to_dict (expenses st)))).

(** Nothing of the store and of the files has changed. *)
Definition untouched (st st' : State) : Prop :=
  expenses st' = expenses st /\ files (world st') = files (world st).

(** [related R m]: the state after [m] is related by [R] to the state
    before, whatever [m] returns. *)
Definition related (R : State -> State -> Prop) {A} (m : M A) : Prop :=
  forall st, R st (snd (m st)).

(** The store, the files, the charts and the clock are the same. *)
Definition same_data (st st' : State) : Prop :=
  expenses st' = expenses st /\
  files (world st') = files (world st) /\
  clock (world st') = clock (world st).

(** The files other than the data file are the same. *)
Definition same_other_files (st st' : State) : Prop :=
  forall q, q <> DEFAULT_FILENAME -> files (world st') q = files (world st) q.

(** What [edit_expense] makes of an entry, from the three stripped lines:
    each field on its own. *)
Definition edited (float : string -> option Q)
    (new_amount new_category new_date : string) (e : Expense) : Expense :=
  mkExpense
    (if is_empty new_amount then amount e
     else match float new_amount with
          | Some a => a
          | None => amount e
          end)
    (if is_empty new_category then category e else new_category)
    (if is_empty new_date then date e
     else if validate_date new_date then new_date else date e).

(** The key of an entry in the time summary: [None] for an invalid date, and
    for a choice that is none of 1, 2, 3. *)
Definition key_of (time_choice : Z) (e : Expense) : option string :=
  match Strptime.strptime (date e) with
  | Some dt => period_key time_choice e dt
  | None => None
  end.

(** Whether the entry falls under the key [k]. *)
Definition has_key (time_choice : Z) (k : string) (e : Expense) : bool :=
  match key_of time_choice e with
  | Some k' => String.eqb k' k
  | None => false
  end.

(** The strings of a list, each at its first occurrence. *)
Fixpoint first_occurrences (seen l : list string) : list string :=
  match l with
  | [] => []
  | x :: l' =>
      if existsb (String.eqb x) seen then first_occurrences seen l'
      else x :: first_occurrences (x :: seen) l'
  end.

(** The order of the keys of two pairs. *)
Definition key_le (a b : string * Q) : Prop := String.leb (fst a) (fst b) = true.

(* ================================================================== *)
(** ** The summarizer on binary64 amounts *)

(** The totals of [view_summary] with the amounts as Python has them:
    binary64 floats, every addition rounded to the nearest float.  The code
    is the one transcribed above as [total_by_category], [total_overall],
    [period_key] and [summary_loop]; only the type of the amounts differs. *)
Module Binary64.

(** [class Expense] *)
Record Expense := mkExpense {
  amount : float;
  category : string;
  date : string
}.

(** [sum(xs)]: the additions from the left, starting at 0 (the integer 0
    becomes 0.0 in the first addition), as CPython 3.11 makes them. *)
Definition sum (xs : list float) : float := fold_left PrimFloat.add xs 0%float.

(** [view_summary], option 1 *)
Definition total_by_category (es : list Expense) (cat : string) : float :=
  sum (map amount
         (filter (fun exp => String.eqb (Str.lower (category exp)) (Str.lower cat)) es)).

(** [view_summary], option 2 *)
Definition total_overall (es : list Expense) : float := sum (map amount es).

(** A [defaultdict(float)], in insertion order. *)
Definition dict : Type := list (string * float).

(** [d[k] += a]: a missing key starts from [float()], that is 0.0. *)
Fixpoint dict_add (k : string) (a : float) (d : dict) : dict :=
  match d with
  | [] => [(k, (0 + a)%float)]
  | (k', v) :: d' =>
      if String.eqb k' k then (k', (v + a)%float) :: d'
      else (k', v) :: dict_add k a d'
  end.

(** [d[k]] *)
Fixpoint dict_get (d : dict) (k : string) : float :=
  match d with
  | [] => 0%float
  | (k', v) :: d' => if String.eqb k' k then v else dict_get d' k
  end.

Definition keys (d : dict) : list string := map fst d.
Definition values (d : dict) : list float := map snd d.

(** The key of the time summary for one entry with a valid date. *)
Definition period_key (time_choice : Z) (expense : Expense) (date_obj : datetime)
  : option string :=
  if time_choice =? 1 then Some (date expense)
  else if time_choice =? 2 then Some (strftime_Ym date_obj)
  else if time_choice =? 3 then
    let year := year date_obj in
    let week :=
      snd (fst (Calendar.isocalendar (year) (month date_obj) (day date_obj))) in
    Some (Str.of_int year ++ "-W" ++ Str.of_int week)
  else None.

(** The loop of the time summary over the entries [es]. *)
Fixpoint summary_loop (time_choice : Z) (es : list Expense) (summary : dict)
  : M (option dict) :=
  match es with
  | [] => ret (Some summary)
  | expense :: rest =>
      if negb (validate_date (date expense)) then
        print (MsgSkipInvalidDate (date expense)) ;;
        summary_loop time_choice rest summary
      else
        date_obj <- lift (Strptime.strptime (date expense)) ValueError ;;
        match period_key time_choice expense date_obj with
        | Some key =>
            summary_loop time_choice rest (dict_add key (amount expense) summary)
        | None => print MsgInvalidChoice ;; ret None
        end
  end.

(** The terms of the statements. *)

Definition valid_date_entries (es : list Expense) : list Expense :=
  filter (fun e => validate_date (date e)) es.

(** The key of an entry in the time summary: [None] for an invalid date, and
    for a choice that is none of 1, 2, 3. *)
Definition key_of (time_choice : Z) (e : Expense) : option string :=
  match Strptime.strptime (date e) with
  | Some dt => period_key time_choice e dt
  | None => None
  end.

Definition has_key (time_choice : Z) (k : string) (e : Expense) : bool :=
  match key_of time_choice e with
  | Some k' => String.eqb k' k
  | None => false
  end.

(** The entries of the bucket of the key [k], in the order of the store. *)
Definition bucket (time_choice : Z) (es : list Expense) (k : string)
  : list Expense :=
  filter (has_key time_choice k) es.

(** The categories of a store up to letter case, each by the spelling of its
    first entry. *)
Fixpoint distinct_categories_from (seen : list string) (es : list Expense)
  : list string :=
  match es with
  | [] => []
  | e :: rest =>
      let k := Str.lower (category e) in
      if existsb (String.eqb k) seen then distinct_categories_from seen rest
      else category e :: distinct_categories_from (k :: seen) rest
  end.

Definition distinct_categories (es : list Expense) : list string :=
  distinct_categories_from [] es.

(** The entries of the category [c] up to letter case, in the order of the
    store. *)
Definition category_entries (es : list Expense) (c : string) : list Expense :=
  filter (fun e => String.eqb (Str.lower (category e)) (Str.lower c)) es.

(** Three entries with the amounts 0.1, 0.2 and 2.2. *)
#[warnings="-inexact-float"]
Definition rounding_entries : list Expense :=
  [mkExpense 0.1 "x" "2024-03-01"; mkExpense 0.2 "y" "2024-03-02";
   mkExpense 2.2 "x" "2024-03-01"].

End Binary64.

(* ================================================================== *)
(** * Properties *)

Arguments Str.strip : simpl never.
Arguments PyInt.int : simpl never.
Arguments validate_date : simpl never.
Arguments strftime_Ymd : simpl never.

(** ** Examples of the library routines *)

Example of_int_2024 : Str.of_int 2024 = "2024".
Proof. reflexivity. Qed.

Example of_int_0 : Str.of_int 0 = "0".
Proof. reflexivity. Qed.

Example zero_pad_7 : Str.zero_pad 2 7 = "07".
Proof. reflexivity. Qed.

Example strip_ex : Str.strip "  Food and drink  " = "Food and drink".
Proof. reflexivity. Qed.

Example lower_ex : Str.lower "FooD-1" = "food-1".
Proof. reflexivity. Qed.

Example isocalendar_2024_01_01 : Calendar.isocalendar 2024 1 1 = (2024, 1, 1).
Proof. reflexivity. Qed.

Example isocalendar_2021_01_01 : Calendar.isocalendar 2021 1 1 = (2020, 53, 5).
Proof. reflexivity. Qed.

Example isocalendar_2024_12_30 : Calendar.isocalendar 2024 12 30 = (2025, 1, 1).
Proof. reflexivity. Qed.

Example strftime_2024 :
  strftime_Ymd (mkDate 2024 3 1) = "2024-03-01" /\
  strftime_Ym (mkDate 2024 3 1) = "2024-03".
Proof. split; reflexivity. Qed.

Example strftime_year_999 :
  strftime_Ymd (mkDate 999 3 1) = "999-03-01" /\
  strftime_Ym (mkDate 999 3 1) = "999-03" /\
  validate_date "999-03-01" = false.
Proof. repeat split; reflexivity. Qed.

Example strptime_plain :
  Strptime.strptime "2024-03-01" = Some (mkDate 2024 3 1).
Proof. reflexivity. Qed.

Example strptime_unpadded :
  Strptime.strptime "2024-1-5" = Some (mkDate 2024 1 5).
Proof. reflexivity. Qed.

Example strptime_feb30 : Strptime.strptime "2024-02-30" = None.
Proof. reflexivity. Qed.

Example strptime_month13 : Strptime.strptime "2024-13-01" = None.
Proof. reflexivity. Qed.

Example strptime_slashes : Strptime.strptime "2024/03/01" = None.
Proof. reflexivity. Qed.

Example strptime_year0 : Strptime.strptime "0000-01-01" = None.
Proof. reflexivity. Qed.

Example int_3 : PyInt.int " 3" = Some 3.
Proof. reflexivity. Qed.

Example int_underscore : PyInt.int "1_000" = Some 1000.
Proof. reflexivity. Qed.

Example int_neg : PyInt.int "-12" = Some (-12).
Proof. reflexivity. Qed.

Example int_bad : PyInt.int "1__0" = None /\ PyInt.int "x" = None /\ PyInt.int "" = None.
Proof. repeat split; reflexivity. Qed.

(** ** Lists: removal and update at a position *)

Lemma remove_at_length {A} (k : nat) (l : list A) :
  (k < List.length l)%nat ->
  List.length (remove_at k l) = (List.length l - 1)%nat.
Proof.
  intros Hk. unfold remove_at.
  rewrite length_app, length_firstn, length_skipn. lia.
Qed.

Lemma remove_at_before {A} (k j : nat) (l : list A) :
  (j < k)%nat -> (k < List.length l)%nat ->
  nth_error (remove_at k l) j = nth_error l j.
Proof.
  intros Hj Hk. unfold remove_at.
  rewrite nth_error_app1 by (rewrite length_firstn; lia).
  now rewrite nth_error_firstn, (proj2 (Nat.ltb_lt j k) Hj).
Qed.

Lemma remove_at_after {A} (k j : nat) (l : list A) :
  (k <= j)%nat -> (k < List.length l)%nat ->
  nth_error (remove_at k l) j = nth_error l (S j).
Proof.
  intros Hj Hk. unfold remove_at.
  rewrite nth_error_app2 by (rewrite length_firstn; lia).
  rewrite length_firstn, nth_error_skipn.
  f_equal. lia.
Qed.

Lemma update_at_length {A} (k : nat) (f : A -> A) (l : list A) :
  List.length (update_at k f l) = List.length l.
Proof.
  revert k. induction l as [|x l IH]; intros [|k]; simpl; auto.
Qed.

Lemma update_at_same {A} (k : nat) (f : A -> A) (l : list A) :
  nth_error (update_at k f l) k = option_map f (nth_error l k).
Proof.
  revert k. induction l as [|x l IH]; intros [|k]; simpl; auto.
Qed.

Lemma update_at_other {A} (k j : nat) (f : A -> A) (l : list A) :
  j <> k -> nth_error (update_at k f l) j = nth_error l j.
Proof.
  revert k j. induction l as [|x l IH]; intros [|k] [|j] Hjk; simpl; auto.
  congruence.
Qed.

Lemma resolve_index_in_range {A} (l : list A) (i : Z) :
  0 <= i < Z.of_nat (List.length l) ->
  resolve_index l i = Some (Z.to_nat i).
Proof.
  intros Hi. unfold resolve_index.
  destruct (Z.ltb_spec i 0); [lia|].
  destruct (Z.leb_spec 0 i); [|lia].
  destruct (Z.ltb_spec i (Z.of_nat (List.length l))); [|lia].
  reflexivity.
Qed.

(** ** The listing of the store *)

Lemma emit_nil st : emit [] st = st.
Proof.
  destruct st as [es [i o c f t]]. unfold emit, with_world; simpl.
  now rewrite app_nil_r.
Qed.

Lemma emit_emit a b st : emit b (emit a st) = emit (a ++ b)%list st.
Proof.
  destruct st as [es [i o c f t]]. unfold emit, with_world; simpl.
  now rewrite app_assoc.
Qed.

Lemma print_items_run idx es st :
  print_items idx es st = (Done tt, emit (item_msgs idx es) st).
Proof.
  revert idx st. induction es as [|e es IH]; intros idx st; simpl.
  - unfold ret. now rewrite emit_nil.
  - unfold bind, print. rewrite IH. now rewrite emit_emit.
Qed.

(** ** [delete_expense] *)

Lemma delete_expense_in_range es o c f t line rest choice :
  PyInt.int (Str.strip line) = Some choice ->
  1 <= choice <= Z.of_nat (List.length es) ->
  exists removed,
    nth_error es (Z.to_nat (choice - 1)) = Some removed /\
    delete_expense (mkState es (mkWorld (line :: rest) o c f t)) =
    (Done tt,
     let es' := remove_at (Z.to_nat (choice - 1)) es in
     mkState es'
       (mkWorld rest
          (o ++ item_msgs 0 es
             ++ [Prompt AskDeleteNumber; MsgDeleted removed;
                 MsgSaved DEFAULT_FILENAME])%list
          c
          (fun p => if String.eqb p DEFAULT_FILENAME
                    then Some (Json (JArray (map to_dict es'))) else f p)
          t)).
Proof.
  intros Hint Hr.
  assert (Hk : (Z.to_nat (choice - 1) < List.length es)%nat) by lia.
  destruct (nth_error es (Z.to_nat (choice - 1))) as [removed|] eqn:Hnth.
  2:{ apply nth_error_None in Hnth. lia. }
  exists removed. split; [reflexivity|].
  unfold delete_expense. unfold bind at 1. simpl.
  destruct es as [|e0 es0]; [simpl in Hr; lia|].
  unfold bind at 1. rewrite print_items_run.
  unfold try_except, bind at 1. unfold input, emit; simpl stdin; cbv iota beta.
  unfold bind at 1. unfold lift. rewrite Hint. unfold ret at 1.
  destruct (Z.leb_spec 1 choice); [|lia].
  destruct (Z.leb_spec choice (Z.of_nat (List.length (e0 :: es0)))); [|lia].
  cbv [andb].
  unfold bind at 1. unfold pop. unfold bind at 1. unfold get_expenses.
  cbv [expenses with_world]. simpl expenses.
  rewrite resolve_index_in_range by lia. rewrite Hnth.
  unfold bind at 1. unfold set_expenses, ret, with_expenses; simpl.
  unfold bind, print, save_to_file, get_expenses, write_file, emit, with_world;
    simpl.
  repeat rewrite <- app_assoc. reflexivity.
Qed.

Lemma delete_expense_out_of_range e0 es0 o c f t line rest choice :
  PyInt.int (Str.strip line) = Some choice ->
  ~ (1 <= choice <= Z.of_nat (List.length (e0 :: es0))) ->
  delete_expense (mkState (e0 :: es0) (mkWorld (line :: rest) o c f t)) =
  (Done tt,
   mkState (e0 :: es0)
     (mkWorld rest
        (o ++ item_msgs 0 (e0 :: es0)
           ++ [Prompt AskDeleteNumber; MsgInvalidSelection])%list c f t)).
Proof.
  intros Hint Hr.
  unfold delete_expense. unfold bind at 1. unfold get_expenses.
  cbn [expenses]. cbv beta iota.
  unfold bind at 1. rewrite print_items_run.
  unfold try_except, bind at 1. unfold input, emit; simpl stdin; cbv iota beta.
  unfold bind at 1. unfold lift. rewrite Hint. unfold ret at 1.
  assert (Hc : (1 <=? choice) && (choice <=? Z.of_nat (List.length (e0 :: es0))) = false).
  { apply andb_false_iff.
    destruct (Z.leb_spec 1 choice); [|now left].
    destruct (Z.leb_spec choice (Z.of_nat (List.length (e0 :: es0)))); [|now right].
    lia. }
  rewrite Hc. unfold print, emit, with_world; simpl.
  repeat rewrite <- app_assoc. reflexivity.
Qed.

Lemma is_empty_true s : is_empty s = true <-> s = "".
Proof. destruct s; simpl; split; congruence. Qed.

Lemma is_empty_false s : is_empty s = false <-> s <> "".
Proof. destruct s; simpl; split; congruence. Qed.

(** One step of symbolic execution of a monadic program. *)
Ltac run :=
  cbv [bind ret raise lift get_expenses set_expenses print save_to_file
       write_file emit with_world with_expenses now input try_except
       handler_for isinstance world stdin stdout charts files clock expenses
       negb andb fst snd].

(** ** [add_expenses] *)

Lemma add_expenses_run float es o c f t l1 l2 l3 rest a :
  float (Str.strip l1) = Some a ->
  let d := if is_empty (Str.strip l3) then strftime_Ymd t else Str.strip l3 in
  let out := (o ++ [Prompt AskAmount; Prompt AskCategory; Prompt AskDate])%list in
  add_expenses float (mkState es (mkWorld (l1 :: l2 :: l3 :: rest) o c f t)) =
  (Done tt,
   if validate_date d then
     let es' := (es ++ [mkExpense a (Str.strip l2) d])%list in
     mkState es'
       (mkWorld rest
          (out ++ [MsgAdded a (Str.strip l2) d; MsgSaved DEFAULT_FILENAME])%list c
          (fun p => if String.eqb p DEFAULT_FILENAME
                    then Some (Json (JArray (map to_dict es'))) else f p)
          t)
   else mkState es (mkWorld rest (out ++ [MsgInvalidDate])%list c f t)).
Proof.
  intros Hf d out. subst d out.
  unfold add_expenses. run. rewrite Hf. run.
  destruct (is_empty (Str.strip l3)); run.
  - destruct (validate_date (strftime_Ymd t)); run;
      repeat rewrite <- app_assoc; reflexivity.
  - destruct (validate_date (Str.strip l3)); run;
      repeat rewrite <- app_assoc; reflexivity.
Qed.

(** ** [edit_expense] *)

Lemma edit_expense_category_run float es o c f t l0 l1 l2 l3 rest choice :
  PyInt.int (Str.strip l0) = Some choice ->
  1 <= choice <= Z.of_nat (List.length es) ->
  Str.strip l1 = "" -> Str.strip l2 <> "" -> Str.strip l3 = "" ->
  exists e,
    nth_error es (Z.to_nat (choice - 1)) = Some e /\
    edit_expense float (mkState es (mkWorld (l0 :: l1 :: l2 :: l3 :: rest) o c f t)) =
    (Done tt,
     let es' :=
       update_at (Z.to_nat (choice - 1))
         (fun x => mkExpense (amount x) (Str.strip l2) (date x)) es in
     mkState es'
       (mkWorld rest
          (o ++ item_msgs 0 es
             ++ [Prompt AskEditNumber; MsgEditing e; Prompt AskNewAmount;
                 Prompt AskNewCategory; Prompt AskNewDate;
                 MsgSaved DEFAULT_FILENAME; MsgUpdated])%list
          c
          (fun p => if String.eqb p DEFAULT_FILENAME
                    then Some (Json (JArray (map to_dict es'))) else f p)
          t)).
Proof.
  intros Hint Hr H1 H2 H3.
  assert (Hk : (Z.to_nat (choice - 1) < List.length es)%nat) by lia.
  destruct (nth_error es (Z.to_nat (choice - 1))) as [e|] eqn:Hnth.
  2:{ apply nth_error_None in Hnth. lia. }
  exists e. split; [reflexivity|].
  destruct es as [|e0 es0]; [simpl in Hr; lia|].
  apply is_empty_false in H2.
  unfold edit_expense. unfold bind at 1. unfold get_expenses.
  cbn [expenses]. cbv beta iota.
  unfold bind at 1. rewrite print_items_run.
  run. rewrite Hint. run.
  destruct (Z.leb_spec 1 choice); [|lia].
  destruct (Z.leb_spec choice (Z.of_nat (List.length (e0 :: es0)))); [|lia].
  unfold item. run.
  rewrite resolve_index_in_range by lia. rewrite Hnth. run.
  rewrite H1, H2, H3. cbv [is_empty]. unfold modify. run.
  repeat rewrite <- app_assoc. reflexivity.
Qed.

(** ** The main statements about the record store *)

(** C7. [delete_expense] on a line that reads as the integer [choice]: for
    [1 <= choice <= count] it removes exactly the entry at that 1-based
    position and reports it, the store has [count - 1] entries, the entries
    before the position stay where they are, those after it move one position
    earlier, and the store is saved; for any other [choice] the store and the
    files are unchanged and the operation ends on the message of an invalid
    selection (on the message that there is nothing to delete when the store
    is empty). *)
Theorem delete_expense_spec :
  forall (st : State) (line : string) (rest : list string) (choice : Z),
    stdin (world st) = line :: rest ->
    PyInt.int (Str.strip line) = Some choice ->
    let es := expenses st in
    let count := Z.of_nat (List.length es) in
    let st' := snd (delete_expense st) in
    let k := Z.to_nat (choice - 1) in
    fst (delete_expense st) = Done tt /\
    (1 <= choice <= count ->
     exists removed,
       nth_error es k = Some removed /\
       In (MsgDeleted removed) (stdout (world st')) /\
       expenses st' = remove_at k es /\
       Z.of_nat (List.length (expenses st')) = count - 1 /\
       (forall j, (j < k)%nat -> nth_error (expenses st') j = nth_error es j) /\
       (forall j, (k <= j)%nat -> nth_error (expenses st') j = nth_error es (S j)) /\
       files (world st') DEFAULT_FILENAME
       = Some (Json (JArray (map to_dict (expenses st'))))) /\
    (~ 1 <= choice <= count ->
     expenses st' = es /\
     files (world st') = files (world st) /\
     exists out,
       stdout (world st')
       = (out ++ [if count =? 0 then MsgNoDelete else MsgInvalidSelection])%list).
Proof.
  intros [es [i o c f t]] line rest choice Hin Hint. simpl in Hin. subst i.
  cbn [expenses world]. cbv zeta.
  destruct (Z_le_dec 1 choice) as [H1|H1];
    [destruct (Z_le_dec choice (Z.of_nat (List.length es))) as [H2|H2]|].
  - destruct (delete_expense_in_range es o c f t line rest choice Hint (conj H1 H2))
      as (removed & Hnth & Hrun).
    rewrite Hrun. cbn [fst snd expenses world stdout files]. cbv zeta.
    assert (Hk : (Z.to_nat (choice - 1) < List.length es)%nat) by lia.
    split; [reflexivity|]. split; [|intros Hn; lia].
    intros _. exists removed.
    split; [exact Hnth|].
    split; [apply in_or_app; right; apply in_or_app; right; simpl; auto|].
    split; [reflexivity|].
    split; [rewrite remove_at_length by exact Hk; lia|].
    split; [intros j Hj; now apply remove_at_before|].
    split; [intros j Hj; now apply remove_at_after|].
    now rewrite String.eqb_refl.
  - destruct es as [|e0 es0].
    + unfold delete_expense. run. split; [reflexivity|].
      split; [simpl; lia|]. intros _. repeat split.
      exists o. reflexivity.
    + rewrite delete_expense_out_of_range with (choice := choice) by (auto; lia).
      cbn [fst snd expenses world stdout files].
      split; [reflexivity|]. split; [lia|]. intros _. repeat split.
      exists (o ++ item_msgs 0 (e0 :: es0) ++ [Prompt AskDeleteNumber])%list.
      repeat rewrite <- app_assoc. reflexivity.
  - destruct es as [|e0 es0].
    + unfold delete_expense. run. split; [reflexivity|].
      split; [simpl; lia|]. intros _. repeat split.
      exists o. reflexivity.
    + rewrite delete_expense_out_of_range with (choice := choice) by (auto; lia).
      cbn [fst snd expenses world stdout files].
      split; [reflexivity|]. split; [lia|]. intros _. repeat split.
      exists (o ++ item_msgs 0 (e0 :: es0) ++ [Prompt AskDeleteNumber])%list.
      repeat rewrite <- app_assoc. reflexivity.
Qed.

(** C8. [edit_expense] on a valid position, with an empty new amount, a
    non-empty new category and an empty new date: the entry at that position
    keeps its amount and date and takes the new category, every other entry
    is unchanged, and the store is saved. *)
Theorem edit_expense_category_only :
  forall (float : string -> option Q) (st : State)
         (l0 l1 l2 l3 : string) (rest : list string) (choice : Z),
    stdin (world st) = l0 :: l1 :: l2 :: l3 :: rest ->
    PyInt.int (Str.strip l0) = Some choice ->
    1 <= choice <= Z.of_nat (List.length (expenses st)) ->
    Str.strip l1 = "" -> Str.strip l2 <> "" -> Str.strip l3 = "" ->
    let st' := snd (edit_expense float st) in
    let k := Z.to_nat (choice - 1) in
    fst (edit_expense float st) = Done tt /\
    exists e,
      nth_error (expenses st) k = Some e /\
      nth_error (expenses st') k
      = Some (mkExpense (amount e) (Str.strip l2) (date e)) /\
      (forall j, j <> k -> nth_error (expenses st') j = nth_error (expenses st) j) /\
      List.length (expenses st') = List.length (expenses st) /\
      files (world st') DEFAULT_FILENAME
      = Some (Json (JArray (map to_dict (expenses st')))).
Proof.
  intros float [es [i o c f t]] l0 l1 l2 l3 rest choice Hin Hint Hr H1 H2 H3.
  simpl in Hin. subst i. cbn [expenses world] in *. cbv zeta.
  destruct (edit_expense_category_run float es o c f t l0 l1 l2 l3 rest choice
              Hint Hr H1 H2 H3) as (e & Hnth & Hrun).
  rewrite Hrun. cbn [fst snd expenses world files]. cbv zeta.
  split; [reflexivity|]. exists e.
  split; [exact Hnth|].
  split; [rewrite update_at_same, Hnth; reflexivity|].
  split; [intros j Hj; now apply update_at_other|].
  split; [apply update_at_length|].
  now rewrite String.eqb_refl.
Qed.

(** ** Persistence *)

Lemma from_dict_to_dict e st : from_dict (to_dict e) st = (Done e, st).
Proof. destruct e as [a c d]. reflexivity. Qed.

Lemma map_M_from_dict_to_dict es st :
  map_M from_dict (map to_dict es) st = (Done es, st).
Proof.
  induction es as [|e es IH]; simpl.
  - reflexivity.
  - unfold bind at 1. rewrite from_dict_to_dict.
    unfold bind at 1. rewrite IH. reflexivity.
Qed.

Lemma load_from_file_missing p st :
  files (world st) p = None ->
  load_from_file p st = (Done tt, emit [MsgNoData] st).
Proof.
  intros Hf. unfold load_from_file, try_except, bind at 1, json_load.
  rewrite Hf. reflexivity.
Qed.

Lemma load_from_file_not_json p text st :
  files (world st) p = Some (NotJson text) ->
  load_from_file p st = (Done tt, emit [MsgCorrupted] st).
Proof.
  intros Hf. unfold load_from_file, try_except, bind at 1, json_load.
  rewrite Hf. reflexivity.
Qed.

Lemma load_from_file_saved p es st :
  files (world st) p = Some (Json (JArray (map to_dict es))) ->
  load_from_file p st
  = (Done tt, emit [MsgLoaded (List.length es) p] (with_expenses es st)).
Proof.
  intros Hf. unfold load_from_file, try_except, bind at 1, json_load.
  rewrite Hf. unfold bind at 1. unfold iter, ret at 1. unfold bind at 1.
  rewrite map_M_from_dict_to_dict. reflexivity.
Qed.

(** C5. Saving a store to a path and loading that path again, into a tracker
    holding anything, gives back the saved entries: the same values, field by
    field, in the same order. *)
Theorem save_then_load_roundtrip :
  forall (es es0 : list Expense) (w : World) (p : string),
    let saved := snd (save_to_file p (mkState es w)) in
    let loaded := load_from_file p (mkState es0 (world saved)) in
    fst loaded = Done tt /\
    expenses (snd loaded) = es /\
    map amount (expenses (snd loaded)) = map amount es /\
    map category (expenses (snd loaded)) = map category es /\
    map date (expenses (snd loaded)) = map date es.
Proof.
  intros es es0 [i o c f t] p. cbv zeta.
  rewrite (load_from_file_saved p es).
  - cbn [fst snd expenses emit with_world with_expenses]. auto.
  - unfold save_to_file. run. now rewrite String.eqb_refl.
Qed.

(** C3, at a file that holds the JSON text [[{"amount": 1.0}]]: the entry
    lacks the keys [category] and [date], [from_dict] raises [KeyError], no
    clause of [load_from_file] handles it and the exception leaves the
    operation. *)
Theorem load_from_file_missing_key_raises :
  let doc := JArray [JObject [("amount", JNumber 1)]] in
  let st := init (sample_world (Some (Json doc))) in
  load_from_file DEFAULT_FILENAME st = (Raise KeyError, st).
Proof. reflexivity. Qed.

(** The same on a document that is not an array of objects. *)
Example load_from_file_number_raises :
  let st := init (sample_world (Some (Json (JNumber 5)))) in
  load_from_file DEFAULT_FILENAME st = (Raise TypeError, st).
Proof. reflexivity. Qed.

Example load_from_file_array_of_strings_raises :
  let st := init (sample_world (Some (Json (JArray [JString "x"])))) in
  load_from_file DEFAULT_FILENAME st = (Raise TypeError, st).
Proof. reflexivity. Qed.

(** Content that is not text, or is nested too deep, and a path that cannot
    be read: the exception is none of the two handled. *)
Example load_from_file_other_content_raises :
  fst (load_from_file DEFAULT_FILENAME (init (sample_world (Some NotText))))
  = Raise UnicodeDecodeError /\
  fst (load_from_file DEFAULT_FILENAME (init (sample_world (Some TooDeep))))
  = Raise RecursionError /\
  fst (load_from_file DEFAULT_FILENAME (init (sample_world (Some Unreadable))))
  = Raise OSError.
Proof. repeat split; reflexivity. Qed.

Example load_from_file_not_json_ex :
  let st := init (sample_world (Some (NotJson "not valid json"))) in
  load_from_file DEFAULT_FILENAME st = (Done tt, emit [MsgCorrupted] st).
Proof. reflexivity. Qed.

(** ** The chart *)

(** C2, at a store with the categories [Food] and [food]: the chart gets two
    bars, one per spelling; the two amounts are not added. *)
Theorem graphical_summary_case_sensitive :
  let es := [mkExpense 1 "Food" "2024-03-01"; mkExpense 2 "food" "2024-03-02"] in
  charts (world (snd (graphical_summary (mkState es (sample_world None)))))
  = [(["Food"; "food"], [(0 + 1)%Q; (0 + 2)%Q])].
Proof. reflexivity. Qed.

(** ** Sums *)

Lemma fold_left_Qplus xs a :
  (fold_left Qplus xs a == a + fold_left Qplus xs 0)%Q.
Proof.
  revert a. induction xs as [|x xs IH]; intros a; simpl.
  - ring.
  - rewrite (IH (a + x)%Q), (IH (0 + x)%Q). ring.
Qed.

Lemma sum_nil : (sum [] == 0)%Q.
Proof. reflexivity. Qed.

Lemma sum_cons x xs : (sum (x :: xs) == x + sum xs)%Q.
Proof. unfold sum. simpl. rewrite fold_left_Qplus. ring. Qed.

Lemma sum_app xs ys : (sum (xs ++ ys)%list == sum xs + sum ys)%Q.
Proof.
  induction xs as [|x xs IH]; simpl.
  - rewrite sum_nil. ring.
  - rewrite !sum_cons, IH. ring.
Qed.

Lemma sum_map_plus {A} (f g : A -> Q) (l : list A) :
  (sum (map (fun x => f x + g x) l) == sum (map f l) + sum (map g l))%Q.
Proof.
  induction l as [|x l IH]; simpl.
  - rewrite sum_nil. ring.
  - rewrite !sum_cons, IH. ring.
Qed.

Lemma sum_map_ext {A} (f g : A -> Q) (l : list A) :
  (forall x, In x l -> (f x == g x)%Q) -> (sum (map f l) == sum (map g l))%Q.
Proof.
  induction l as [|x l IH]; intros H; simpl.
  - reflexivity.
  - assert (Hx := H x (or_introl eq_refl)).
    assert (IH' := IH (fun y Hy => H y (or_intror Hy))).
    rewrite !sum_cons, IH', Hx. reflexivity.
Qed.

Lemma sum_map_zero {A} (l : list A) : (sum (map (fun _ => 0) l) == 0)%Q.
Proof.
  induction l as [|x l IH]; simpl.
  - reflexivity.
  - rewrite sum_cons, IH. ring.
Qed.

(** ** Totals by category *)

Lemma total_by_category_nil c : (total_by_category [] c == 0)%Q.
Proof. reflexivity. Qed.

Lemma total_by_category_cons e es c :
  (total_by_category (e :: es) c
   == (if same_category (Str.lower (category e)) c then amount e else 0)
      + total_by_category es c)%Q.
Proof.
  unfold total_by_category, same_category. simpl.
  destruct (String.eqb (Str.lower (category e)) (Str.lower c)); simpl.
  - apply sum_cons.
  - ring.
Qed.

(** A key met once in a list of categories of distinct keys selects one
    amount. *)
Lemma sum_select_one k a cs :
  NoDup (map Str.lower cs) -> In k (map Str.lower cs) ->
  (sum (map (fun c => if same_category k c then a else 0) cs) == a)%Q.
Proof.
  induction cs as [|c cs IH]; simpl; intros Hnd Hin.
  - contradiction.
  - inversion Hnd as [|? ? Hnotin Hnd']; subst.
    rewrite sum_cons. unfold same_category at 1.
    destruct (String.eqb_spec k (Str.lower c)) as [Heq|Hne].
    + subst k.
      rewrite (sum_map_ext _ (fun _ => 0%Q)), sum_map_zero; [ring|].
      intros c' Hc'. unfold same_category.
      destruct (String.eqb_spec (Str.lower c) (Str.lower c')) as [Heq|]; [|reflexivity].
      exfalso. apply Hnotin. rewrite Heq. now apply in_map.
    + destruct Hin as [Hin|Hin]; [congruence|].
      rewrite IH by assumption. ring.
Qed.

Lemma totals_partition cs es :
  NoDup (map Str.lower cs) ->
  (forall e, In e es -> In (Str.lower (category e)) (map Str.lower cs)) ->
  (sum (map (total_by_category es) cs) == total_overall es)%Q.
Proof.
  intros Hnd. induction es as [|e es IH]; intros Hcov.
  - unfold total_overall. simpl. rewrite (sum_map_ext _ (fun _ => 0%Q)).
    + apply sum_map_zero.
    + intros; apply total_by_category_nil.
  - rewrite (sum_map_ext _ _ _ (fun c _ => total_by_category_cons e es c)).
    rewrite sum_map_plus, IH by (intros; apply Hcov; simpl; auto).
    rewrite sum_select_one by (auto; apply Hcov; simpl; auto).
    unfold total_overall. simpl. rewrite sum_cons. reflexivity.
Qed.

Lemma existsb_eqb_In k seen : existsb (String.eqb k) seen = true <-> In k seen.
Proof.
  rewrite existsb_exists. split.
  - intros (x & Hx & Heq). apply String.eqb_eq in Heq. now subst.
  - intros H. exists k. split; [assumption|apply String.eqb_refl].
Qed.

Lemma distinct_categories_from_spec es :
  forall seen,
    let cs := distinct_categories_from seen es in
    NoDup (map Str.lower cs) /\
    (forall k, In k (map Str.lower cs) -> ~ In k seen) /\
    (forall e, In e es ->
               In (Str.lower (category e)) seen
               \/ In (Str.lower (category e)) (map Str.lower cs)).
Proof.
  induction es as [|e es IH]; intros seen; simpl.
  - split; [constructor|]. split; intros ? [].
  - destruct (existsb (String.eqb (Str.lower (category e))) seen) eqn:Hseen.
    + destruct (IH seen) as (Hnd & Hfresh & Hcov).
      split; [assumption|]. split; [assumption|].
      intros e' [->|Hin]; [|now apply Hcov].
      left. now apply existsb_eqb_In.
    + destruct (IH (Str.lower (category e) :: seen)) as (Hnd & Hfresh & Hcov).
      assert (Hnot : ~ In (Str.lower (category e)) seen).
      { intros Hin. apply existsb_eqb_In in Hin. congruence. }
      simpl. split; [|split].
      * constructor; [|assumption].
        intros Hin. apply (Hfresh _ Hin). simpl; auto.
      * intros k [<-|Hin]; [assumption|].
        intros Hk. apply (Hfresh _ Hin). simpl; auto.
      * intros e' [->|Hin]; [right; auto|].
        destruct (Hcov e' Hin) as [[Heq|Hs]|Hc]; auto.
Qed.

(** With additions that do not round (the amounts as rationals), the overall
    total is the sum, over the categories of the store taken up to letter
    case, of the total of each category. *)
Lemma total_overall_is_sum_of_category_totals :
  forall es : list Expense,
    (total_overall es
     == sum (map (total_by_category es) (distinct_categories es)))%Q.
Proof.
  intros es. symmetry.
  destruct (distinct_categories_from_spec es []) as (Hnd & _ & Hcov).
  apply totals_partition; [exact Hnd|].
  intros e He. destruct (Hcov e He) as [[]|H]; exact H.
Qed.

(** ** The totals of the chart *)

Lemma dict_get_dict_add k a d c :
  (dict_get (dict_add k a d) c
   == dict_get d c + (if String.eqb k c then a else 0))%Q.
Proof.
  induction d as [|[k' v] d IH]; simpl.
  - destruct (String.eqb k c); ring.
  - destruct (String.eqb_spec k' k) as [->|Hne]; simpl.
    + destruct (String.eqb k c); ring.
    + destruct (String.eqb_spec k' c) as [->|Hne'].
      * destruct (String.eqb_spec k c) as [->|_]; [congruence|ring].
      * exact IH.
Qed.

(** The chart adds up the amounts of the entries whose category is the same
    string, letter case included. *)
Lemma category_totals_exact es c :
  (dict_get (category_totals es) c
   == sum (map amount (filter (fun e => String.eqb (category e) c) es)))%Q.
Proof.
  unfold category_totals.
  assert (G : forall d,
             (dict_get
                (fold_left (fun d exp => dict_add (category exp) (amount exp) d) es d) c
              == dict_get d c
                 + sum (map amount (filter (fun e => String.eqb (category e) c) es)))%Q).
  { induction es as [|e es IH]; intros d; simpl.
    - rewrite sum_nil. ring.
    - rewrite IH, dict_get_dict_add.
      destruct (String.eqb (category e) c); simpl.
      + rewrite sum_cons. ring.
      + ring. }
  rewrite G. simpl. ring.
Qed.

(** ** The time summary *)

Lemma sum_values_dict_add k a d :
  (sum (values (dict_add k a d)) == sum (values d) + a)%Q.
Proof.
  induction d as [|[k' v] d IH]; simpl.
  - unfold values; simpl. rewrite sum_cons, sum_nil. ring.
  - destruct (String.eqb k' k); unfold values in *; simpl.
    + rewrite !sum_cons. ring.
    + rewrite !sum_cons, IH. ring.
Qed.

Lemma validate_date_strptime s :
  validate_date s = true -> exists d, Strptime.strptime s = Some d.
Proof.
  unfold validate_date. destruct (Strptime.strptime s) as [d|]; [eauto|discriminate].
Qed.

Lemma period_key_some time_choice e d :
  time_choice = 1 \/ time_choice = 2 \/ time_choice = 3 ->
  exists key, period_key time_choice e d = Some key.
Proof.
  intros [ -> | [ -> | -> ] ]; unfold period_key; simpl; eauto.
Qed.

(** The loop as a function of the entries: the dictionary it builds and the
    warnings it prints. *)
Lemma summary_loop_run time_choice es :
  time_choice = 1 \/ time_choice = 2 \/ time_choice = 3 ->
  forall d,
  exists d' warnings,
    (forall st,
       summary_loop time_choice es d st = (Done (Some d'), emit warnings st)) /\
    (forall st,
       summary_loop time_choice (valid_date_entries es) d st = (Done (Some d'), st)) /\
    (sum (values d') == sum (values d) + sum (map amount (valid_date_entries es)))%Q.
Proof.
  intros Htc. induction es as [|e es IH]; intros d.
  - exists d, []. split; [|split].
    + intros st. now rewrite emit_nil.
    + reflexivity.
    + simpl. rewrite sum_nil. ring.
  - unfold valid_date_entries in *. cbn [summary_loop filter].
    destruct (validate_date (date e)) eqn:Hv; cbn [negb].
    + destruct (validate_date_strptime _ Hv) as (dt & Hdt).
      destruct (period_key_some time_choice e dt Htc) as (key & Hkey).
      destruct (IH (dict_add key (amount e) d)) as (d' & ws & H1 & H2 & H3).
      exists d', ws. cbn [summary_loop]. rewrite Hv. cbn [negb].
      unfold bind. rewrite Hdt. unfold lift, ret. rewrite Hkey.
      split; [exact H1|]. split; [exact H2|].
      rewrite H3, sum_values_dict_add. cbn [map]. rewrite sum_cons. ring.
    + destruct (IH d) as (d' & ws & H1 & H2 & H3).
      exists d', ([MsgSkipInvalidDate (date e)] ++ ws)%list.
      split; [|split; assumption].
      intros st. unfold bind, print. rewrite <- emit_emit. apply H1.
Qed.

Lemma valid_date_entries_all es :
  forallb (fun e => validate_date (date e)) es = true ->
  valid_date_entries es = es.
Proof.
  unfold valid_date_entries. induction es as [|e es IH]; simpl; intros H.
  - reflexivity.
  - apply andb_true_iff in H. destruct H as [H1 H2].
    rewrite H1, IH by assumption. reflexivity.
Qed.

(** With additions that do not round (the amounts as rationals), for each of
    the three granularities the loop of the time summary ends with a
    dictionary whose values add up to the amounts of the entries whose date
    passes [validate_date]; the entries with an invalid date change nothing
    in it (the loop over the valid entries alone builds the same
    dictionary); when every date is valid the values add up to the overall
    total. *)
Lemma time_summary_total :
  forall (time_choice : Z) (es : list Expense) (st : State),
    time_choice = 1 \/ time_choice = 2 \/ time_choice = 3 ->
    exists summary st',
      summary_loop time_choice es [] st = (Done (Some summary), st') /\
      fst (summary_loop time_choice (valid_date_entries es) [] st)
      = Done (Some summary) /\
      (sum (values summary) == sum (map amount (valid_date_entries es)))%Q /\
      (forallb (fun e => validate_date (date e)) es = true ->
       (sum (values summary) == total_overall es)%Q).
Proof.
  intros time_choice es st Htc.
  destruct (summary_loop_run time_choice es Htc []) as (d' & ws & H1 & H2 & H3).
  exists d', (emit ws st).
  split; [apply H1|]. split; [now rewrite H2|].
  assert (Hsum : (sum (values d') == sum (map amount (valid_date_entries es)))%Q).
  { rewrite H3. unfold values. simpl. rewrite sum_nil. ring. }
  split; [exact Hsum|].
  intros Hall. rewrite Hsum, valid_date_entries_all by assumption. reflexivity.
Qed.

(** ** [view_summary], the time summary as printed *)

Lemma for_each_print_run {A} (f : A -> message) (xs : list A) st :
  for_each (fun x => print (f x)) xs st = (Done tt, emit (map f xs) st).
Proof.
  revert st. induction xs as [|x xs IH]; intros st; simpl.
  - unfold ret. now rewrite emit_nil.
  - unfold bind, print. rewrite IH. now rewrite emit_emit.
Qed.

Lemma input_int_run p line rest n es o c f t :
  PyInt.int (Str.strip line) = Some n ->
  input_int p (mkState es (mkWorld (line :: rest) o c f t))
  = (Done (Some n), mkState es (mkWorld rest (o ++ [Prompt p])%list c f t)).
Proof.
  intros Hn. unfold input_int. run. rewrite Hn. reflexivity.
Qed.

(** With the choices 3 and then 1, 2 or 3, [view_summary] prints the
    warnings of the loop, the header and one line for each key of the
    dictionary of the loop, in the order of the keys. *)
Lemma view_summary_time_run e es l1 l2 rest o c f t time_choice :
  PyInt.int (Str.strip l1) = Some 3 ->
  PyInt.int (Str.strip l2) = Some time_choice ->
  time_choice = 1 \/ time_choice = 2 \/ time_choice = 3 ->
  exists summary warnings,
    (forall st,
       summary_loop time_choice (e :: es) [] st
       = (Done (Some summary), emit warnings st)) /\
    view_summary (mkState (e :: es) (mkWorld (l1 :: l2 :: rest) o c f t))
    = (Done tt,
       mkState (e :: es)
         (mkWorld rest
            (o ++ [Prompt AskSummaryChoice; Prompt AskTimeChoice]
               ++ warnings ++ [MsgSummaryHeader]
               ++ map (fun kv => MsgPeriod (fst kv) (snd kv))
                    (sorted_items summary))%list
            c f t)).
Proof.
  intros H1 H2 Htc.
  destruct (summary_loop_run time_choice (e :: es) Htc []) as (d' & ws & Hrun & _ & _).
  exists d', ws. split; [exact Hrun|].
  unfold view_summary. unfold bind at 1. unfold get_expenses.
  cbn [expenses]. cbv beta iota.
  unfold bind at 1. rewrite (input_int_run _ _ _ _ _ _ _ _ _ H1).
  change (3 =? 1) with false. change (3 =? 2) with false.
  change (3 =? 3) with true. cbv iota.
  unfold bind at 1. rewrite (input_int_run _ _ _ _ _ _ _ _ _ H2).
  unfold bind at 1. rewrite Hrun.
  unfold bind at 1. unfold print at 1.
  rewrite for_each_print_run. unfold emit, with_world; simpl.
  repeat rewrite <- app_assoc. reflexivity.
Qed.

(** ** The date parser *)

Import Str Strptime.

#[local] Arguments Z.mul : simpl nomatch.
#[local] Arguments Z.add : simpl nomatch.
#[local] Arguments Z.sub : simpl nomatch.
#[local] Arguments Z.leb : simpl nomatch.
#[local] Arguments Z.eqb : simpl nomatch.

Lemma length_append s1 s2 :
  String.length (s1 ++ s2) = (String.length s1 + String.length s2)%nat.
Proof. induction s1 as [|c s1 IH]; simpl; auto. Qed.

Lemma code_range c : 0 <= code c < 256.
Proof.
  unfold code. destruct c as [[|] [|] [|] [|] [|] [|] [|] [|]]; vm_compute;
    split; congruence.
Qed.

Lemma code_char c n : code c = n -> c = ascii_of_N (Z.to_N n).
Proof.
  intros <-. unfold code. now rewrite N2Z.id, ascii_N_embedding.
Qed.

Lemma digit_val_range c v : digit_val c = Some v -> 0 <= v <= 9.
Proof.
  unfold digit_val.
  destruct (Z.leb_spec 48 (code c)); destruct (Z.leb_spec (code c) 57);
    simpl; intros Hx; inversion Hx; lia.
Qed.

Lemma digit_val_hyphen c : code c = 45 -> digit_val c = None.
Proof. unfold digit_val. intros ->. reflexivity. Qed.

Lemma digit_val_space c : code c = 32 -> digit_val c = None.
Proof. unfold digit_val. intros ->. reflexivity. Qed.

Lemma hyphen_inv s r : hyphen s = Some r -> s = String "-" r.
Proof.
  destruct s as [|c s]; simpl; [discriminate|].
  destruct (Z.eqb_spec (code c) 45) as [Hc|]; [|discriminate].
  intros Hx; inversion Hx; subst. now rewrite (code_char c 45 Hc).
Qed.

Lemma directive_Y_inv s y r :
  directive_Y s = Some (y, r) -> exists ys, s = ys ++ r /\ numeral 4 ys y.
Proof.
  destruct s as [|c1 [|c2 [|c3 [|c4 s]]]]; simpl; try discriminate.
  destruct (digit_val c1) as [v1|] eqn:E1; [|discriminate].
  destruct (digit_val c2) as [v2|] eqn:E2; [|discriminate].
  destruct (digit_val c3) as [v3|] eqn:E3; [|discriminate].
  destruct (digit_val c4) as [v4|] eqn:E4; [|discriminate].
  intros Hx; inversion Hx; subst.
  exists (String c1 (String c2 (String c3 (String c4 "")))).
  split; [reflexivity|]. split; [reflexivity|].
  cbn [digits_value]. rewrite E1, E2, E3, E4. f_equal; lia.
Qed.

Lemma numeral_1 t v :
  numeral 1 t v -> exists c, t = String c "" /\ digit_val c = Some v.
Proof.
  intros [Hl Hv]. destruct t as [|c [|c' t]]; simpl in Hl; try discriminate.
  exists c. split; [reflexivity|]. cbn [digits_value] in Hv.
  destruct (digit_val c) as [v1|]; [|discriminate].
  inversion Hv. f_equal; lia.
Qed.

Lemma numeral_2 t v :
  numeral 2 t v ->
  exists c1 c2 v1 v2,
    t = String c1 (String c2 "") /\ digit_val c1 = Some v1 /\
    digit_val c2 = Some v2 /\ v = 10 * v1 + v2.
Proof.
  intros [Hl Hv]. destruct t as [|c1 [|c2 [|c3 t]]]; simpl in Hl; try discriminate.
  cbn [digits_value] in Hv.
  destruct (digit_val c1) as [v1|] eqn:E1; [|discriminate].
  destruct (digit_val c2) as [v2|] eqn:E2; [|discriminate].
  exists c1, c2, v1, v2. inversion Hv.
  split; [reflexivity|]. split; [assumption|]. split; [assumption|]. lia.
Qed.

Lemma numeral_1_intro c v : digit_val c = Some v -> numeral 1 (String c "") v.
Proof.
  intros E. split; [reflexivity|]. cbn [digits_value]. rewrite E. f_equal; lia.
Qed.

Lemma numeral_2_intro c1 c2 v1 v2 :
  digit_val c1 = Some v1 -> digit_val c2 = Some v2 ->
  numeral 2 (String c1 (String c2 "")) (10 * v1 + v2).
Proof.
  intros E1 E2. split; [reflexivity|]. cbn [digits_value]. rewrite E1, E2.
  f_equal; lia.
Qed.

Lemma directive_Y_ok ys y r : numeral 4 ys y -> directive_Y (ys ++ r) = Some (y, r).
Proof.
  intros [Hl Hv].
  destruct ys as [|c1 [|c2 [|c3 [|c4 [|c5 t]]]]]; simpl in Hl; try discriminate.
  cbn [digits_value] in Hv. simpl.
  destruct (digit_val c1) as [v1|] eqn:E1; [|discriminate].
  destruct (digit_val c2) as [v2|] eqn:E2; [|discriminate].
  destruct (digit_val c3) as [v3|] eqn:E3; [|discriminate].
  destruct (digit_val c4) as [v4|] eqn:E4; [|discriminate].
  inversion Hv. do 2 f_equal; lia.
Qed.

Lemma directive_m_inv s m r :
  directive_m s = Some (m, r) ->
  exists ms, s = ms ++ r /\ (numeral 2 ms m \/ numeral 1 ms m) /\ 1 <= m <= 12.
Proof.
  destruct s as [|c1 rest1]; simpl; [discriminate|].
  destruct (digit_val c1) as [v1|] eqn:E1.
  2:{ destruct rest1; discriminate. }
  pose proof (digit_val_range _ _ E1) as R1.
  assert (One : (if 1 <=? v1 then Some (v1, rest1) else None) = Some (m, r) ->
                exists ms, String c1 rest1 = ms ++ r
                           /\ (numeral 2 ms m \/ numeral 1 ms m) /\ 1 <= m <= 12).
  { destruct (Z.leb_spec 1 v1); [|discriminate].
    intros Hx; inversion Hx; subst. exists (String c1 "").
    split; [reflexivity|]. split; [right; now apply numeral_1_intro|lia]. }
  destruct rest1 as [|c2 rest2]; [exact One|].
  destruct (digit_val c2) as [v2|] eqn:E2; [|exact One].
  pose proof (digit_val_range _ _ E2) as R2.
  destruct ((v1 =? 1) && (v2 <=? 2)) eqn:T1.
  { intros Hx; inversion Hx; subst. apply andb_true_iff in T1. destruct T1 as [A B].
    apply Z.eqb_eq in A. apply Z.leb_le in B. subst v1.
    exists (String c1 (String c2 "")). split; [reflexivity|].
    split; [left; apply (numeral_2_intro c1 c2 1 v2); assumption|lia]. }
  destruct ((v1 =? 0) && (1 <=? v2)) eqn:T2; [|exact One].
  intros Hx; inversion Hx; subst. apply andb_true_iff in T2. destruct T2 as [A B].
  apply Z.eqb_eq in A. apply Z.leb_le in B. subst v1.
  exists (String c1 (String c2 "")). split; [reflexivity|].
  split; [left; apply (numeral_2_intro c1 c2 0 m); assumption|lia].
Qed.

Lemma directive_m_ok ms m c r :
  numeral 2 ms m \/ numeral 1 ms m -> 1 <= m <= 12 -> code c = 45 ->
  directive_m (ms ++ String c r) = Some (m, String c r).
Proof.
  intros [H|H] Hm Hc.
  - destruct (numeral_2 _ _ H) as (c1 & c2 & v1 & v2 & -> & E1 & E2 & ->).
    pose proof (digit_val_range _ _ E1). pose proof (digit_val_range _ _ E2).
    simpl. rewrite E1, E2.
    assert (v1 = 0 \/ v1 = 1) as [-> | ->] by lia; simpl.
    + destruct (Z.leb_spec 1 v2); [|lia]. do 2 f_equal.
    + destruct (Z.leb_spec v2 2); [|lia]. reflexivity.
  - destruct (numeral_1 _ _ H) as (c1 & -> & E1).
    simpl. rewrite E1, (digit_val_hyphen c Hc).
    destruct (Z.leb_spec 1 m); [reflexivity|lia].
Qed.

Lemma directive_d_inv s d r :
  directive_d s = Some (d, r) ->
  exists ds, s = ds ++ r
             /\ (numeral 2 ds d \/ numeral 1 ds d
                 \/ exists t, ds = String " " t /\ numeral 1 t d)
             /\ 1 <= d <= 31.
Proof.
  destruct s as [|c1 rest1]; simpl; [discriminate|].
  destruct (digit_val c1) as [v1|] eqn:E1.
  - pose proof (digit_val_range _ _ E1) as R1.
    assert (One : (if 1 <=? v1 then Some (v1, rest1) else None) = Some (d, r) ->
                  exists ds, String c1 rest1 = ds ++ r
                             /\ (numeral 2 ds d \/ numeral 1 ds d
                                 \/ exists t, ds = String " " t /\ numeral 1 t d)
                             /\ 1 <= d <= 31).
    { destruct (Z.leb_spec 1 v1); [|discriminate].
      intros Hx; inversion Hx; subst. exists (String c1 "").
      split; [reflexivity|].
      split; [right; left; now apply numeral_1_intro|lia]. }
    destruct rest1 as [|c2 rest2]; [exact One|].
    destruct (digit_val c2) as [v2|] eqn:E2; [|exact One].
    pose proof (digit_val_range _ _ E2) as R2.
    assert (Two : forall v, v = 10 * v1 + v2 -> 1 <= v <= 31 ->
                  Some (v, rest2) = Some (d, r) ->
                  exists ds, String c1 (String c2 rest2) = ds ++ r
                             /\ (numeral 2 ds d \/ numeral 1 ds d
                                 \/ exists t, ds = String " " t /\ numeral 1 t d)
                             /\ 1 <= d <= 31).
    { intros v -> Hv Hx; inversion Hx; subst.
      exists (String c1 (String c2 "")). split; [reflexivity|].
      split; [left; now apply numeral_2_intro|lia]. }
    destruct ((v1 =? 3) && (v2 <=? 1)) eqn:T1.
    { apply andb_true_iff in T1. destruct T1 as [A B].
      apply Z.eqb_eq in A. apply Z.leb_le in B. apply Two; lia. }
    destruct ((1 <=? v1) && (v1 <=? 2)) eqn:T2.
    { apply andb_true_iff in T2. destruct T2 as [A B].
      apply Z.leb_le in A. apply Z.leb_le in B. apply Two; lia. }
    destruct ((v1 =? 0) && (1 <=? v2)) eqn:T3; [|exact One].
    apply andb_true_iff in T3. destruct T3 as [A B].
    apply Z.eqb_eq in A. apply Z.leb_le in B. apply Two; lia.
  - assert (Sp : (if code c1 =? 32
                  then match rest1 with
                       | String c2 rest2 =>
                           match digit_val c2 with
                           | Some v2 => if 1 <=? v2 then Some (v2, rest2) else None
                           | None => None
                           end
                       | EmptyString => None
                       end
                  else None) = Some (d, r) ->
                 exists ds, String c1 rest1 = ds ++ r
                            /\ (numeral 2 ds d \/ numeral 1 ds d
                                \/ exists t, ds = String " " t /\ numeral 1 t d)
                            /\ 1 <= d <= 31).
    { destruct (Z.eqb_spec (code c1) 32) as [Hc|]; [|discriminate].
      destruct rest1 as [|c2 rest2]; [discriminate|].
      destruct (digit_val c2) as [v2|] eqn:E2; [|discriminate].
      pose proof (digit_val_range _ _ E2) as R2.
      destruct (Z.leb_spec 1 v2); [|discriminate].
      intros Hx; inversion Hx; subst.
      exists (String c1 (String c2 "")). split; [reflexivity|].
      split; [|lia]. right; right. exists (String c2 "").
      split; [now rewrite (code_char c1 32 Hc)|now apply numeral_1_intro]. }
    destruct rest1; exact Sp.
Qed.

Lemma directive_d_ok ds d :
  numeral 2 ds d \/ numeral 1 ds d
  \/ (exists t, ds = String " " t /\ numeral 1 t d) ->
  1 <= d <= 31 ->
  directive_d ds = Some (d, "").
Proof.
  intros [H|[H|(t & -> & H)]] Hd.
  - destruct (numeral_2 _ _ H) as (c1 & c2 & v1 & v2 & -> & E1 & E2 & ->).
    pose proof (digit_val_range _ _ E1). pose proof (digit_val_range _ _ E2).
    simpl. rewrite E1, E2.
    assert (v1 = 0 \/ v1 = 1 \/ v1 = 2 \/ v1 = 3) as [-> | [-> | [-> | ->]]]
        by lia; simpl.
    + destruct (Z.leb_spec 1 v2); [|lia]. do 2 f_equal.
    + do 2 f_equal.
    + do 2 f_equal.
    + destruct (Z.leb_spec v2 1); [|lia]. reflexivity.
  - destruct (numeral_1 _ _ H) as (c1 & -> & E1).
    simpl. rewrite E1. destruct (Z.leb_spec 1 d); [reflexivity|lia].
  - destruct (numeral_1 _ _ H) as (c1 & -> & E1).
    simpl. rewrite E1. destruct (Z.leb_spec 1 d); [reflexivity|lia].
Qed.

Lemma check_date_fields_gregorian y m d :
  Calendar.check_date_fields y m d = true <-> gregorian y m d.
Proof.
  unfold Calendar.check_date_fields, gregorian, Calendar.MINYEAR, Calendar.MAXYEAR.
  rewrite !andb_true_iff, !Z.leb_le. tauto.
Qed.

Lemma days_in_month_le_31 y m : 1 <= m <= 12 -> Calendar.days_in_month y m <= 31.
Proof.
  intros Hm. unfold Calendar.days_in_month.
  assert (m = 1 \/ m = 2 \/ m = 3 \/ m = 4 \/ m = 5 \/ m = 6 \/ m = 7 \/ m = 8
          \/ m = 9 \/ m = 10 \/ m = 11 \/ m = 12) as H by lia.
  repeat (destruct H as [-> | H]); try subst m; simpl;
    try destruct (Calendar.is_leap y); lia.
Qed.

Lemma validate_date_accepted s : validate_date s = true <-> accepted_date s.
Proof.
  unfold validate_date, strptime, match_format. split.
  - destruct (directive_Y s) as [[y s1]|] eqn:EY; [|discriminate].
    destruct (hyphen s1) as [s2|] eqn:H1; [|discriminate].
    destruct (directive_m s2) as [[m s3]|] eqn:EM; [|discriminate].
    destruct (hyphen s3) as [s4|] eqn:H2; [|discriminate].
    destruct (directive_d s4) as [[d s5]|] eqn:ED; [|discriminate].
    destruct s5; [|discriminate].
    destruct (Calendar.check_date_fields y m d) eqn:EC; [|discriminate].
    intros _.
    apply directive_Y_inv in EY. destruct EY as (ys & -> & Hy).
    apply hyphen_inv in H1. subst s1.
    apply directive_m_inv in EM. destruct EM as (ms & -> & Hm & _).
    apply hyphen_inv in H2. subst s3.
    apply directive_d_inv in ED. destruct ED as (ds & -> & Hd & _).
    exists ys, ms, (ds ++ ""), y, m, d.
    assert (Hnil : forall t, t ++ "" = t).
    { induction t as [|c t IH]; simpl; congruence. }
    rewrite Hnil.
    split; [reflexivity|]. split; [assumption|]. split; [assumption|].
    split; [assumption|]. now apply check_date_fields_gregorian.
  - intros (ys & ms & ds & y & m & d & -> & Hy & Hm & Hd & Hg).
    pose proof Hg as (Hyr & Hmr & Hdr).
    pose proof (days_in_month_le_31 y m Hmr).
    unfold ymd_text. rewrite (directive_Y_ok ys y _ Hy). cbn [append hyphen].
    change (code "-" =? 45) with true. cbv iota.
    rewrite (directive_m_ok ms m "-" _ Hm Hmr eq_refl). cbn [hyphen].
    change (code "-" =? 45) with true. cbv iota.
    rewrite (directive_d_ok ds d Hd) by lia.
    apply check_date_fields_gregorian in Hg. now rewrite Hg.
Qed.

Lemma canonical_accepted s : canonical_date s -> accepted_date s.
Proof.
  intros (ys & ms & ds & y & m & d & Hs & Hy & Hm & Hd & Hg).
  exists ys, ms, ds, y, m, d. tauto.
Qed.

Lemma canonical_length s : canonical_date s -> String.length s = 10%nat.
Proof.
  intros (ys & ms & ds & y & m & d & -> & [Hy _] & [Hm _] & [Hd _] & _).
  unfold ymd_text. rewrite !length_append, Hy, Hm, Hd. reflexivity.
Qed.

(** The ASCII texts [validate_date] accepts.  It accepts every text of the
    grammar [YYYY-MM-DD] that is a date of the calendar in the years 1 to
    9999, and it accepts exactly the texts of the wider grammar
    [accepted_date]: any other text (other separators, a month or a day that
    does not exist, characters that are not digits) is rejected. *)
Lemma validate_date_spec :
  forall s : string,
    ascii_text s = true ->
    (canonical_date s -> validate_date s = true) /\
    (validate_date s = true <-> accepted_date s) /\
    (~ accepted_date s -> validate_date s = false).
Proof.
  intros s _. split; [|split].
  - intros H. apply validate_date_accepted. now apply canonical_accepted.
  - apply validate_date_accepted.
  - intros H. destruct (validate_date s) eqn:E; [|reflexivity].
    exfalso. apply H. now apply validate_date_accepted.
Qed.

(** C4.  [validate_date] accepts texts that are not of the format
    [YYYY-MM-DD] its documentation, the prompt and the error message of
    [add_expenses] name: a month and a day on one digit, and a day on one
    digit after a space. *)
Theorem validate_date_accepts_unpadded :
  validate_date "2024-1-5" = true /\ ~ canonical_date "2024-1-5" /\
  validate_date "2024-03- 1" = true /\ ~ canonical_date "2024-03- 1".
Proof.
  split; [reflexivity|]. split; [|split; [reflexivity|]].
  - intros H. apply canonical_length in H. discriminate.
  - intros (ys & ms & ds & y & m & d & Hs & [Hy _] & [Hm _] & [Hd Hv] & _).
    destruct ys as [|a1 [|a2 [|a3 [|a4 [|a5 ys]]]]]; try discriminate Hy.
    destruct ms as [|b1 [|b2 [|b3 ms]]]; try discriminate Hm.
    destruct ds as [|c1 [|c2 [|c3 ds]]]; try discriminate Hd.
    unfold ymd_text in Hs. cbn [append] in Hs.
    injection Hs; intros; subst. discriminate Hv.
Qed.

Example validate_date_rejects :
  validate_date "2024/03/01" = false /\
  validate_date "2024-02-30" = false /\
  validate_date "2023-02-29" = false /\
  validate_date "2024-13-01" = false /\
  validate_date "2024-00-10" = false /\
  validate_date "20x4-03-01" = false /\
  validate_date "01-03-2024" = false /\
  validate_date "" = false.
Proof. repeat split; reflexivity. Qed.

Example validate_date_accepts :
  validate_date "2024-02-29" = true /\
  validate_date "0001-01-01" = true /\
  validate_date "9999-12-31" = true /\
  validate_date "2024-03- 1" = true.
Proof. repeat split; reflexivity. Qed.

(** ** The calendar *)

Import Calendar.

Lemma days_before_year_succ y :
  days_before_year (y + 1)
  = days_before_year y + (if is_leap y then 366 else 365).
Proof.
  unfold days_before_year, is_leap. cbv zeta.
  replace (y + 1 - 1) with y by lia.
  destruct (Z.eqb_spec (y mod 4) 0); destruct (Z.eqb_spec (y mod 100) 0);
    destruct (Z.eqb_spec (y mod 400) 0); cbn [andb orb negb];
    Z.div_mod_to_equations; lia.
Qed.

Lemma ymd2ord_jan1 y : ymd2ord y 1 1 = days_before_year y + 1.
Proof. unfold ymd2ord, days_before_month. simpl. lia. Qed.

Lemma year_length y : 365 <= ymd2ord (y + 1) 1 1 - ymd2ord y 1 1 <= 366.
Proof.
  rewrite !ymd2ord_jan1, days_before_year_succ. destruct (is_leap y); lia.
Qed.

Lemma date_in_year y m d :
  gregorian y m d -> ymd2ord y 1 1 <= ymd2ord y m d < ymd2ord (y + 1) 1 1.
Proof.
  intros (_ & Hm & Hd). rewrite !ymd2ord_jan1, days_before_year_succ.
  unfold ymd2ord, days_before_month. unfold days_in_month in Hd.
  assert (m = 1 \/ m = 2 \/ m = 3 \/ m = 4 \/ m = 5 \/ m = 6 \/ m = 7 \/ m = 8
          \/ m = 9 \/ m = 10 \/ m = 11 \/ m = 12) as H by lia.
  repeat (destruct H as [-> | H]); try subst m; simpl in *;
    destruct (is_leap y); simpl in *; lia.
Qed.

Lemma isoweek1monday_spec y :
  (isoweek1monday y + 6) mod 7 = 0 /\
  ymd2ord y 1 1 - 3 <= isoweek1monday y <= ymd2ord y 1 1 + 3.
Proof.
  unfold isoweek1monday. cbv zeta.
  destruct (Z.ltb_spec 3 ((ymd2ord y 1 1 + 6) mod 7)); split;
    Z.div_mod_to_equations; lia.
Qed.

(** The arithmetic of the three cases of [isocalendar]: [F0], [F1], [F2],
    [F3] are the first days of four years in a row, [W0], [W1], [W2] the
    Mondays of their first weeks, [n] a day of the second year and [th] the
    Thursday of its week. *)
Lemma week_of_previous_year n F0 F1 F2 W0 W1 :
  365 <= F1 - F0 <= 366 ->
  (W0 + 6) mod 7 = 0 -> F0 - 3 <= W0 <= F0 + 3 ->
  (W1 + 6) mod 7 = 0 -> F1 - 3 <= W1 <= F1 + 3 ->
  F1 <= n < F2 -> (n - W1) / 7 < 0 ->
  let th := n - (n + 6) mod 7 + 3 in
  F0 <= th < F1 /\
  (n - W0) / 7 + 1 = (th - F0) / 7 + 1 /\
  1 <= (n - W0) / 7 + 1 <= 53.
Proof. intros. subst th. Z.div_mod_to_equations. lia. Qed.

Lemma week_of_next_year n F1 F2 F3 W1 W2 :
  365 <= F2 - F1 <= 366 -> 365 <= F3 - F2 <= 366 ->
  (W1 + 6) mod 7 = 0 -> F1 - 3 <= W1 <= F1 + 3 ->
  (W2 + 6) mod 7 = 0 -> F2 - 3 <= W2 <= F2 + 3 ->
  F1 <= n < F2 -> 52 <= (n - W1) / 7 -> W2 <= n ->
  let th := n - (n + 6) mod 7 + 3 in
  F2 <= th < F3 /\ 1 = (th - F2) / 7 + 1.
Proof. intros. subst th. Z.div_mod_to_equations. lia. Qed.

Lemma week_of_this_year n F1 F2 W1 W2 :
  365 <= F2 - F1 <= 366 ->
  (W1 + 6) mod 7 = 0 -> F1 - 3 <= W1 <= F1 + 3 ->
  (W2 + 6) mod 7 = 0 -> F2 - 3 <= W2 <= F2 + 3 ->
  F1 <= n < F2 -> 0 <= (n - W1) / 7 -> (n - W1) / 7 < 52 \/ n < W2 ->
  let th := n - (n + 6) mod 7 + 3 in
  F1 <= th < F2 /\
  (n - W1) / 7 + 1 = (th - F1) / 7 + 1 /\
  1 <= (n - W1) / 7 + 1 <= 53.
Proof. intros. subst th. Z.div_mod_to_equations. lia. Qed.

(** [isocalendar] numbers the weeks by the rule, from 1 to 53. *)
Lemma isocalendar_week_rule y m d :
  gregorian y m d ->
  let w := snd (fst (isocalendar y m d)) in
  iso_week_rule y m d w /\ 1 <= w <= 53.
Proof.
  intros Hg. pose proof (date_in_year y m d Hg) as Hn.
  pose proof (year_length (y - 1)) as L0. replace (y - 1 + 1) with y in L0 by lia.
  pose proof (year_length y) as L1.
  pose proof (year_length (y + 1)) as L2.
  pose proof (isoweek1monday_spec (y - 1)) as [M0 B0].
  pose proof (isoweek1monday_spec y) as [M1 B1].
  pose proof (isoweek1monday_spec (y + 1)) as [M2 B2].
  unfold iso_week_rule, weekday_of_ordinal, isocalendar. cbv zeta.
  destruct (Z.ltb_spec ((ymd2ord y m d - isoweek1monday y) / 7) 0) as [Hlt|Hge].
  - cbn [fst snd].
    destruct (week_of_previous_year _ _ _ _ _ _ L0 M0 B0 M1 B1 Hn Hlt)
      as (T & E & R).
    split; [|exact R].
    exists (y - 1). replace (y - 1 + 1) with y by lia. split; [exact T|exact E].
  - destruct (Z.leb_spec 52 ((ymd2ord y m d - isoweek1monday y) / 7)) as [H52|H52];
      [destruct (Z.leb_spec (isoweek1monday (y + 1)) (ymd2ord y m d)) as [Hw|Hw]|];
      cbn [andb fst snd].
    + destruct (week_of_next_year _ _ _ _ _ _ L1 L2 M1 B1 M2 B2 Hn H52 Hw)
        as (T & E).
      split; [|lia]. exists (y + 1). split; [exact T|exact E].
    + destruct (week_of_this_year _ _ _ _ _ L1 M1 B1 M2 B2 Hn Hge (or_intror Hw))
        as (T & E & R).
      split; [|exact R]. exists y. split; [exact T|exact E].
    + destruct (week_of_this_year _ _ _ _ _ L1 M1 B1 M2 B2 Hn Hge (or_introl H52))
        as (T & E & R).
      split; [|exact R]. exists y. split; [exact T|exact E].
Qed.

(** ** The keys of the time summary *)

Lemma keys_dict_add k a d :
  In k (keys (dict_add k a d)) /\
  (forall k', In k' (keys d) -> In k' (keys (dict_add k a d))).
Proof.
  unfold keys. induction d as [|[k0 v] d [IH1 IH2]]; simpl.
  - split; [auto|intros ? []].
  - destruct (String.eqb_spec k0 k) as [->|Hne]; simpl.
    + split; [auto|]. intros k' H; exact H.
    + split; [auto|]. intros k' [H|H]; auto.
Qed.

Lemma summary_loop_keys time_choice es :
  forall d d' st st',
    summary_loop time_choice es d st = (Done (Some d'), st') ->
    (forall k, In k (keys d) -> In k (keys d')) /\
    (forall e dt, In e es -> Strptime.strptime (date e) = Some dt ->
       exists key, period_key time_choice e dt = Some key /\ In key (keys d')).
Proof.
  induction es as [|e es IH]; intros d d' st st'; cbn [summary_loop].
  - unfold ret. intros H; inversion H; subst. split; [auto|intros ? ? []].
  - unfold validate_date.
    destruct (Strptime.strptime (date e)) as [dt|] eqn:Hdt; cbn [negb].
    + unfold bind, lift, ret.
      destruct (period_key time_choice e dt) as [key|] eqn:Hkey.
      * intros H. destruct (IH _ _ _ _ H) as [K1 K2].
        destruct (keys_dict_add key (amount e) d) as [A1 A2].
        split; [auto|].
        intros e' dt' [<-|Hin] Hdt'.
        -- rewrite Hdt in Hdt'. inversion Hdt'; subst. eauto.
        -- eauto.
      * unfold print. discriminate.
    + unfold bind, print. intros H. destruct (IH _ _ _ _ H) as [K1 K2].
      split; [auto|].
      intros e' dt' [<-|Hin] Hdt'; [congruence|eauto].
Qed.

(** The key of the weekly summary.  An entry with a valid date is counted
    under the key made of the calendar year of its date, ["-W"] and the
    ISO 8601 week number of its date, both written in decimal without
    padding; the week number follows the rule of ISO 8601 and lies between 1
    and 53. *)
Lemma weekly_key_spec :
  forall (es : list Expense) (st : State) (e : Expense),
    In e es ->
    validate_date (date e) = true ->
    exists dt summary st',
      Strptime.strptime (date e) = Some dt /\
      iso_week_rule (year dt) (month dt) (day dt) (iso_week dt) /\
      1 <= iso_week dt <= 53 /\
      summary_loop 3 es [] st = (Done (Some summary), st') /\
      In (Str.of_int (year dt) ++ "-W" ++ Str.of_int (iso_week dt))
         (keys summary).
Proof.
  intros es st e Hin Hv.
  destruct (validate_date_strptime _ Hv) as (dt & Hdt).
  destruct (summary_loop_run 3 es (or_intror (or_intror eq_refl)) [])
    as (summary & ws & Hrun & _ & _).
  exists dt, summary, (emit ws st).
  assert (Hg : gregorian (year dt) (month dt) (day dt)).
  { unfold Strptime.strptime in Hdt.
    destruct (Strptime.match_format (date e)) as [[[[y m] d] [|c r]]|];
      try discriminate.
    destruct (check_date_fields y m d) eqn:Hc; [|discriminate].
    inversion Hdt; subst. simpl. now apply check_date_fields_gregorian. }
  destruct (isocalendar_week_rule _ _ _ Hg) as [Hrule Hrange].
  split; [exact Hdt|]. split; [exact Hrule|]. split; [exact Hrange|].
  split; [apply Hrun|].
  destruct (summary_loop_keys 3 es _ _ _ _ (Hrun st)) as [_ K].
  destruct (K e dt Hin Hdt) as (key & Hkey & Hk).
  unfold period_key in Hkey. simpl in Hkey. inversion Hkey; subst. exact Hk.
Qed.

(** C1.  The key of the weekly summary is not the week of ISO 8601 written
    [YYYY-Www].  The week number is not padded to two digits: the entry
    dated 2024-01-01 is counted under ["2024-W1"], not ["2024-W01"].  The
    year is the calendar year of the date and not the year of its ISO week:
    2024-12-30, a day of week 1 of 2025, is counted under ["2024-W1"] too, in
    one bucket with 2024-01-01.  And the summary printed in the order of the
    keys shows week 10 before week 2. *)
Theorem weekly_key_defects :
  let st := init (sample_world None) in
  fst (summary_loop 3 [mkExpense 250 "Food" "2024-01-01"] [] st)
  = Done (Some [("2024-W1", (0 + 250)%Q)]) /\
  "2024-W1" <> "2024-W01" /\
  Calendar.isocalendar 2024 12 30 = (2025, 1, 1) /\
  fst (summary_loop 3 [mkExpense 1 "a" "2024-01-01"; mkExpense 2 "b" "2024-12-30"]
         [] st)
  = Done (Some [("2024-W1", (0 + 1 + 2)%Q)]) /\
  stdout
    (world
       (snd (view_summary
               (mkState [mkExpense 1 "a" "2024-01-08"; mkExpense 2 "b" "2024-03-04"]
                  (feed ["3"; "3"] (sample_world None))))))
  = [Prompt AskSummaryChoice; Prompt AskTimeChoice; MsgSummaryHeader;
     MsgPeriod "2024-W10" (0 + 2)%Q; MsgPeriod "2024-W2" (0 + 1)%Q].
Proof.
  split; [reflexivity|]. split; [discriminate|]. repeat split; reflexivity.
Qed.

(* ================================================================== *)
(** ** The statements at concrete stores *)

(** [delete_expense] on a store of three entries and the line ["2"]. *)
Lemma delete_expense_spec_witness :
  let e1 := mkExpense 250 "Food" "2024-03-01" in
  let e2 := mkExpense 1200 "Rent" "2024-03-01" in
  let e3 := mkExpense 40 "Bus" "2024-03-02" in
  let st := mkState [e1; e2; e3] (feed ["2"] (sample_world None)) in
  fst (delete_expense st) = Done tt /\
  expenses (snd (delete_expense st)) = [e1; e3].
Proof.
  intros e1 e2 e3 st.
  destruct (delete_expense_spec st "2" [] 2 eq_refl eq_refl) as (Hdone & Hin & _).
  split; [exact Hdone|].
  destruct (Hin ltac:(simpl; lia)) as (removed & _ & _ & Hes & _).
  exact Hes.
Defined.

(** [edit_expense] on the first of two entries, with the lines ["1"], [""],
    ["Groceries"], [""]. *)
Lemma edit_expense_category_only_witness :
  let e1 := mkExpense 250 "Food" "2024-03-01" in
  let e2 := mkExpense 1200 "Rent" "2024-03-01" in
  let st := mkState [e1; e2]
              (feed ["1"; ""; " Groceries "; ""] (sample_world None)) in
  let st' := snd (edit_expense float_of_int_literal st) in
  nth_error (expenses st') 0 = Some (mkExpense 250 "Groceries" "2024-03-01") /\
  nth_error (expenses st') 1 = Some e2.
Proof.
  intros e1 e2 st st'.
  destruct (edit_expense_category_only float_of_int_literal st
              "1" "" " Groceries " "" [] 1
              eq_refl eq_refl ltac:(simpl; lia) eq_refl ltac:(discriminate) eq_refl)
    as (_ & e & He & Hk & Hother & _).
  simpl in He. inversion He; subst e.
  split; [exact Hk|].
  apply (Hother 1%nat). discriminate.
Defined.

(** The monthly summary of two entries of January 2024. *)
Lemma time_summary_total_witness :
  let es := [mkExpense 100 "Food" "2024-01-15"; mkExpense 50 "Bus" "2024-01-20"] in
  exists summary,
    fst (summary_loop 2 es [] (init (sample_world None))) = Done (Some summary)
    /\ sum (values summary) == 150.
Proof.
  intros es.
  destruct (time_summary_total 2 es (init (sample_world None))
              (or_intror (or_introl eq_refl)))
    as (summary & st' & Hrun & _ & _ & Hall).
  exists summary. split.
  - rewrite Hrun. reflexivity.
  - rewrite (Hall eq_refl). reflexivity.
Defined.

(** The weekly summary of one entry dated 2024-01-01. *)
Lemma weekly_key_spec_witness :
  let e := mkExpense 250 "Food" "2024-01-01" in
  exists dt summary,
    Strptime.strptime "2024-01-01" = Some dt /\
    fst (summary_loop 3 [e] [] (init (sample_world None))) = Done (Some summary) /\
    In (Str.of_int (year dt) ++ "-W" ++ Str.of_int (iso_week dt)) (keys summary).
Proof.
  intros e.
  destruct (weekly_key_spec [e] (init (sample_world None)) e
              (or_introl eq_refl) eq_refl)
    as (dt & summary & st' & Hdt & _ & _ & Hrun & Hkey).
  exists dt, summary.
  split; [exact Hdt|]. split; [rewrite Hrun; reflexivity|exact Hkey].
Defined.

(** A text of the grammar [YYYY-MM-DD]. *)
Lemma validate_date_spec_witness : validate_date "2024-03-01" = true.
Proof.
  apply (proj1 (validate_date_spec "2024-03-01" eq_refl)).
  exists "2024", "03", "01", 2024, 3, 1.
  split; [reflexivity|].
  split; [split; reflexivity|].
  split; [split; reflexivity|].
  split; [split; reflexivity|].
  unfold gregorian.
  replace (Calendar.days_in_month 2024 3) with 31 by reflexivity. lia.
Defined.

(** ** The examples of the specification *)

Example monthly_summary_example :
  let es := [mkExpense 100 "Food" "2024-01-15"; mkExpense 50 "Bus" "2024-01-20"] in
  fst (summary_loop 2 es [] (init (sample_world None)))
  = Done (Some [("2024-01", (0 + 100 + 50)%Q)]).
Proof. reflexivity. Qed.

Example weekly_summary_across_years :
  let es := [mkExpense 1 "a" "2024-01-01"; mkExpense 2 "b" "2024-12-30"] in
  fst (summary_loop 3 es [] (init (sample_world None)))
  = Done (Some [("2024-W1", (0 + 1 + 2)%Q)]).
Proof. reflexivity. Qed.

Example load_missing_file_example :
  let st := init (sample_world None) in
  load_from_file DEFAULT_FILENAME st = (Done tt, emit [MsgNoData] st).
Proof. reflexivity. Qed.

Example summary_skips_invalid_date :
  let es := [mkExpense 100 "Food" "2024-01-15"; mkExpense 7 "Bus" "15/01/2024"] in
  summary_loop 1 es [] (init (sample_world None))
  = (Done (Some [("2024-01-15", (0 + 100)%Q)]),
     emit [MsgSkipInvalidDate "15/01/2024"] (init (sample_world None))).
Proof. reflexivity. Qed.

(* ================================================================== *)
(** * Further properties of the operations *)

(** ** More on persistence *)

(** [from_dict] and [iter] read the state and never change it. *)
Lemma from_dict_state item st : snd (from_dict item st) = st.
Proof.
  unfold from_dict, bind, getitem, lift, ret, raise.
  destruct item; simpl; try reflexivity.
  destruct (lookup "amount" fields) as [a|]; simpl; [|reflexivity].
  destruct (lookup "category" fields) as [c|]; simpl; [|reflexivity].
  destruct (lookup "date" fields) as [d|]; simpl; [|reflexivity].
  destruct a; try reflexivity; destruct c; try reflexivity;
    destruct d; reflexivity.
Qed.

Lemma iter_state doc st : snd (iter doc st) = st.
Proof. destruct doc; reflexivity. Qed.

Lemma map_M_from_dict_state items st :
  snd (map_M from_dict items st) = st.
Proof.
  induction items as [|item items IH]; simpl; [reflexivity|].
  unfold bind at 1. pose proof (from_dict_state item st) as H1.
  destruct (from_dict item st) as [[e|x] st1]; simpl in H1; subst st1;
    [|reflexivity].
  unfold bind.
  destruct (map_M from_dict items st) as [[es|x] st2]; simpl in *; exact IH.
Qed.

Lemma load_from_file_raise_state p st x :
  fst (load_from_file p st) = Raise x -> snd (load_from_file p st) = st.
Proof.
  destruct (load_from_file p st) as [r st'] eqn:E. simpl. intros ->.
  unfold load_from_file, try_except, bind at 1, json_load in E.
  destruct (files (world st) p) as [[ | |text| |doc]|]; simpl in E;
    try discriminate E; try (inversion E; reflexivity).
  unfold bind at 1 in E. pose proof (iter_state doc st) as Hi.
  destruct (iter doc st) as [[items|x1] st1]; simpl in Hi; subst st1.
  - pose proof (map_M_from_dict_state items st) as Hst.
    unfold bind at 1 in E.
    destruct (map_M from_dict items st) as [[es|x2] st2]; simpl in Hst; subst st2.
    + simpl in E. discriminate E.
    + destruct x2; simpl in E; inversion E; reflexivity.
  - destruct x1; simpl in E; inversion E; reflexivity.
Qed.

(** X1.  A load that raises changes nothing: neither the store nor the
    output. *)
Theorem load_from_file_raise_unchanged :
  forall (p : string) (st : State) (x : exn),
    fst (load_from_file p st) = Raise x ->
    snd (load_from_file p st) = st.
Proof.
  intros p st x Hx. now apply (load_from_file_raise_state p st x).
Qed.

Lemma from_dict_entry_object item e st :
  entry_object item e -> from_dict item st = (Done e, st).
Proof.
  intros (fields & -> & Ha & Hc & Hd).
  unfold from_dict, bind, getitem, lift, ret. rewrite Ha, Hc, Hd.
  destruct e; reflexivity.
Qed.

Lemma map_M_from_dict_entries items es st :
  Forall2 entry_object items es -> map_M from_dict items st = (Done es, st).
Proof.
  induction 1 as [|item e items es He _ IH]; simpl; [reflexivity|].
  unfold bind at 1. rewrite (from_dict_entry_object _ _ _ He).
  unfold bind at 1. rewrite IH. reflexivity.
Qed.

(** X2.  [load_from_file] on an array of entry objects replaces the store by
    the entries of the array, in the order of the array; the entries held
    before are dropped and no date or amount is checked. *)
Theorem load_from_file_entries :
  forall (p : string) (st : State) (items : list json) (es : list Expense),
    files (world st) p = Some (Json (JArray items)) ->
    Forall2 entry_object items es ->
    load_from_file p st
    = (Done tt, emit [MsgLoaded (List.length es) p] (with_expenses es st)).
Proof.
  intros p st items es Hf Hitems.
  unfold load_from_file, try_except, bind at 1, json_load. rewrite Hf.
  unfold bind at 1. unfold iter, ret at 1. unfold bind at 1.
  rewrite (map_M_from_dict_entries _ _ _ Hitems). reflexivity.
Qed.

Lemma load_from_file_entries_witness :
  let item := JObject [("date", JString "31/12/2023"); ("note", JNull);
                       ("amount", JNumber 5); ("category", JString "Tea")] in
  let st := mkState [mkExpense 1 "Old" "2024-01-01"]
              (sample_world (Some (Json (JArray [item])))) in
  expenses (snd (load_from_file DEFAULT_FILENAME st))
  = [mkExpense 5 "Tea" "31/12/2023"].
Proof.
  intros item st.
  rewrite (load_from_file_entries DEFAULT_FILENAME st [item]
             [mkExpense 5 "Tea" "31/12/2023"] eq_refl).
  - reflexivity.
  - constructor; [|constructor].
    exists [("date", JString "31/12/2023"); ("note", JNull);
            ("amount", JNumber 5); ("category", JString "Tea")].
    repeat split; reflexivity.
Defined.

Lemma load_from_file_raise_unchanged_witness :
  let st := mkState [mkExpense 1 "Old" "2024-01-01"]
              (sample_world (Some (Json (JArray [JObject [("amount", JNumber 1)]])))) in
  snd (load_from_file DEFAULT_FILENAME st) = st.
Proof.
  intros st. apply (load_from_file_raise_unchanged DEFAULT_FILENAME st KeyError).
  reflexivity.
Defined.

(** X3.  When the data file is missing or is not JSON, [load_from_file] ends
    normally with one message and keeps the store it had: the entries held
    before are still there. *)
Theorem load_from_file_keeps_store :
  forall (p : string) (st : State),
    files (world st) p = None
    \/ (exists text, files (world st) p = Some (NotJson text)) ->
    fst (load_from_file p st) = Done tt /\
    expenses (snd (load_from_file p st)) = expenses st /\
    files (world (snd (load_from_file p st))) = files (world st) /\
    exists msg,
      (msg = MsgNoData \/ msg = MsgCorrupted) /\
      stdout (world (snd (load_from_file p st))) = (stdout (world st) ++ [msg])%list.
Proof.
  intros p st [Hf|(text & Hf)].
  - rewrite (load_from_file_missing p st Hf). simpl.
    repeat split. exists MsgNoData. auto.
  - rewrite (load_from_file_not_json p text st Hf). simpl.
    repeat split. exists MsgCorrupted. auto.
Qed.

Lemma load_from_file_keeps_store_witness :
  let st := mkState [mkExpense 1 "Old" "2024-01-01"]
              (sample_world (Some (NotJson "not valid json"))) in
  expenses (snd (load_from_file DEFAULT_FILENAME st))
  = [mkExpense 1 "Old" "2024-01-01"].
Proof.
  intros st.
  destruct (load_from_file_keeps_store DEFAULT_FILENAME st) as (_ & H & _).
  - right. exists "not valid json". reflexivity.
  - exact H.
Defined.

(** ** Symbolic execution on any input *)

(** The scrutinee of an innermost [match] of a term. *)
Ltac innermost_scrutinee t k :=
  lazymatch t with
  | context [match ?y with _ => _ end] => innermost_scrutinee y k
  | _ => k t
  end.

(** Execution of a monadic program on a state whose input is not known: a
    case analysis on each test the program makes. *)
Ltac exec :=
  repeat (run;
          first
            [ rewrite print_items_run
            | match goal with
              | |- context [match ?x with _ => _ end] =>
                  innermost_scrutinee x ltac:(fun y => destruct y eqn:?)
              end ]);
  run.

Lemma Forall_update_at {A} (P : A -> Prop) k f (l : list A) :
  (forall x, P x -> P (f x)) -> Forall P l -> Forall P (update_at k f l).
Proof.
  intros Hf H. revert k. induction H as [|x l Hx Hl IH]; intros [|k]; simpl;
    constructor; auto.
Qed.

Lemma Forall_remove_at {A} (P : A -> Prop) k (l : list A) :
  Forall P l -> Forall P (remove_at k l).
Proof.
  intros H. revert k. unfold remove_at.
  induction H as [|x l Hx Hl IH]; intros [|k]; simpl; auto.
Qed.

Lemma saved_intro es i o c f t :
  saved (mkState es
           (mkWorld i o c
              (fun p => if String.eqb p DEFAULT_FILENAME
                        then Some (Json (JArray (map to_dict es))) else f p) t)).
Proof. unfold saved. simpl. reflexivity. Qed.

(** What the three operations that change the store do to the store and to
    the data file, on any input. *)
Ltac effect_cases :=
  exec; unfold untouched, saved, dates_valid; simpl;
  (split; [auto|]); intros Hv; auto;
  repeat first
    [ assumption
    | apply Forall_update_at; [intros [a0 c0 d0]; simpl; auto|]
    | apply Forall_remove_at
    | apply Forall_app; split; [|constructor; [simpl|constructor]] ].

Lemma add_expenses_effect float st :
  let st' := snd (add_expenses float st) in
  (untouched st st' \/ saved st') /\
  (dates_valid (expenses st) -> dates_valid (expenses st')).
Proof.
  destruct st as [es [i o c f t]]. cbv zeta. unfold add_expenses.
  effect_cases.
Qed.

Lemma delete_expense_effect st :
  let st' := snd (delete_expense st) in
  (untouched st st' \/ saved st') /\
  (dates_valid (expenses st) -> dates_valid (expenses st')).
Proof.
  destruct st as [es [i o c f t]]. cbv zeta. unfold delete_expense, pop.
  effect_cases.
Qed.

Lemma edit_expense_effect float st :
  let st' := snd (edit_expense float st) in
  (untouched st st' \/ saved st') /\
  (dates_valid (expenses st) -> dates_valid (expenses st')).
Proof.
  destruct st as [es [i o c f t]]. cbv zeta. unfold edit_expense, item, modify.
  effect_cases.
Qed.



(** X5.  Whatever the input, a store whose dates all pass [validate_date]
    still has only such dates after [add_expenses], [edit_expense] and
    [delete_expense]. *)
Theorem mutators_keep_dates_valid :
  forall (float : string -> option Q) (st : State),
    dates_valid (expenses st) ->
    dates_valid (expenses (snd (add_expenses float st))) /\
    dates_valid (expenses (snd (edit_expense float st))) /\
    dates_valid (expenses (snd (delete_expense st))).
Proof.
  intros float st Hv. split; [|split].
  - now apply (add_expenses_effect float st).
  - now apply (edit_expense_effect float st).
  - now apply (delete_expense_effect st).
Qed.

Lemma mutators_keep_dates_valid_witness :
  let st := mkState [mkExpense 1 "Food" "2024-03-01"]
              (feed ["1"; ""; ""; "2024-02-30"] (sample_world None)) in
  dates_valid (expenses (snd (edit_expense float_of_int_literal st))).
Proof.
  intros st.
  apply (mutators_keep_dates_valid float_of_int_literal st).
  constructor; [reflexivity|constructor].
Defined.

(** ** What an operation leaves alone *)

Section Keeps.

Variable R : State -> State -> Prop.
Hypothesis R_refl : forall st, R st st.
Hypothesis R_trans : forall a b c, R a b -> R b c -> R a c.

Lemma keeps_ret {A} (a : A) : related R (ret a).
Proof. intros st. apply R_refl. Qed.

Lemma keeps_raise {A} (x : exn) : related R (@raise A x).
Proof. intros st. apply R_refl. Qed.

Lemma keeps_lift {A} (o : option A) (x : exn) : related R (lift o x).
Proof. destruct o; [apply keeps_ret|apply keeps_raise]. Qed.

Lemma keeps_bind {A B} (m : M A) (k : A -> M B) :
  related R m -> (forall a, related R (k a)) -> related R (bind m k).
Proof.
  intros Hm Hk st. unfold bind. specialize (Hm st).
  destruct (m st) as [[a|x] st1]; simpl in *; [|exact Hm].
  eapply R_trans; [exact Hm|apply Hk].
Qed.

Lemma keeps_try_except {A} (m : M A) (handlers : list (exn * M A)) :
  related R m -> Forall (fun h => related R (snd h)) handlers ->
  related R (try_except m handlers).
Proof.
  intros Hm Hh st. unfold try_except. specialize (Hm st).
  destruct (m st) as [[a|x] st1]; simpl in *; [exact Hm|].
  assert (Hfor : match handler_for x handlers with
                 | Some h => related R h
                 | None => True
                 end).
  { induction Hh as [|[cls h] hs H1 _ IH]; simpl; [exact I|].
    destruct (isinstance x cls); [exact H1|exact IH]. }
  destruct (handler_for x handlers) as [h|]; simpl; [|exact Hm].
  eapply R_trans; [exact Hm|apply Hfor].
Qed.

Lemma keeps_for_each {A} (f : A -> M unit) (xs : list A) :
  (forall x, related R (f x)) -> related R (for_each f xs).
Proof.
  intros Hf. induction xs as [|x xs IH]; simpl.
  - apply keeps_ret.
  - apply keeps_bind; [apply Hf|intros _; exact IH].
Qed.

(** The operations that only read and print. *)
Hypothesis R_print : forall msg, related R (print msg).
Hypothesis R_input : forall p, related R (input p).

Lemma keeps_get_expenses : related R get_expenses.
Proof. intros st. apply R_refl. Qed.

Lemma keeps_now : related R now.
Proof. intros st. apply R_refl. Qed.

Lemma keeps_print_items idx es : related R (print_items idx es).
Proof.
  revert idx. induction es as [|e es IH]; intros idx; simpl.
  - apply keeps_ret.
  - apply keeps_bind; [apply R_print|intros _; apply IH].
Qed.

Lemma keeps_input_int p : related R (input_int p).
Proof.
  unfold input_int. apply keeps_try_except.
  - apply keeps_bind; [apply R_input|intros line].
    apply keeps_bind; [apply keeps_lift|intros n; apply keeps_ret].
  - constructor; [|constructor]. simpl.
    apply keeps_bind; [apply R_print|intros _; apply keeps_ret].
Qed.

Lemma keeps_summary_loop time_choice es :
  forall summary, related R (summary_loop time_choice es summary).
Proof.
  induction es as [|e es IH]; intros summary; simpl.
  - apply keeps_ret.
  - destruct (negb (validate_date (date e))).
    + apply keeps_bind; [apply R_print|intros _; apply IH].
    + apply keeps_bind; [apply keeps_lift|intros date_obj].
      destruct (period_key time_choice e date_obj).
      * apply IH.
      * apply keeps_bind; [apply R_print|intros _; apply keeps_ret].
Qed.

Lemma keeps_view_summary : related R view_summary.
Proof.
  unfold view_summary.
  apply keeps_bind; [apply keeps_get_expenses|intros es].
  destruct es as [|e es]; [apply R_print|].
  apply keeps_bind; [apply keeps_input_int|intros [choice|]];
    [|apply keeps_ret].
  destruct (choice =? 1).
  { apply keeps_bind; [apply R_input|intros line; apply R_print]. }
  destruct (choice =? 2); [apply R_print|].
  destruct (choice =? 3); [|apply R_print].
  apply keeps_bind; [apply keeps_input_int|intros [time_choice|]];
    [|apply keeps_ret].
  apply keeps_bind; [apply keeps_summary_loop|intros [summary|]];
    [|apply keeps_ret].
  apply keeps_bind; [apply R_print|intros _].
  apply keeps_for_each. intros kv. apply R_print.
Qed.

(** The operations that save the store under the default name. *)
Hypothesis R_set_expenses : forall es, related R (set_expenses es).
Hypothesis R_write : forall c, related R (write_file DEFAULT_FILENAME c).
Hypothesis R_chart : forall cs xs, related R (show_bar_chart cs xs).

Lemma keeps_save_to_file : related R (save_to_file DEFAULT_FILENAME).
Proof.
  unfold save_to_file.
  apply keeps_bind; [apply keeps_get_expenses|intros es].
  apply keeps_bind; [apply R_write|intros _; apply R_print].
Qed.

Lemma keeps_graphical_summary : related R graphical_summary.
Proof.
  unfold graphical_summary.
  apply keeps_bind; [apply keeps_get_expenses|intros es].
  destruct es as [|e es]; [apply R_print|apply R_chart].
Qed.

Lemma keeps_add_expenses float : related R (add_expenses float).
Proof.
  unfold add_expenses. apply keeps_try_except.
  - apply keeps_bind; [apply R_input|intros l1].
    apply keeps_bind; [apply keeps_lift|intros a].
    apply keeps_bind; [apply R_input|intros l2].
    apply keeps_bind; [apply R_input|intros l3].
    apply keeps_bind.
    { destruct (is_empty (strip l3)); [|apply keeps_ret].
      apply keeps_bind; [apply keeps_now|intros t; apply keeps_ret]. }
    intros d. destruct (negb (validate_date d)); [apply R_print|].
    apply keeps_bind; [apply keeps_get_expenses|intros es].
    apply keeps_bind; [apply R_set_expenses|intros _].
    apply keeps_bind; [apply R_print|intros _; apply keeps_save_to_file].
  - constructor; [apply R_print|constructor].
Qed.

Lemma keeps_pop i : related R (pop i).
Proof.
  unfold pop. apply keeps_bind; [apply keeps_get_expenses|intros es].
  destruct (resolve_index es i) as [k|]; [|apply keeps_raise].
  destruct (nth_error es k) as [e|]; [|apply keeps_raise].
  apply keeps_bind; [apply R_set_expenses|intros _; apply keeps_ret].
Qed.

Lemma keeps_delete_expense : related R delete_expense.
Proof.
  unfold delete_expense.
  apply keeps_bind; [apply keeps_get_expenses|intros es].
  destruct es as [|e es]; [apply R_print|].
  apply keeps_bind; [apply keeps_print_items|intros _].
  apply keeps_try_except.
  - apply keeps_bind; [apply R_input|intros line].
    apply keeps_bind; [apply keeps_lift|intros choice].
    destruct ((1 <=? choice) && (choice <=? Z.of_nat (List.length (e :: es))));
      [|apply R_print].
    apply keeps_bind; [apply keeps_pop|intros removed].
    apply keeps_bind; [apply R_print|intros _; apply keeps_save_to_file].
  - constructor; [apply R_print|constructor].
Qed.

Lemma keeps_modify k f : related R (modify k f).
Proof.
  unfold modify. apply keeps_bind; [apply keeps_get_expenses|intros es].
  apply R_set_expenses.
Qed.

Lemma keeps_item i : related R (item i).
Proof.
  unfold item. apply keeps_bind; [apply keeps_get_expenses|intros es].
  destruct (resolve_index es i) as [k|]; [|apply keeps_raise].
  destruct (nth_error es k) as [e|]; [apply keeps_ret|apply keeps_raise].
Qed.

Lemma keeps_edit_expense float : related R (edit_expense float).
Proof.
  unfold edit_expense.
  apply keeps_bind; [apply keeps_get_expenses|intros es].
  destruct es as [|e es]; [apply R_print|].
  apply keeps_bind; [apply keeps_print_items|intros _].
  apply keeps_try_except.
  - apply keeps_bind; [apply R_input|intros line].
    apply keeps_bind; [apply keeps_lift|intros choice].
    destruct ((1 <=? choice) && (choice <=? Z.of_nat (List.length (e :: es))));
      [|apply R_print].
    apply keeps_bind; [apply keeps_item|intros ke].
    apply keeps_bind; [apply R_print|intros _].
    apply keeps_bind; [apply R_input|intros l1].
    apply keeps_bind; [apply R_input|intros l2].
    apply keeps_bind; [apply R_input|intros l3].
    apply keeps_bind.
    { destruct (negb (is_empty (strip l1))); [|apply keeps_ret].
      apply keeps_try_except.
      - apply keeps_bind; [apply keeps_lift|intros a; apply keeps_modify].
      - constructor; [apply R_print|constructor]. }
    intros _. apply keeps_bind.
    { destruct (negb (is_empty (strip l2))); [apply keeps_modify|apply keeps_ret]. }
    intros _. apply keeps_bind.
    { destruct (negb (is_empty (strip l3))); [|apply keeps_ret].
      destruct (validate_date (strip l3)); [apply keeps_modify|apply R_print]. }
    intros _. apply keeps_bind; [apply keeps_save_to_file|intros _; apply R_print].
  - constructor; [apply R_print|constructor].
Qed.

End Keeps.

Lemma same_data_refl st : same_data st st.
Proof. repeat split. Qed.

Lemma same_data_trans a b c : same_data a b -> same_data b c -> same_data a c.
Proof.
  intros (H1 & H2 & H3) (H4 & H5 & H6). repeat split; congruence.
Qed.

Lemma same_other_files_refl st : same_other_files st st.
Proof. intros q _. reflexivity. Qed.

Lemma same_other_files_trans a b c :
  same_other_files a b -> same_other_files b c -> same_other_files a c.
Proof. intros H1 H2 q Hq. rewrite (H2 q Hq). apply H1, Hq. Qed.

(** X6.  On any input, [view_summary] and [graphical_summary] leave the store,
    every file and the clock as they are; [view_summary] draws no chart and
    [graphical_summary] reads no input. *)
Theorem summaries_change_nothing :
  forall st : State,
    same_data st (snd (view_summary st)) /\
    charts (world (snd (view_summary st))) = charts (world st) /\
    same_data st (snd (graphical_summary st)) /\
    stdin (world (snd (graphical_summary st))) = stdin (world st).
Proof.
  intros st. split; [|split; [|split]].
  - apply (keeps_view_summary same_data same_data_refl same_data_trans).
    + intros msg s. repeat split.
    + intros p [es [i o c f t]]. destruct i; repeat split.
  - apply (keeps_view_summary
             (fun a b => charts (world b) = charts (world a))).
    + reflexivity.
    + intros a b c H1 H2. congruence.
    + intros msg s. reflexivity.
    + intros p [es [i o c f t]]. destruct i; reflexivity.
  - apply (keeps_graphical_summary same_data same_data_refl same_data_trans).
    + intros msg s. repeat split.
    + intros cs xs s. repeat split.
  - apply (keeps_graphical_summary
             (fun a b => stdin (world b) = stdin (world a))).
    + reflexivity.
    + intros a b c H1 H2. congruence.
    + intros msg s. reflexivity.
    + intros cs xs s. reflexivity.
Qed.

(** X7.  On any input, no operation of the tracker changes a file other than
    the data file [expenses.json]. *)
Theorem only_data_file_written :
  forall (float : string -> option Q) (st : State) (q : string),
    q <> DEFAULT_FILENAME ->
    files (world (snd (add_expenses float st))) q = files (world st) q /\
    files (world (snd (edit_expense float st))) q = files (world st) q /\
    files (world (snd (delete_expense st))) q = files (world st) q /\
    files (world (snd (view_summary st))) q = files (world st) q /\
    files (world (snd (graphical_summary st))) q = files (world st) q /\
    files (world (snd (save_to_file DEFAULT_FILENAME st))) q = files (world st) q /\
    files (world (snd (load_from_file DEFAULT_FILENAME st))) q = files (world st) q.
Proof.
  intros float st q Hq.
  assert (Hp : forall msg, related same_other_files (print msg)).
  { intros msg s q' _. reflexivity. }
  assert (Hi : forall p, related same_other_files (input p)).
  { intros p [es [i o c f t]] q' _. destruct i; reflexivity. }
  assert (Hs : forall es, related same_other_files (set_expenses es)).
  { intros es s q' _. reflexivity. }
  assert (Hw : forall c, related same_other_files (write_file DEFAULT_FILENAME c)).
  { intros c s q' Hq'. simpl. apply String.eqb_neq in Hq'. now rewrite Hq'. }
  assert (Hc : forall cs xs, related same_other_files (show_bar_chart cs xs)).
  { intros cs xs s q' _. reflexivity. }
  pose proof same_other_files_refl as Rr. pose proof same_other_files_trans as Rt.
  split; [|split; [|split; [|split; [|split; [|split]]]]].
  - now apply (keeps_add_expenses _ Rr Rt Hp Hi Hs Hw).
  - now apply (keeps_edit_expense _ Rr Rt Hp Hi Hs Hw).
  - now apply (keeps_delete_expense _ Rr Rt Hp Hi Hs Hw).
  - now apply (keeps_view_summary _ Rr Rt Hp Hi).
  - now apply (keeps_graphical_summary _ Rr Rt Hp Hc).
  - now apply (keeps_save_to_file _ Rr Rt Hp Hw).
  - destruct (load_from_file DEFAULT_FILENAME st) as [r st'] eqn:E. simpl.
    destruct r as [[]|x].
    + unfold load_from_file, try_except, bind at 1, json_load in E.
      destruct (files (world st) DEFAULT_FILENAME) as [[ | |text| |doc]|];
        simpl in E; try (inversion E; reflexivity).
      unfold bind at 1 in E. pose proof (iter_state doc st) as Hit.
      destruct (iter doc st) as [[items|x1] st1]; simpl in Hit; subst st1.
      * pose proof (map_M_from_dict_state items st) as Hst.
        unfold bind at 1 in E.
        destruct (map_M from_dict items st) as [[es|x2] st2];
          simpl in Hst; subst st2.
        -- simpl in E. inversion E. reflexivity.
        -- destruct x2; simpl in E; inversion E; reflexivity.
      * destruct x1; simpl in E; inversion E; reflexivity.
    + pose proof (load_from_file_raise_state DEFAULT_FILENAME st x) as H.
      rewrite E in H. simpl in H. now rewrite H.
Qed.

Lemma only_data_file_written_witness :
  let w := mkWorld ["250"; "Food"; ""] [] []
             (fun p => if String.eqb p "notes.txt" then Some (NotJson "keep") else None)
             (mkDate 2024 3 1) in
  files (world (snd (add_expenses float_of_int_literal (init w)))) "notes.txt"
  = Some (NotJson "keep").
Proof.
  intros w.
  destruct (only_data_file_written float_of_int_literal (init w) "notes.txt")
    as (H & _).
  - discriminate.
  - rewrite H. reflexivity.
Defined.

(** ** More on the record store *)

Lemma update_at_compose {A} k (f g : A -> A) (l : list A) :
  update_at k g (update_at k f l) = update_at k (fun x => g (f x)) l.
Proof.
  revert k. induction l as [|x l IH]; intros [|k]; simpl; auto.
  now rewrite IH.
Qed.

Lemma update_at_ext {A} k (f g : A -> A) (l : list A) :
  (forall x, f x = g x) -> update_at k f l = update_at k g l.
Proof.
  intros H. revert k. induction l as [|x l IH]; intros [|k]; simpl; auto.
  - now rewrite H.
  - now rewrite IH.
Qed.

Lemma update_at_id {A} k (f : A -> A) (l : list A) :
  (forall x, f x = x) -> update_at k f l = l.
Proof.
  intros H. revert k. induction l as [|x l IH]; intros [|k]; simpl; auto.
  - now rewrite H.
  - now rewrite IH.
Qed.

Lemma remove_at_last {A} (l : list A) (x : A) :
  remove_at (List.length l) (l ++ [x])%list = l.
Proof.
  unfold remove_at. induction l as [|y l IH]; [reflexivity|].
  cbn [List.length app firstn]. rewrite skipn_cons. cbn [app].
  f_equal. exact IH.
Qed.

Lemma edit_expense_run float es o c f t l0 l1 l2 l3 rest choice :
  PyInt.int (strip l0) = Some choice ->
  1 <= choice <= Z.of_nat (List.length es) ->
  exists out,
    edit_expense float (mkState es (mkWorld (l0 :: l1 :: l2 :: l3 :: rest) o c f t))
    = (Done tt,
       let es' :=
         update_at (Z.to_nat (choice - 1))
           (edited float (strip l1) (strip l2) (strip l3)) es in
       mkState es'
         (mkWorld rest out c
            (fun p => if String.eqb p DEFAULT_FILENAME
                      then Some (Json (JArray (map to_dict es'))) else f p)
            t)).
Proof.
  intros Hint Hr.
  assert (Hk : (Z.to_nat (choice - 1) < List.length es)%nat) by lia.
  destruct (nth_error es (Z.to_nat (choice - 1))) as [e|] eqn:Hnth.
  2:{ apply nth_error_None in Hnth. lia. }
  destruct es as [|e0 es0]; [simpl in Hr; lia|].
  unfold edit_expense. unfold bind at 1. unfold get_expenses.
  cbn [expenses]. cbv beta iota.
  unfold bind at 1. rewrite print_items_run.
  run. rewrite Hint. run.
  destruct (Z.leb_spec 1 choice); [|lia].
  destruct (Z.leb_spec choice (Z.of_nat (List.length (e0 :: es0)))); [|lia].
  unfold item. run.
  rewrite resolve_index_in_range by lia. rewrite Hnth. run.
  unfold modify. cbv zeta.
  remember (update_at (Z.to_nat (choice - 1))
              (edited float (strip l1) (strip l2) (strip l3)) (e0 :: es0))
    as Y eqn:EY.
  destruct (is_empty (strip l1)) eqn:E1;
    [|destruct (float (strip l1)) as [a|] eqn:Ef];
    (destruct (is_empty (strip l2)) eqn:E2);
    (destruct (is_empty (strip l3)) eqn:E3;
     [|destruct (validate_date (strip l3)) eqn:Ev]);
    run;
    match goal with
    | |- exists out, (_, mkState ?X _) = _ =>
        assert (HX : X = Y)
          by (subst Y; unfold edited; rewrite E1, ?Ef, E2, E3, ?Ev;
              rewrite ?update_at_compose;
              first [ apply update_at_ext; intros [a0 c0 d0]; reflexivity
                    | symmetry; apply update_at_id; intros [a0 c0 d0]; reflexivity ]);
        rewrite HX; eexists; reflexivity
    end.
Qed.

(** X8.  [edit_expense] on a valid position and three lines: each field is
    settled on its own.  The amount changes when its line is not empty and
    reads as a number, the category when its line is not empty, the date when
    its line is not empty and passes [validate_date]; a line that fails only
    keeps the old value of its field.  The other entries are unchanged and
    the store is saved. *)
Theorem edit_expense_fields :
  forall (float : string -> option Q) (st : State)
         (l0 l1 l2 l3 : string) (rest : list string) (choice : Z),
    stdin (world st) = l0 :: l1 :: l2 :: l3 :: rest ->
    PyInt.int (strip l0) = Some choice ->
    1 <= choice <= Z.of_nat (List.length (expenses st)) ->
    let st' := snd (edit_expense float st) in
    fst (edit_expense float st) = Done tt /\
    expenses st'
    = update_at (Z.to_nat (choice - 1))
        (edited float (strip l1) (strip l2) (strip l3)) (expenses st) /\
    saved st' /\
    stdin (world st') = rest.
Proof.
  intros float [es [i o c f t]] l0 l1 l2 l3 rest choice Hin Hint Hr.
  simpl in Hin. subst i. cbn [expenses world] in *. cbv zeta.
  destruct (edit_expense_run float es o c f t l0 l1 l2 l3 rest choice Hint Hr)
    as (out & ->).
  cbv zeta. unfold saved. cbn [fst snd expenses world files stdin].
  rewrite String.eqb_refl. repeat split.
Qed.

Lemma edit_expense_fields_witness :
  let e1 := mkExpense 250 "Food" "2024-03-01" in
  let st := mkState [e1] (feed ["1"; "abc"; "Meals"; "2024-02-30"] (sample_world None)) in
  expenses (snd (edit_expense float_of_int_literal st))
  = [mkExpense 250 "Meals" "2024-03-01"].
Proof.
  intros e1 st.
  destruct (edit_expense_fields float_of_int_literal st
              "1" "abc" "Meals" "2024-02-30" [] 1 eq_refl eq_refl
              ltac:(simpl; lia)) as (_ & H & _).
  rewrite H. reflexivity.
Defined.

(** X9.  [add_expenses] on an amount that does not read as a number: the
    category and the date are not asked for (the lines after the first stay
    in the input), the store and the files are unchanged. *)
Theorem add_expenses_invalid_amount :
  forall (float : string -> option Q) (st : State)
         (l1 : string) (rest : list string),
    stdin (world st) = l1 :: rest ->
    float (strip l1) = None ->
    let st' := snd (add_expenses float st) in
    fst (add_expenses float st) = Done tt /\
    untouched st st' /\
    stdin (world st') = rest /\
    stdout (world st')
    = (stdout (world st) ++ [Prompt AskAmount; MsgInvalidAmount])%list.
Proof.
  intros float [es [i o c f t]] l1 rest Hin Hf. simpl in Hin. subst i.
  cbv zeta. unfold add_expenses, untouched. run. rewrite Hf. run.
  rewrite <- app_assoc. repeat split.
Qed.

Lemma add_expenses_invalid_amount_witness :
  let st := init (feed ["ten"; "Food"; ""] (sample_world None)) in
  expenses (snd (add_expenses float_of_int_literal st)) = [] /\
  stdin (world (snd (add_expenses float_of_int_literal st))) = ["Food"; ""].
Proof.
  intros st.
  destruct (add_expenses_invalid_amount float_of_int_literal st "ten" ["Food"; ""]
              eq_refl eq_refl) as (_ & (H1 & _) & H2 & _).
  split; [exact H1|exact H2].
Defined.

Lemma edit_expense_not_integer float e0 es0 o c f t line rest :
  PyInt.int (strip line) = None ->
  edit_expense float (mkState (e0 :: es0) (mkWorld (line :: rest) o c f t))
  = (Done tt,
     mkState (e0 :: es0)
       (mkWorld rest
          (o ++ item_msgs 0 (e0 :: es0)
             ++ [Prompt AskEditNumber; MsgInvalidNumber])%list c f t)).
Proof.
  intros Hint. unfold edit_expense. unfold bind at 1. unfold get_expenses.
  cbn [expenses]. cbv beta iota.
  unfold bind at 1. rewrite print_items_run.
  run. rewrite Hint. run. repeat rewrite <- app_assoc. reflexivity.
Qed.

Lemma delete_expense_not_integer e0 es0 o c f t line rest :
  PyInt.int (strip line) = None ->
  delete_expense (mkState (e0 :: es0) (mkWorld (line :: rest) o c f t))
  = (Done tt,
     mkState (e0 :: es0)
       (mkWorld rest
          (o ++ item_msgs 0 (e0 :: es0)
             ++ [Prompt AskDeleteNumber; MsgInvalidNumber])%list c f t)).
Proof.
  intros Hint. unfold delete_expense. unfold bind at 1. unfold get_expenses.
  cbn [expenses]. cbv beta iota.
  unfold bind at 1. rewrite print_items_run.
  run. rewrite Hint. run. repeat rewrite <- app_assoc. reflexivity.
Qed.

Lemma edit_expense_out_of_range float e0 es0 o c f t line rest choice :
  PyInt.int (strip line) = Some choice ->
  ~ 1 <= choice <= Z.of_nat (List.length (e0 :: es0)) ->
  edit_expense float (mkState (e0 :: es0) (mkWorld (line :: rest) o c f t))
  = (Done tt,
     mkState (e0 :: es0)
       (mkWorld rest
          (o ++ item_msgs 0 (e0 :: es0)
             ++ [Prompt AskEditNumber; MsgInvalidSelection])%list c f t)).
Proof.
  intros Hint Hr. unfold edit_expense. unfold bind at 1. unfold get_expenses.
  cbn [expenses]. cbv beta iota.
  unfold bind at 1. rewrite print_items_run.
  run. rewrite Hint. run.
  assert (Hc : (1 <=? choice) && (choice <=? Z.of_nat (List.length (e0 :: es0))) = false).
  { apply andb_false_iff.
    destruct (Z.leb_spec 1 choice); [|now left].
    destruct (Z.leb_spec choice (Z.of_nat (List.length (e0 :: es0)))); [|now right].
    lia. }
  unfold andb in Hc. rewrite Hc. run. repeat rewrite <- app_assoc. reflexivity.
Qed.

(** X10.  On a store that is not empty, [edit_expense] and [delete_expense]
    given a line that is not an integer, and [edit_expense] given an integer
    outside [1, count], read that one line, change neither the store nor the
    files and end normally on an error message. *)
Theorem selection_rejected :
  forall (float : string -> option Q) (st : State)
         (line : string) (rest : list string),
    expenses st <> [] ->
    stdin (world st) = line :: rest ->
    (PyInt.int (strip line) = None ->
     fst (edit_expense float st) = Done tt /\
     untouched st (snd (edit_expense float st)) /\
     stdin (world (snd (edit_expense float st))) = rest /\
     In MsgInvalidNumber (stdout (world (snd (edit_expense float st)))) /\
     fst (delete_expense st) = Done tt /\
     untouched st (snd (delete_expense st)) /\
     stdin (world (snd (delete_expense st))) = rest /\
     In MsgInvalidNumber (stdout (world (snd (delete_expense st))))) /\
    (forall choice,
       PyInt.int (strip line) = Some choice ->
       ~ 1 <= choice <= Z.of_nat (List.length (expenses st)) ->
       fst (edit_expense float st) = Done tt /\
       untouched st (snd (edit_expense float st)) /\
       stdin (world (snd (edit_expense float st))) = rest /\
       In MsgInvalidSelection (stdout (world (snd (edit_expense float st))))).
Proof.
  intros float [es [i o c f t]] line rest Hne Hin. simpl in *. subst i.
  destruct es as [|e0 es0]; [congruence|]. clear Hne.
  unfold untouched. split.
  - intros Hint.
    rewrite (edit_expense_not_integer float e0 es0 o c f t line rest Hint).
    rewrite (delete_expense_not_integer e0 es0 o c f t line rest Hint).
    cbn [fst snd expenses world files stdin stdout].
    repeat split; apply in_or_app; right; apply in_or_app; right; simpl; auto.
  - intros choice Hint Hr.
    rewrite (edit_expense_out_of_range float e0 es0 o c f t line rest choice Hint Hr).
    cbn [fst snd expenses world files stdin stdout].
    repeat split; apply in_or_app; right; apply in_or_app; right; simpl; auto.
Qed.

Lemma selection_rejected_witness :
  let st := mkState [mkExpense 250 "Food" "2024-03-01"]
              (feed ["7"; "next"] (sample_world None)) in
  expenses (snd (edit_expense float_of_int_literal st))
  = [mkExpense 250 "Food" "2024-03-01"] /\
  stdin (world (snd (edit_expense float_of_int_literal st))) = ["next"].
Proof.
  intros st.
  destruct (selection_rejected float_of_int_literal st "7" ["next"]
              ltac:(discriminate) eq_refl) as (_ & H).
  destruct (H 7 eq_refl ltac:(simpl; lia)) as (_ & (H1 & _) & H2 & _).
  split; [exact H1|exact H2].
Defined.

(** X11.  On an empty store, [view_summary], [edit_expense], [delete_expense]
    and [graphical_summary] print one message and do nothing else: no line
    of input is read, nothing is saved, no chart is drawn. *)
Theorem empty_store_operations :
  forall (float : string -> option Q) (st : State),
    expenses st = [] ->
    view_summary st = (Done tt, emit [MsgNoExpenses] st) /\
    edit_expense float st = (Done tt, emit [MsgNoEdit] st) /\
    delete_expense st = (Done tt, emit [MsgNoDelete] st) /\
    graphical_summary st = (Done tt, emit [MsgNoChartData] st).
Proof.
  intros float [es w] H. simpl in H. subst es. repeat split.
Qed.

Lemma empty_store_operations_witness :
  let st := init (feed ["1"] (sample_world None)) in
  delete_expense st = (Done tt, emit [MsgNoDelete] st).
Proof.
  intros st.
  destruct (empty_store_operations float_of_int_literal st eq_refl)
    as (_ & _ & H & _).
  exact H.
Defined.

(** X12.  Adding an entry and then deleting the last position gives back the
    store as it was, and the data file holds it. *)
Theorem add_then_delete_last :
  forall (float : string -> option Q) (st : State)
         (l1 l2 l3 l4 : string) (rest : list string) (a : Q),
    stdin (world st) = l1 :: l2 :: l3 :: l4 :: rest ->
    float (strip l1) = Some a ->
    validate_date (if is_empty (strip l3)
                   then strftime_Ymd (clock (world st)) else strip l3) = true ->
    PyInt.int (strip l4) = Some (Z.of_nat (List.length (expenses st)) + 1) ->
    let st1 := snd (add_expenses float st) in
    let st2 := snd (delete_expense st1) in
    fst (delete_expense st1) = Done tt /\
    expenses st2 = expenses st /\
    saved st2.
Proof.
  intros float [es [i o c f t]] l1 l2 l3 l4 rest a Hin Hf Hv Hint.
  simpl in Hin. subst i. cbn [expenses world clock] in *. cbv zeta.
  rewrite (add_expenses_run float es o c f t l1 l2 l3 (l4 :: rest) a Hf).
  cbv zeta. rewrite Hv. cbn [snd].
  match goal with
  | |- context [delete_expense (mkState ?es1 (mkWorld _ ?o1 ?c1 ?f1 ?t1))] =>
      destruct (delete_expense_in_range es1 o1 c1 f1 t1 l4 rest
                  (Z.of_nat (List.length es) + 1) Hint)
        as (removed & _ & ->)
  end.
  - rewrite length_app. simpl. lia.
  - cbv zeta. unfold saved. cbn [fst snd expenses world files].
    replace (Z.to_nat (Z.of_nat (List.length es) + 1 - 1)) with (List.length es)
      by lia.
    rewrite remove_at_last, String.eqb_refl. repeat split.
Qed.

Lemma add_then_delete_last_witness :
  let e1 := mkExpense 250 "Food" "2024-03-01" in
  let st := mkState [e1] (feed ["40"; "Bus"; ""; "2"] (sample_world None)) in
  expenses (snd (delete_expense (snd (add_expenses float_of_int_literal st))))
  = [e1].
Proof.
  intros e1 st.
  destruct (add_then_delete_last float_of_int_literal st "40" "Bus" "" "2" []
              (inject_Z 40) eq_refl eq_refl eq_refl eq_refl) as (_ & H & _).
  exact H.
Defined.

(** ** Dictionaries *)

Lemma in_keys_dict_add k a d k' :
  In k' (keys (dict_add k a d)) <-> k' = k \/ In k' (keys d).
Proof.
  unfold keys. induction d as [|[k0 v] d IH]; simpl.
  - intuition.
  - destruct (String.eqb_spec k0 k) as [->|Hne]; simpl.
    + intuition.
    + rewrite IH. intuition.
Qed.

Lemma NoDup_keys_dict_add k a d :
  NoDup (keys d) -> NoDup (keys (dict_add k a d)).
Proof.
  unfold keys. induction d as [|[k0 v] d IH]; simpl; intros Hnd.
  - constructor; [intros []|constructor].
  - inversion Hnd as [|? ? Hnotin Hnd']; subst.
    destruct (String.eqb_spec k0 k) as [->|Hne]; simpl.
    + constructor; assumption.
    + constructor; [|now apply IH].
      intros Hin. apply (in_keys_dict_add k a d k0) in Hin.
      destruct Hin as [Heq|Hin]; [congruence|contradiction].
Qed.

Lemma keys_dict_add_new k a d :
  ~ In k (keys d) -> keys (dict_add k a d) = (keys d ++ [k])%list.
Proof.
  unfold keys. induction d as [|[k0 v] d IH]; simpl; intros Hn; [reflexivity|].
  destruct (String.eqb_spec k0 k) as [->|Hne]; [exfalso; auto|].
  simpl. rewrite IH; auto.
Qed.

Lemma keys_dict_add_old k a d :
  In k (keys d) -> keys (dict_add k a d) = keys d.
Proof.
  unfold keys. induction d as [|[k0 v] d IH]; simpl; intros Hin; [contradiction|].
  destruct (String.eqb_spec k0 k) as [->|Hne]; [reflexivity|].
  simpl. rewrite IH; [reflexivity|]. destruct Hin; [congruence|assumption].
Qed.

Lemma dict_get_keys_values d :
  NoDup (keys d) -> map (dict_get d) (keys d) = values d.
Proof.
  unfold keys, values. induction d as [|[k v] d IH]; simpl; intros Hnd;
    [reflexivity|].
  inversion Hnd as [|? ? Hnotin Hnd']; subst.
  rewrite String.eqb_refl. f_equal.
  rewrite <- (IH Hnd'). apply map_ext_in. intros k' Hk'.
  destruct (String.eqb_spec k k') as [->|_]; [contradiction|reflexivity].
Qed.

(** ** Totals by category *)

Lemma lower_char_idempotent c : lower_char (lower_char c) = lower_char c.
Proof.
  destruct c as [[|] [|] [|] [|] [|] [|] [|] [|]]; vm_compute; reflexivity.
Qed.

Lemma lower_idempotent s : lower (lower s) = lower s.
Proof.
  induction s as [|c s IH]; simpl; [reflexivity|].
  now rewrite lower_char_idempotent, IH.
Qed.

(** X13.  The total of a category does not depend on the letter case of the
    name asked for, and it is 0 when no entry has the category. *)
Theorem total_by_category_case :
  forall (es : list Expense) (c c' : string),
    total_by_category es (lower c) = total_by_category es c /\
    (lower c = lower c' -> total_by_category es c = total_by_category es c') /\
    ((forall e, In e es -> lower (category e) <> lower c) ->
     total_by_category es c = 0%Q).
Proof.
  intros es c c'. unfold total_by_category. split; [|split].
  - now rewrite lower_idempotent.
  - intros ->. reflexivity.
  - intros Hno.
    replace (filter (fun exp => String.eqb (lower (category exp)) (lower c)) es)
      with (@nil Expense); [reflexivity|].
    symmetry. induction es as [|e es IH]; simpl; [reflexivity|].
    destruct (String.eqb_spec (lower (category e)) (lower c)) as [Heq|_].
    + exfalso. apply (Hno e); simpl; auto.
    + apply IH. intros e' He'. apply Hno. simpl; auto.
Qed.

Lemma total_by_category_case_witness :
  let es := [mkExpense 250 "Food" "2024-03-01"; mkExpense 40 "Bus" "2024-03-02"] in
  total_by_category es "FOOD" = total_by_category es "food" /\
  total_by_category es "Rent" = 0%Q.
Proof.
  intros es.
  destruct (total_by_category_case es "FOOD" "food") as (_ & H1 & _).
  destruct (total_by_category_case es "Rent" "") as (_ & _ & H2).
  split.
  - apply H1. reflexivity.
  - apply H2. intros e [<-|[<-|[]]]; discriminate.
Defined.

(** ** The buckets of the time summary *)

Lemma summary_loop_buckets time_choice es :
  time_choice = 1 \/ time_choice = 2 \/ time_choice = 3 ->
  forall d,
  exists d' warnings,
    (forall st,
       summary_loop time_choice es d st = (Done (Some d'), emit warnings st)) /\
    (NoDup (keys d) -> NoDup (keys d')) /\
    (forall k, In k (keys d')
               <-> In k (keys d) \/ exists e, In e es /\ key_of time_choice e = Some k) /\
    (forall k, (dict_get d' k
                == dict_get d k
                   + sum (map amount (filter (has_key time_choice k) es)))%Q).
Proof.
  intros Htc. induction es as [|e es IH]; intros d.
  - exists d, []. split; [|split; [|split]].
    + intros st. now rewrite emit_nil.
    + auto.
    + intros k. split; [auto|]. intros [H|(e & [] & _)]. exact H.
    + intros k. simpl. rewrite sum_nil. ring.
  - cbn [summary_loop]. unfold validate_date.
    destruct (Strptime.strptime (date e)) as [dt|] eqn:Hdt; cbn [negb].
    + destruct (period_key_some time_choice e dt Htc) as (key & Hkey).
      destruct (IH (dict_add key (amount e) d)) as (d' & ws & H1 & H2 & H3 & H4).
      exists d', ws. split; [|split; [|split]].
      * intros st. cbv [bind lift ret]. rewrite Hkey. apply H1.
      * intros Hnd. apply H2. now apply NoDup_keys_dict_add.
      * intros k. rewrite H3, in_keys_dict_add. split.
        -- intros [[->|Hin]|(e' & He' & Hk')].
           ++ right. exists e. split; [simpl; auto|].
              unfold key_of. now rewrite Hdt.
           ++ now left.
           ++ right. exists e'. split; [simpl; auto|exact Hk'].
        -- intros [Hin|(e' & [<-|He'] & Hk')].
           ++ left. now right.
           ++ left. left. unfold key_of in Hk'. rewrite Hdt in Hk'. congruence.
           ++ right. exists e'. split; assumption.
      * intros k. rewrite H4, dict_get_dict_add. cbn [filter].
        assert (Hh : has_key time_choice k e = String.eqb key k)
          by (unfold has_key, key_of; now rewrite Hdt, Hkey).
        rewrite Hh. destruct (String.eqb key k); cbn [map].
        -- rewrite sum_cons. ring.
        -- ring.
    + destruct (IH d) as (d' & ws & H1 & H2 & H3 & H4).
      exists d', ([MsgSkipInvalidDate (date e)] ++ ws)%list.
      split; [|split; [|split]].
      * intros st. unfold bind, print. rewrite <- emit_emit. apply H1.
      * exact H2.
      * intros k. rewrite H3. split.
        -- intros [Hin|(e' & He' & Hk')]; [now left|].
           right. exists e'. split; [simpl; auto|exact Hk'].
        -- intros [Hin|(e' & [<-|He'] & Hk')]; [now left| |].
           ++ unfold key_of in Hk'. rewrite Hdt in Hk'. discriminate.
           ++ right. exists e'. split; assumption.
      * intros k. rewrite H4. cbn [filter].
        assert (Hh : has_key time_choice k e = false)
          by (unfold has_key, key_of; now rewrite Hdt).
        rewrite Hh. reflexivity.
Qed.

(** X14.  For each of the three granularities, the dictionary of the time
    summary has one bucket for each key of an entry with a valid date and no
    other, no key twice, and the value of a bucket is the sum of the amounts
    of the entries with that key (exact arithmetic). *)
Theorem time_summary_buckets :
  forall (time_choice : Z) (es : list Expense) (st : State),
    time_choice = 1 \/ time_choice = 2 \/ time_choice = 3 ->
    exists summary,
      fst (summary_loop time_choice es [] st) = Done (Some summary) /\
      NoDup (keys summary) /\
      (forall k, In k (keys summary)
                 <-> exists e, In e es /\ key_of time_choice e = Some k) /\
      (forall k, (dict_get summary k
                  == sum (map amount (filter (has_key time_choice k) es)))%Q).
Proof.
  intros time_choice es st Htc.
  destruct (summary_loop_buckets time_choice es Htc [])
    as (d' & ws & H1 & H2 & H3 & H4).
  exists d'. split; [now rewrite H1|]. split; [apply H2; constructor|].
  split.
  - intros k. rewrite H3. simpl. intuition.
  - intros k. rewrite H4. simpl. ring.
Qed.

Lemma time_summary_buckets_witness :
  let es := [mkExpense 100 "Food" "2024-01-15"; mkExpense 7 "Bus" "2024-02-01";
             mkExpense 50 "Bus" "2024-01-20"] in
  exists summary,
    fst (summary_loop 2 es [] (init (sample_world None))) = Done (Some summary) /\
    dict_get summary "2024-01" == 150.
Proof.
  intros es.
  destruct (time_summary_buckets 2 es (init (sample_world None))
              (or_intror (or_introl eq_refl))) as (summary & H1 & _ & _ & H4).
  exists summary. split; [exact H1|]. rewrite H4. reflexivity.
Defined.

(** X15.  With a time choice that is none of 1, 2, 3, the loop of the time
    summary stops at the first entry with a valid date, after the message of
    an invalid choice, and no summary is printed; when no entry has a valid
    date the choice is never looked at and the loop ends with the dictionary
    it started from. *)
Theorem summary_loop_invalid_choice :
  forall (time_choice : Z) (es : list Expense) (d : dict) (st : State),
    time_choice <> 1 -> time_choice <> 2 -> time_choice <> 3 ->
    ((exists e, In e es /\ validate_date (date e) = true) ->
     fst (summary_loop time_choice es d st) = Done None /\
     exists out,
       stdout (world (snd (summary_loop time_choice es d st)))
       = (out ++ [MsgInvalidChoice])%list) /\
    ((forall e, In e es -> validate_date (date e) = false) ->
     fst (summary_loop time_choice es d st) = Done (Some d)).
Proof.
  intros time_choice es d st H1 H2 H3.
  assert (Hkey : forall e dt, period_key time_choice e dt = None).
  { intros e dt. unfold period_key.
    destruct (Z.eqb_spec time_choice 1); [contradiction|].
    destruct (Z.eqb_spec time_choice 2); [contradiction|].
    destruct (Z.eqb_spec time_choice 3); [contradiction|reflexivity]. }
  revert st. induction es as [|e es IH]; intros st; split.
  - intros (e & [] & _).
  - reflexivity.
  - intros (e' & Hin & Hv). cbn [summary_loop].
    destruct (validate_date (date e)) eqn:Hve; cbn [negb].
    + destruct (validate_date_strptime _ Hve) as (dt & Hdt).
      unfold bind, lift. rewrite Hdt. cbv [ret]. rewrite Hkey. unfold print. simpl.
      split; [reflexivity|]. eexists. reflexivity.
    + unfold bind, print.
      destruct Hin as [<-|Hin]; [congruence|].
      apply (IH (emit [MsgSkipInvalidDate (date e)] st)). eauto.
  - intros Hall. cbn [summary_loop].
    rewrite (Hall e) by (simpl; auto). cbn [negb]. unfold bind, print.
    apply (IH (emit [MsgSkipInvalidDate (date e)] st)).
    intros e' He'. apply Hall. simpl; auto.
Qed.

Lemma summary_loop_invalid_choice_witness :
  let es := [mkExpense 7 "Bus" "15/01/2024"; mkExpense 100 "Food" "2024-01-15"] in
  fst (summary_loop 4 es [] (init (sample_world None))) = Done None.
Proof.
  intros es.
  destruct (summary_loop_invalid_choice 4 es [] (init (sample_world None))
              ltac:(discriminate) ltac:(discriminate) ltac:(discriminate))
    as (H & _).
  apply H. exists (mkExpense 100 "Food" "2024-01-15").
  split; [simpl; auto|reflexivity].
Defined.

(** ** The printed time summary *)

Lemma insert_sorted_perm kv l : Permutation (insert_sorted kv l) (kv :: l).
Proof.
  induction l as [|kv' l IH]; simpl; [reflexivity|].
  destruct (String.leb (fst kv) (fst kv')); [reflexivity|].
  rewrite IH. apply perm_swap.
Qed.

Lemma sorted_items_perm d : Permutation (sorted_items d) d.
Proof.
  unfold sorted_items. induction d as [|kv d IH]; simpl; [reflexivity|].
  rewrite insert_sorted_perm. now constructor.
Qed.

Lemma insert_sorted_hd kv kv0 l :
  key_le kv0 kv -> HdRel key_le kv0 l -> HdRel key_le kv0 (insert_sorted kv l).
Proof.
  intros H0 Hl. destruct l as [|kv' l]; simpl; [now constructor|].
  destruct (String.leb (fst kv) (fst kv')); constructor; [exact H0|].
  now inversion Hl.
Qed.

Lemma insert_sorted_sorted kv l :
  Sorted key_le l -> Sorted key_le (insert_sorted kv l).
Proof.
  induction 1 as [|kv' l Hs IH Hhd]; simpl.
  - repeat constructor.
  - destruct (String.leb (fst kv) (fst kv')) eqn:Hle.
    + constructor; [now constructor|]. constructor. exact Hle.
    + constructor; [exact IH|].
      apply insert_sorted_hd; [|exact Hhd].
      unfold key_le. destruct (String.leb_total (fst kv) (fst kv')) as [H|H];
        [congruence|exact H].
Qed.

Lemma sorted_items_sorted d : Sorted key_le (sorted_items d).
Proof.
  unfold sorted_items. induction d as [|kv d IH]; simpl.
  - constructor.
  - now apply insert_sorted_sorted.
Qed.

(** X16.  With the choices 3 and then 1, 2 or 3, [view_summary] ends with the
    header and one line for each bucket of the dictionary of the loop: the
    lines are the buckets, each once, in ascending order of their keys. *)
Theorem view_summary_periods_sorted :
  forall (st : State) (l1 l2 : string) (rest : list string) (time_choice : Z),
    expenses st <> [] ->
    stdin (world st) = l1 :: l2 :: rest ->
    PyInt.int (strip l1) = Some 3 ->
    PyInt.int (strip l2) = Some time_choice ->
    time_choice = 1 \/ time_choice = 2 \/ time_choice = 3 ->
    exists summary lines out,
      fst (summary_loop time_choice (expenses st) [] st) = Done (Some summary) /\
      fst (view_summary st) = Done tt /\
      stdout (world (snd (view_summary st)))
      = (out ++ [MsgSummaryHeader]
             ++ map (fun kv => MsgPeriod (fst kv) (snd kv)) lines)%list /\
      Permutation lines summary /\
      Sorted key_le lines.
Proof.
  intros [es [i o c f t]] l1 l2 rest time_choice Hne Hin H1 H2 Htc.
  simpl in *. subst i. destruct es as [|e es]; [congruence|].
  destruct (view_summary_time_run e es l1 l2 rest o c f t time_choice H1 H2 Htc)
    as (summary & ws & Hloop & Hrun).
  exists summary, (sorted_items summary),
    (o ++ [Prompt AskSummaryChoice; Prompt AskTimeChoice] ++ ws)%list.
  rewrite Hrun, Hloop. cbn [fst snd world stdout].
  split; [reflexivity|]. split; [reflexivity|].
  split; [now repeat rewrite <- app_assoc|].
  split; [apply sorted_items_perm|apply sorted_items_sorted].
Qed.

Lemma view_summary_periods_sorted_witness :
  let es := [mkExpense 7 "Bus" "2024-02-01"; mkExpense 100 "Food" "2024-01-15"] in
  let st := mkState es (feed ["3"; "2"] (sample_world None)) in
  exists lines out,
    stdout (world (snd (view_summary st)))
    = (out ++ [MsgSummaryHeader]
           ++ map (fun kv => MsgPeriod (fst kv) (snd kv)) lines)%list /\
    Sorted key_le lines.
Proof.
  intros es st.
  destruct (view_summary_periods_sorted st "3" "2" [] 2
              ltac:(discriminate) eq_refl eq_refl eq_refl
              (or_intror (or_introl eq_refl)))
    as (summary & lines & out & _ & _ & H & _ & Hs).
  exists lines, out. split; [exact H|exact Hs].
Defined.

(** ** The chart *)

Lemma category_totals_keys_from es :
  forall d,
    NoDup (keys d) ->
    let d' := fold_left (fun d exp => dict_add (category exp) (amount exp) d) es d in
    NoDup (keys d') /\
    keys d' = (keys d ++ first_occurrences (keys d) (map category es))%list /\
    (sum (values d') == sum (values d) + sum (map amount es))%Q.
Proof.
  induction es as [|e es IH]; intros d Hnd; cbn [fold_left map first_occurrences].
  - split; [exact Hnd|]. split; [now rewrite app_nil_r|].
    rewrite sum_nil. ring.
  - destruct (IH (dict_add (category e) (amount e) d)
                (NoDup_keys_dict_add _ _ _ Hnd)) as (H1 & H2 & H3).
    cbv zeta in *. split; [exact H1|]. split.
    + rewrite H2.
      destruct (existsb (String.eqb (category e)) (keys d)) eqn:Hex.
      * apply existsb_eqb_In in Hex. now rewrite keys_dict_add_old.
      * assert (Hnot : ~ In (category e) (keys d)).
        { intros Hin. apply existsb_eqb_In in Hin. congruence. }
        rewrite keys_dict_add_new by exact Hnot. rewrite <- app_assoc. simpl.
        f_equal. f_equal.
        clear -Hnot. generalize (map category es) as l. intros l.
        assert (G : forall s1 s2,
                   (forall x, In x s1 <-> In x s2) ->
                   first_occurrences s1 l = first_occurrences s2 l).
        { induction l as [|x l IHl]; intros s1 s2 Hs; simpl; [reflexivity|].
          assert (Hb : existsb (String.eqb x) s1 = existsb (String.eqb x) s2).
          { destruct (existsb (String.eqb x) s1) eqn:E1;
              destruct (existsb (String.eqb x) s2) eqn:E2; try reflexivity.
            - apply existsb_eqb_In in E1. apply Hs in E1.
              apply existsb_eqb_In in E1. congruence.
            - apply existsb_eqb_In in E2. apply Hs in E2.
              apply existsb_eqb_In in E2. congruence. }
          rewrite Hb. destruct (existsb (String.eqb x) s2).
          - now apply IHl.
          - f_equal. apply IHl. intros y. simpl. rewrite Hs. reflexivity. }
        apply G. intros x. rewrite in_app_iff. simpl. intuition.
    + rewrite H3, sum_values_dict_add. rewrite sum_cons. ring.
Qed.

(** X17.  On a store that is not empty, [graphical_summary] draws one chart and
    does nothing else.  The chart has one bar for each category string of
    the store, in the order in which the categories first appear; the bar of
    a category is the sum, in the order of the store, of the amounts of the
    entries with exactly that category string. *)
Theorem graphical_summary_bars :
  forall st : State,
    expenses st <> [] ->
    exists categories amounts,
      graphical_summary st
      = (Done tt,
         with_world
           (mkWorld (stdin (world st)) (stdout (world st))
              (charts (world st) ++ [(categories, amounts)])%list
              (files (world st)) (clock (world st))) st) /\
      categories = first_occurrences [] (map category (expenses st)) /\
      NoDup categories /\
      amounts = map (dict_get (category_totals (expenses st))) categories /\
      (forall c,
         (dict_get (category_totals (expenses st)) c
          == sum (map amount
                    (filter (fun e => String.eqb (category e) c) (expenses st))))%Q).
Proof.
  intros [es w] Hne. simpl in *.
  destruct es as [|e es]; [congruence|].
  destruct (category_totals_keys_from (e :: es) [] ltac:(constructor))
    as (Hnd & Hkeys & Hsum).
  fold (category_totals (e :: es)) in *. cbv zeta in *.
  exists (keys (category_totals (e :: es))),
    (map (dict_get (category_totals (e :: es))) (keys (category_totals (e :: es)))).
  split; [reflexivity|]. split; [exact Hkeys|]. split; [exact Hnd|].
  split; [reflexivity|]. apply category_totals_exact.
Qed.

Lemma graphical_summary_bars_witness :
  let es := [mkExpense 1 "Food" "2024-03-01"; mkExpense 2 "Bus" "2024-03-02";
             mkExpense 4 "Food" "2024-03-03"] in
  exists categories amounts,
    charts (world (snd (graphical_summary (mkState es (sample_world None)))))
    = [(categories, amounts)] /\
    categories = ["Food"; "Bus"] /\
    dict_get (category_totals es) "Food" == 5.
Proof.
  intros es.
  destruct (graphical_summary_bars (mkState es (sample_world None))
              ltac:(discriminate))
    as (categories & amounts & Hrun & Hc & _ & _ & Hs).
  exists categories, amounts. rewrite Hrun. split; [reflexivity|].
  split; [exact Hc|]. cbn [expenses] in Hs. rewrite Hs. reflexivity.
Defined.

(** ** Printing and reading dates *)

Lemma digit_val_digit_char v : 0 <= v <= 9 -> digit_val (digit_char v) = Some v.
Proof.
  intros H.
  assert (v = 0 \/ v = 1 \/ v = 2 \/ v = 3 \/ v = 4 \/ v = 5 \/ v = 6 \/ v = 7
          \/ v = 8 \/ v = 9) as Hv by lia.
  repeat (destruct Hv as [-> | Hv]); try subst v; reflexivity.
Qed.

Lemma digit_char_digit_val c v : digit_val c = Some v -> c = digit_char v.
Proof.
  unfold digit_val, digit_char.
  destruct (Z.leb_spec 48 (code c)); destruct (Z.leb_spec (code c) 57);
    simpl; intros Hx; inversion Hx.
  replace (48 + (code c - 48)) with (code c) by lia.
  now apply code_char.
Qed.

(** The decimal digits of a number below 10000, and of one below 100. *)
Lemma zero_pad_4_digits y :
  0 <= y <= 9999 ->
  zero_pad 4 y
  = String (digit_char (y / 1000))
      (String (digit_char (y / 100 mod 10))
         (String (digit_char (y / 10 mod 10))
            (String (digit_char (y mod 10)) ""))).
Proof.
  intros Hy.
  assert (Hall :
            forallb
              (fun n =>
                 let y := Z.of_nat n in
                 String.eqb (zero_pad 4 y)
                   (String (digit_char (y / 1000))
                      (String (digit_char (y / 100 mod 10))
                         (String (digit_char (y / 10 mod 10))
                            (String (digit_char (y mod 10)) "")))))
              (seq 0 (Z.to_nat 10000)) = true) by (vm_compute; reflexivity).
  rewrite forallb_forall in Hall.
  specialize (Hall (Z.to_nat y)). rewrite Z2Nat.id in Hall by lia.
  apply String.eqb_eq, Hall, in_seq. lia.
Qed.

Lemma zero_pad_2_digits m :
  0 <= m <= 99 ->
  zero_pad 2 m = String (digit_char (m / 10)) (String (digit_char (m mod 10)) "").
Proof.
  intros Hm.
  assert (Hall :
            forallb
              (fun n =>
                 let m := Z.of_nat n in
                 String.eqb (zero_pad 2 m)
                   (String (digit_char (m / 10))
                      (String (digit_char (m mod 10)) "")))
              (seq 0 (Z.to_nat 100)) = true) by (vm_compute; reflexivity).
  rewrite forallb_forall in Hall.
  specialize (Hall (Z.to_nat m)). rewrite Z2Nat.id in Hall by lia.
  apply String.eqb_eq, Hall, in_seq. lia.
Qed.

Lemma numeral_zero_pad_4 y : 0 <= y <= 9999 -> numeral 4 (zero_pad 4 y) y.
Proof.
  intros Hy. rewrite (zero_pad_4_digits y Hy). split; [reflexivity|].
  cbn [digits_value].
  rewrite !digit_val_digit_char by (Z.div_mod_to_equations; lia).
  f_equal. Z.div_mod_to_equations. lia.
Qed.

Lemma numeral_zero_pad_2 m : 0 <= m <= 99 -> numeral 2 (zero_pad 2 m) m.
Proof.
  intros Hm. rewrite (zero_pad_2_digits m Hm). split; [reflexivity|].
  cbn [digits_value].
  rewrite !digit_val_digit_char by (Z.div_mod_to_equations; lia).
  f_equal. Z.div_mod_to_equations. lia.
Qed.

Lemma numeral_4_zero_pad t y : numeral 4 t y -> t = zero_pad 4 y /\ 0 <= y <= 9999.
Proof.
  intros [Hl Hv].
  destruct t as [|c1 [|c2 [|c3 [|c4 [|c5 t]]]]]; simpl in Hl; try discriminate.
  cbn [digits_value] in Hv.
  destruct (digit_val c1) as [v1|] eqn:E1; [|discriminate].
  destruct (digit_val c2) as [v2|] eqn:E2; [|discriminate].
  destruct (digit_val c3) as [v3|] eqn:E3; [|discriminate].
  destruct (digit_val c4) as [v4|] eqn:E4; [|discriminate].
  pose proof (digit_val_range _ _ E1). pose proof (digit_val_range _ _ E2).
  pose proof (digit_val_range _ _ E3). pose proof (digit_val_range _ _ E4).
  assert (Hy : y = 1000 * v1 + 100 * v2 + 10 * v3 + v4)
    by (injection Hv; lia).
  clear Hv.
  assert (Hr : 0 <= y <= 9999) by lia. split; [|exact Hr].
  rewrite (zero_pad_4_digits y Hr).
  rewrite (digit_char_digit_val _ _ E1), (digit_char_digit_val _ _ E2),
    (digit_char_digit_val _ _ E3), (digit_char_digit_val _ _ E4).
  repeat f_equal; Z.div_mod_to_equations; lia.
Qed.

Lemma numeral_2_zero_pad t m : numeral 2 t m -> t = zero_pad 2 m /\ 0 <= m <= 99.
Proof.
  intros H. destruct (numeral_2 _ _ H) as (c1 & c2 & v1 & v2 & -> & E1 & E2 & ->).
  pose proof (digit_val_range _ _ E1). pose proof (digit_val_range _ _ E2).
  assert (Hr : 0 <= 10 * v1 + v2 <= 99) by lia. split; [|exact Hr].
  rewrite (zero_pad_2_digits _ Hr).
  rewrite (digit_char_digit_val _ _ E1), (digit_char_digit_val _ _ E2).
  repeat f_equal; Z.div_mod_to_equations; lia.
Qed.

Lemma append_nil_r t : t ++ "" = t.
Proof. induction t as [|c t IH]; simpl; congruence. Qed.

(** [strptime] on a text of the accepted forms gives the date the text
    denotes. *)
Lemma strptime_ymd_text ys ms ds y m d :
  numeral 4 ys y ->
  numeral 2 ms m \/ numeral 1 ms m ->
  numeral 2 ds d \/ numeral 1 ds d
  \/ (exists t, ds = String " " t /\ numeral 1 t d) ->
  gregorian y m d ->
  strptime (ymd_text ys ms ds) = Some (mkDate y m d).
Proof.
  intros Hy Hm Hd Hg. pose proof Hg as (Hyr & Hmr & Hdr).
  pose proof (days_in_month_le_31 y m Hmr).
  unfold strptime, match_format, ymd_text.
  rewrite (directive_Y_ok ys y _ Hy). cbn [append hyphen].
  change (code "-" =? 45) with true. cbv iota.
  rewrite (directive_m_ok ms m "-" _ Hm Hmr eq_refl). cbn [hyphen].
  change (code "-" =? 45) with true. cbv iota.
  rewrite (directive_d_ok ds d Hd) by lia.
  apply check_date_fields_gregorian in Hg. now rewrite Hg.
Qed.

(** X18.  On an ASCII text, [strptime] returns [Some dt] exactly when the
    text is made of a numeral of four digits for the year of [dt], a hyphen,
    a numeral of one or two digits for its month, a hyphen and a numeral of
    one or two digits (or of one digit after a space) for its day, [dt] being
    a date of the calendar: the fields returned are the numbers written. *)
Theorem strptime_fields :
  forall (s : string) (dt : datetime),
    ascii_text s = true ->
    (strptime s = Some dt <->
     exists ys ms ds,
       s = ymd_text ys ms ds /\
       numeral 4 ys (year dt) /\
       (numeral 2 ms (month dt) \/ numeral 1 ms (month dt)) /\
       (numeral 2 ds (day dt) \/ numeral 1 ds (day dt)
        \/ exists t, ds = String " " t /\ numeral 1 t (day dt)) /\
       gregorian (year dt) (month dt) (day dt)).
Proof.
  intros s dt _. split.
  - unfold strptime, match_format.
    destruct (directive_Y s) as [[y s1]|] eqn:EY; [|discriminate].
    destruct (hyphen s1) as [s2|] eqn:H1; [|discriminate].
    destruct (directive_m s2) as [[m s3]|] eqn:EM; [|discriminate].
    destruct (hyphen s3) as [s4|] eqn:H2; [|discriminate].
    destruct (directive_d s4) as [[d s5]|] eqn:ED; [|discriminate].
    destruct s5; [|discriminate].
    destruct (check_date_fields y m d) eqn:EC; [|discriminate].
    intros Hx; inversion Hx; subst dt. cbn [year month day].
    apply directive_Y_inv in EY. destruct EY as (ys & -> & Hy).
    apply hyphen_inv in H1. subst s1.
    apply directive_m_inv in EM. destruct EM as (ms & -> & Hm & _).
    apply hyphen_inv in H2. subst s3.
    apply directive_d_inv in ED. destruct ED as (ds & -> & Hd & _).
    exists ys, ms, ds. rewrite append_nil_r.
    split; [reflexivity|]. split; [assumption|]. split; [assumption|].
    split; [assumption|]. now apply check_date_fields_gregorian.
  - intros (ys & ms & ds & -> & Hy & Hm & Hd & Hg).
    rewrite (strptime_ymd_text ys ms ds _ _ _ Hy Hm Hd Hg).
    destruct dt; reflexivity.
Qed.

Lemma strptime_fields_witness :
  strptime "2024-3- 7" = Some (mkDate 2024 3 7).
Proof.
  apply (proj2 (strptime_fields "2024-3- 7" (mkDate 2024 3 7) eq_refl)).
  exists "2024", "3", " 7". cbn [year month day].
  split; [reflexivity|].
  split; [split; reflexivity|].
  split; [right; split; reflexivity|].
  split; [right; right; exists "7"; split; [reflexivity|split; reflexivity]|].
  unfold gregorian.
  replace (days_in_month 2024 3) with 31 by reflexivity. lia.
Defined.

(** From the year 1000 on the year is written on four digits. *)
Lemma of_int_zero_pad_4 y : 1000 <= y <= 9999 -> of_int y = zero_pad 4 y.
Proof.
  intros Hy.
  assert (Hall :
            forallb
              (fun n =>
                 let y := Z.of_nat n in
                 (y <? 1000) || String.eqb (of_int y) (zero_pad 4 y))
              (seq 0 (Z.to_nat 10000)) = true) by (vm_compute; reflexivity).
  rewrite forallb_forall in Hall.
  specialize (Hall (Z.to_nat y)). rewrite Z2Nat.id in Hall by lia.
  cbv zeta in Hall.
  destruct (Z.ltb_spec y 1000) as [Hlt|_]; [lia|].
  apply String.eqb_eq. apply Hall, in_seq. lia.
Qed.

Lemma strftime_Ymd_canonical dt :
  gregorian (year dt) (month dt) (day dt) ->
  1000 <= year dt ->
  strptime (strftime_Ymd dt) = Some dt /\
  validate_date (strftime_Ymd dt) = true /\
  canonical_date (strftime_Ymd dt).
Proof.
  destruct dt as [y m d]. intros Hg H1000. cbn [year month day] in Hg, H1000.
  pose proof Hg as (Hyr & Hmr & Hdr).
  pose proof (days_in_month_le_31 y m Hmr).
  assert (Hy : numeral 4 (zero_pad 4 y) y) by (apply numeral_zero_pad_4; lia).
  assert (Hm : numeral 2 (zero_pad 2 m) m) by (apply numeral_zero_pad_2; lia).
  assert (Hd : numeral 2 (zero_pad 2 d) d) by (apply numeral_zero_pad_2; lia).
  assert (Ht : strftime_Ymd (mkDate y m d)
               = ymd_text (zero_pad 4 y) (zero_pad 2 m) (zero_pad 2 d)).
  { unfold strftime_Ymd, ymd_text. cbn [year month day].
    rewrite of_int_zero_pad_4 by lia. reflexivity. }
  assert (Hs : strptime (strftime_Ymd (mkDate y m d)) = Some (mkDate y m d)).
  { rewrite Ht.
    apply (strptime_ymd_text _ _ _ y m d Hy (or_introl Hm) (or_introl Hd) Hg). }
  split; [exact Hs|]. split.
  - unfold validate_date. now rewrite Hs.
  - exists (zero_pad 4 y), (zero_pad 2 m), (zero_pad 2 d), y, m, d.
    split; [exact Ht|]. tauto.
Qed.

(** X19.  Printing a date of the calendar of the year 1000 or later with
    [strftime("%Y-%m-%d")] and reading the text with [strptime] gives the
    date back; so the text passes [validate_date], and it is of the grammar
    [YYYY-MM-DD]. *)
Theorem strptime_strftime_roundtrip :
  forall dt : datetime,
    gregorian (year dt) (month dt) (day dt) ->
    1000 <= year dt ->
    strptime (strftime_Ymd dt) = Some dt /\
    validate_date (strftime_Ymd dt) = true /\
    canonical_date (strftime_Ymd dt).
Proof.
  intros dt Hg Hy. now apply strftime_Ymd_canonical.
Qed.

Lemma strptime_strftime_roundtrip_witness :
  strptime (strftime_Ymd (mkDate 2024 2 29)) = Some (mkDate 2024 2 29).
Proof.
  apply (strptime_strftime_roundtrip (mkDate 2024 2 29)).
  - unfold gregorian. cbn [year month day].
    replace (days_in_month 2024 2) with 29 by reflexivity. lia.
  - cbn [year]. lia.
Defined.

(** X20.  A text of the grammar [YYYY-MM-DD] is read by [strptime] as a
    date; when the year is 1000 or later, [strftime] prints that date as the
    same text, and the key of the monthly summary, [strftime("%Y-%m")], is
    the first seven characters of the text. *)
Theorem canonical_date_keys :
  forall s : string,
    canonical_date s ->
    exists dt,
      strptime s = Some dt /\
      (1000 <= year dt ->
       strftime_Ymd dt = s /\
       strftime_Ym dt = substring 0 7 s).
Proof.
  intros s (ys & ms & ds & y & m & d & -> & Hy & Hm & Hd & Hg).
  exists (mkDate y m d).
  split; [apply (strptime_ymd_text _ _ _ _ _ _ Hy (or_introl Hm) (or_introl Hd) Hg)|].
  cbn [year]. intros H1000.
  destruct (numeral_4_zero_pad _ _ Hy) as [-> Hyr].
  destruct (numeral_2_zero_pad _ _ Hm) as [-> Hmr].
  destruct (numeral_2_zero_pad _ _ Hd) as [-> Hdr].
  unfold strftime_Ymd, strftime_Ym, ymd_text. cbn [year month day].
  rewrite of_int_zero_pad_4 by lia.
  split; [reflexivity|].
  rewrite (zero_pad_4_digits y) by lia. rewrite (zero_pad_2_digits m Hmr).
  reflexivity.
Qed.

Lemma canonical_date_keys_witness :
  exists dt,
    strptime "2024-01-15" = Some dt /\ strftime_Ym dt = "2024-01".
Proof.
  destruct (canonical_date_keys "2024-01-15") as (dt & H1 & H2).
  - exists "2024", "01", "15", 2024, 1, 15.
    split; [reflexivity|].
    split; [split; reflexivity|].
    split; [split; reflexivity|].
    split; [split; reflexivity|].
    unfold gregorian.
    replace (days_in_month 2024 1) with 31 by reflexivity. lia.
  - exists dt. split; [exact H1|].
    apply H2. injection H1 as <-. cbn [year]. lia.
Defined.

(** ** [add_expenses] *)

(** C9. [add_expenses] on an amount that reads as the number [a]: an empty
    date is replaced by the date of the clock; when the date then fails
    [validate_date] the store and the files are unchanged and the operation
    ends on the message of an invalid date; otherwise the entry with the
    amount, the category and the date is appended at the end of the store,
    which is saved.  The date put for an empty one is the date of the clock
    in the form [YYYY-MM-DD]: a text of that grammar that [strptime] reads
    as the date of the clock (the clock being on a date of the calendar, of
    the year 1000 or later), so it passes [validate_date]. *)
Theorem add_expenses_spec :
  forall (float : string -> option Q) (st : State)
         (l1 l2 l3 : string) (rest : list string) (a : Q),
    stdin (world st) = l1 :: l2 :: l3 :: rest ->
    float (Str.strip l1) = Some a ->
    let d := if is_empty (Str.strip l3)
             then strftime_Ymd (clock (world st)) else Str.strip l3 in
    let st' := snd (add_expenses float st) in
    fst (add_expenses float st) = Done tt /\
    (validate_date d = false ->
     expenses st' = expenses st /\
     files (world st') = files (world st) /\
     exists out, stdout (world st') = (out ++ [MsgInvalidDate])%list) /\
    (validate_date d = true ->
     expenses st' = (expenses st ++ [mkExpense a (Str.strip l2) d])%list /\
     files (world st') DEFAULT_FILENAME
     = Some (Json (JArray (map to_dict (expenses st'))))) /\
    (Str.strip l3 = "" ->
     gregorian (year (clock (world st))) (month (clock (world st)))
       (day (clock (world st))) ->
     1000 <= year (clock (world st)) ->
     canonical_date d /\
     Strptime.strptime d = Some (clock (world st)) /\
     validate_date d = true).
Proof.
  intros float [es [i o c f t]] l1 l2 l3 rest a Hin Hf.
  simpl in Hin. subst i. cbn [expenses world clock]. cbv zeta.
  rewrite (add_expenses_run float es o c f t l1 l2 l3 rest a Hf). cbv zeta.
  cbn [fst snd].
  split; [reflexivity|].
  split; [|split].
  - intros Hv. rewrite Hv. cbn [expenses world files stdout].
    repeat split.
    exists (o ++ [Prompt AskAmount; Prompt AskCategory; Prompt AskDate])%list.
    reflexivity.
  - intros Hv. rewrite Hv. cbn [expenses world files stdout].
    split; [reflexivity|]. now rewrite String.eqb_refl.
  - intros He Hg H1000. rewrite He. cbn [is_empty].
    destruct (strftime_Ymd_canonical t Hg H1000) as (Hs & Hv & Hc).
    split; [exact Hc|]. split; [exact Hs|exact Hv].
Qed.

(** [add_expenses] with the lines ["250"], ["Food"] and an empty date, the
    clock on 2024-03-01. *)
Lemma add_expenses_spec_witness :
  let st := init (feed ["250"; "Food"; ""] (sample_world None)) in
  let st' := snd (add_expenses float_of_int_literal st) in
  expenses st' = [mkExpense (inject_Z 250) "Food" "2024-03-01"] /\
  Strptime.strptime "2024-03-01" = Some (mkDate 2024 3 1) /\
  total_by_category (expenses st') "food" == 250.
Proof.
  intros st st'.
  destruct (add_expenses_spec float_of_int_literal st "250" "Food" "" [] (inject_Z 250)
              eq_refl eq_refl) as (_ & _ & Hok & Htoday).
  destruct (Hok eq_refl) as (Hes & _).
  split; [exact Hes|]. split.
  - apply Htoday; [reflexivity| |cbn; lia].
    unfold gregorian. cbn [st init feed sample_world world clock year month day].
    replace (days_in_month 2024 3) with 31 by reflexivity. lia.
  - unfold st'. rewrite Hes. reflexivity.
Defined.

(** X21.  [add_expenses] with an amount that reads as a number and an empty
    date, the clock on a date of the calendar of the year 1000 or later: the
    entry is appended with a date of the grammar [YYYY-MM-DD] that [strptime]
    reads as the date of the clock, and the store is saved; the date is
    never refused. *)
Theorem add_expenses_today :
  forall (float : string -> option Q) (st : State)
         (l1 l2 l3 : string) (rest : list string) (a : Q),
    stdin (world st) = l1 :: l2 :: l3 :: rest ->
    float (strip l1) = Some a ->
    strip l3 = "" ->
    gregorian (year (clock (world st))) (month (clock (world st)))
      (day (clock (world st))) ->
    1000 <= year (clock (world st)) ->
    exists today,
      fst (add_expenses float st) = Done tt /\
      expenses (snd (add_expenses float st))
      = (expenses st ++ [mkExpense a (strip l2) today])%list /\
      canonical_date today /\
      strptime today = Some (clock (world st)) /\
      saved (snd (add_expenses float st)).
Proof.
  intros float [es [i o c f t]] l1 l2 l3 rest a Hin Hf Hd Hg H1000.
  simpl in Hin. subst i. cbn [world clock expenses] in *.
  destruct (strftime_Ymd_canonical t Hg H1000) as (Hs & Hv & Hc).
  exists (strftime_Ymd t).
  rewrite (add_expenses_run float es o c f t l1 l2 l3 rest a Hf).
  cbv zeta. rewrite Hd. cbn [is_empty]. rewrite Hv.
  unfold saved. cbn [fst snd expenses world files].
  rewrite String.eqb_refl. repeat split; assumption.
Qed.

Lemma add_expenses_today_witness :
  let st := init (feed ["250"; "Food"; "  "] (sample_world None)) in
  exists today,
    expenses (snd (add_expenses float_of_int_literal st))
    = [mkExpense (inject_Z 250) "Food" today] /\
    strptime today = Some (mkDate 2024 3 1).
Proof.
  intros st.
  destruct (add_expenses_today float_of_int_literal st "250" "Food" "  " []
              (inject_Z 250) eq_refl eq_refl eq_refl)
    as (today & _ & H & _ & Hs & _).
  - unfold gregorian. simpl.
    replace (days_in_month 2024 3) with 31 by reflexivity. lia.
  - simpl. lia.
  - exists today. split; [exact H|exact Hs].
Defined.

(** ** Exceptions that leave an operation *)

Lemma summary_loop_done time_choice es :
  forall d st,
  exists r warnings,
    summary_loop time_choice es d st = (Done r, emit warnings st).
Proof.
  induction es as [|e es IH]; intros d st; cbn [summary_loop].
  - exists (Some d), []. now rewrite emit_nil.
  - unfold validate_date.
    destruct (strptime (date e)) as [dt|] eqn:Hdt; cbn [negb].
    + cbv [bind lift ret].
      destruct (period_key time_choice e dt) as [key|].
      * apply IH.
      * exists None, [MsgInvalidChoice]. reflexivity.
    + unfold bind, print.
      destruct (IH d (emit [MsgSkipInvalidDate (date e)] st)) as (r & ws & ->).
      exists r, ([MsgSkipInvalidDate (date e)] ++ ws)%list.
      now rewrite emit_emit.
Qed.

Lemma for_each_emit {A} (f : A -> M unit) (g : A -> message) xs st :
  (forall x s, f x s = (Done tt, emit [g x] s)) ->
  for_each f xs st = (Done tt, emit (map g xs) st).
Proof.
  intros Hf. revert st. induction xs as [|x xs IH]; intros st; simpl.
  - unfold ret. now rewrite emit_nil.
  - unfold bind. rewrite Hf, IH. now rewrite emit_emit.
Qed.

Lemma guard_resolve_index {A} (l : list A) choice :
  (1 <=? choice) && (choice <=? Z.of_nat (List.length l)) = true ->
  exists k x, resolve_index l (choice - 1) = Some k /\ nth_error l k = Some x.
Proof.
  intros H. apply andb_true_iff in H. destruct H as [H1 H2].
  apply Z.leb_le in H1. apply Z.leb_le in H2.
  exists (Z.to_nat (choice - 1)).
  destruct (nth_error l (Z.to_nat (choice - 1))) as [x|] eqn:Hn.
  - exists x. split; [|reflexivity]. apply resolve_index_in_range. lia.
  - apply nth_error_None in Hn. lia.
Qed.

(** The store holding entries with a number and two strings, [EOFError]
    alone leaves [view_summary]. *)
Lemma view_summary_raise st x :
  fst (view_summary st) = Raise x -> x = EOFError.
Proof.
  destruct st as [es [i o c f t]]. unfold view_summary.
  unfold bind at 1. unfold get_expenses. cbn [expenses]. cbv beta iota.
  destruct es as [|e es]; [discriminate|].
  unfold bind at 1. unfold input_int at 1. unfold try_except, bind at 1.
  unfold input at 1. cbn [world stdin].
  destruct i as [|l1 i]; [simpl; intros Hx; inversion Hx; reflexivity|].
  cbv beta iota. unfold bind at 1, lift at 1.
  destruct (PyInt.int (strip l1)) as [choice|]; [|discriminate].
  unfold ret at 1. cbv beta iota. unfold ret at 1. cbv beta iota.
  destruct (choice =? 1).
  { unfold bind, input. cbn [with_world world stdin].
    destruct i; simpl; intros Hx; inversion Hx; reflexivity. }
  destruct (choice =? 2); [discriminate|].
  destruct (choice =? 3); [|discriminate].
  unfold bind at 1. unfold input_int at 1. unfold try_except, bind at 1.
  unfold input at 1. cbn [with_world world stdin].
  destruct i as [|l2 i]; [simpl; intros Hx; inversion Hx; reflexivity|].
  cbv beta iota. unfold bind at 1, lift at 1.
  destruct (PyInt.int (strip l2)) as [time_choice|]; [|discriminate].
  unfold ret at 1. cbv beta iota. unfold ret at 1. cbv beta iota.
  unfold bind at 1.
  match goal with
  | |- context [summary_loop ?a ?b ?c ?d] =>
      destruct (summary_loop_done a b c d) as (r & ws & ->)
  end.
  destruct r as [summary|]; [|discriminate].
  unfold bind at 1. unfold print at 1.
  rewrite (for_each_emit _ (fun kv => MsgPeriod (fst kv) (snd kv)))
    by reflexivity.
  discriminate.
Qed.

(** The exceptions that leave the three operations that change the store,
    a write of the data file succeeding: [EOFError] alone, before anything
    was changed. *)
Lemma mutators_raise (float : string -> option Q) (st : State) (x : exn) :
  (fst (add_expenses float st) = Raise x ->
   x = EOFError /\ untouched st (snd (add_expenses float st))) /\
  (fst (edit_expense float st) = Raise x ->
   x = EOFError /\ untouched st (snd (edit_expense float st))) /\
  (fst (delete_expense st) = Raise x ->
   x = EOFError /\ untouched st (snd (delete_expense st))).
Proof.
  split; [|split].
  - destruct (add_expenses float st) as [r st'] eqn:E. simpl. intros ->.
    destruct st as [es [i o c f t]]. revert E. unfold add_expenses, untouched.
    exec; intros E; inversion E; subst; simpl; auto.
  - destruct (edit_expense float st) as [r st'] eqn:E. simpl. intros ->.
    destruct st as [es [i o c f t]]. revert E.
    unfold edit_expense, item, modify, untouched.
    exec; intros E; inversion E; subst; simpl; auto;
      match goal with
      | H1 : (1 <=? ?z) = true,
        H2 : (?z <=? Z.of_nat (List.length ?L)) = true |- _ =>
          destruct (guard_resolve_index L z) as (k' & x' & G1 & G2);
          [now rewrite H1, H2|congruence]
      end.
  - destruct (delete_expense st) as [r st'] eqn:E. simpl. intros ->.
    destruct st as [es [i o c f t]]. revert E.
    unfold delete_expense, pop, untouched.
    exec; intros E; inversion E; subst; simpl; auto;
      match goal with
      | H1 : (1 <=? ?z) = true,
        H2 : (?z <=? Z.of_nat (List.length ?L)) = true |- _ =>
          destruct (guard_resolve_index L z) as (k' & x' & G1 & G2);
          [now rewrite H1, H2|congruence]
      end.
Qed.

(** X22.  When the input ends in the middle of [add_expenses], [edit_expense]
    or [delete_expense], so that [EOFError] leaves the operation, the store
    and the files are as before: every line is read before the first
    change.  And [IndexError] never leaves [edit_expense] or
    [delete_expense]: the position given to the indexing of the store and to
    [pop] is in range under the test made before it. *)
Theorem end_of_input_changes_nothing :
  forall (float : string -> option Q) (st : State),
    (fst (add_expenses float st) = Raise EOFError ->
     untouched st (snd (add_expenses float st))) /\
    (fst (edit_expense float st) = Raise EOFError ->
     untouched st (snd (edit_expense float st))) /\
    (fst (delete_expense st) = Raise EOFError ->
     untouched st (snd (delete_expense st))) /\
    fst (edit_expense float st) <> Raise IndexError /\
    fst (delete_expense st) <> Raise IndexError.
Proof.
  intros float st.
  destruct (mutators_raise float st EOFError) as (Ha & He & Hd).
  destruct (mutators_raise float st IndexError) as (_ & He' & Hd').
  split; [|split; [|split; [|split]]].
  - intros H. now apply Ha.
  - intros H. now apply He.
  - intros H. now apply Hd.
  - intros H. destruct (He' H) as [Hx _]. discriminate Hx.
  - intros H. destruct (Hd' H) as [Hx _]. discriminate Hx.
Qed.

Lemma end_of_input_changes_nothing_witness :
  let st := mkState [mkExpense 250 "Food" "2024-03-01"]
              (feed ["1"; "300"] (sample_world None)) in
  untouched st (snd (edit_expense float_of_int_literal st)).
Proof.
  intros st.
  destruct (end_of_input_changes_nothing float_of_int_literal st) as (_ & H & _).
  apply H. reflexivity.
Defined.

(** ** The choices of [view_summary] *)

(** X23.  On a store that is not empty, [view_summary] reads one line for the
    choice.  A line that is not an integer gives the message of an invalid
    number, an integer other than 1, 2, 3 the message of an invalid option;
    choice 2 prints the overall total; choice 1 reads a second line and
    prints the total of the category it names, stripped of blanks.  Nothing
    more is read. *)
Theorem view_summary_choices :
  forall (st : State) (l1 l2 : string) (rest : list string),
    expenses st <> [] ->
    stdin (world st) = l1 :: l2 :: rest ->
    let es := expenses st in
    let w := world st in
    let result (lines : list string) (msgs : list message) :=
      (Done tt,
       mkState es
         (mkWorld lines (stdout w ++ Prompt AskSummaryChoice :: msgs)%list
            (charts w) (files w) (clock w))) in
    (PyInt.int (strip l1) = None ->
     view_summary st = result (l2 :: rest) [MsgInvalidNumber]) /\
    (PyInt.int (strip l1) = Some 1 ->
     view_summary st
     = result rest
         [Prompt AskCategoryName;
          MsgCategoryTotal (strip l2) (total_by_category es (strip l2))]) /\
    (PyInt.int (strip l1) = Some 2 ->
     view_summary st = result (l2 :: rest) [MsgOverallTotal (total_overall es)]) /\
    (forall choice,
       PyInt.int (strip l1) = Some choice ->
       choice <> 1 -> choice <> 2 -> choice <> 3 ->
       view_summary st = result (l2 :: rest) [MsgInvalidOption]).
Proof.
  intros [es [i o c f t]] l1 l2 rest Hne Hin. simpl in *. subst i.
  destruct es as [|e es]; [congruence|]. clear Hne.
  split; [|split; [|split]].
  - intros H. unfold view_summary, input_int. run. rewrite H. run.
    repeat rewrite <- app_assoc. reflexivity.
  - intros H. unfold view_summary. unfold bind at 1. unfold get_expenses.
    cbn [expenses]. cbv beta iota.
    unfold bind at 1. rewrite (input_int_run _ _ _ _ _ _ _ _ _ H).
    change (1 =? 1) with true. cbv iota. run.
    repeat rewrite <- app_assoc. reflexivity.
  - intros H. unfold view_summary. unfold bind at 1. unfold get_expenses.
    cbn [expenses]. cbv beta iota.
    unfold bind at 1. rewrite (input_int_run _ _ _ _ _ _ _ _ _ H).
    change (2 =? 1) with false. change (2 =? 2) with true. cbv iota. run.
    repeat rewrite <- app_assoc. reflexivity.
  - intros choice H N1 N2 N3. unfold view_summary. unfold bind at 1.
    unfold get_expenses. cbn [expenses]. cbv beta iota.
    unfold bind at 1. rewrite (input_int_run _ _ _ _ _ _ _ _ _ H).
    destruct (Z.eqb_spec choice 1); [contradiction|].
    destruct (Z.eqb_spec choice 2); [contradiction|].
    destruct (Z.eqb_spec choice 3); [contradiction|].
    run. repeat rewrite <- app_assoc. reflexivity.
Qed.

Lemma view_summary_choices_witness :
  let es := [mkExpense 250 "Food" "2024-03-01"; mkExpense 40 "Bus" "2024-03-02"] in
  let st := mkState es (feed ["1"; " food "] (sample_world None)) in
  stdout (world (snd (view_summary st)))
  = [Prompt AskSummaryChoice; Prompt AskCategoryName;
     MsgCategoryTotal "food" (total_by_category es "food")].
Proof.
  intros es st.
  destruct (view_summary_choices st "1" " food " [] ltac:(discriminate) eq_refl)
    as (_ & H & _).
  rewrite (H eq_refl). reflexivity.
Defined.

(* ================================================================== *)
(** * The totals on binary64 amounts *)

(** ** Buckets that partition a list *)

Lemma flat_map_filter_nil {A K} (p : K -> A -> bool) (ks : list K) :
  flat_map (fun k => filter (p k) []) ks = [].
Proof. induction ks as [|k ks IH]; simpl; auto. Qed.

Lemma filter_filter_implied {A} (p q : A -> bool) (l : list A) :
  (forall x, p x = true -> q x = true) ->
  filter p (filter q l) = filter p l.
Proof.
  intros H. induction l as [|x l IH]; simpl; [reflexivity|].
  destruct (q x) eqn:Hq; simpl.
  - now rewrite IH.
  - destruct (p x) eqn:Hp; [|exact IH].
    apply H in Hp. congruence.
Qed.

(** An element that falls under one key, and under no key before or after
    it, goes to the bucket of that key. *)
Lemma buckets_cons {A K} (p : K -> A -> bool) (e : A) (es : list A)
    (l1 l2 : list K) (c : K) :
  p c e = true ->
  (forall c', In c' (l1 ++ l2)%list -> p c' e = false) ->
  Permutation (e :: flat_map (fun k => filter (p k) es) (l1 ++ c :: l2)%list)
    (flat_map (fun k => filter (p k) (e :: es)) (l1 ++ c :: l2)%list).
Proof.
  intros Hc Hother.
  assert (Hsame : forall l,
             (forall c', In c' l -> p c' e = false) ->
             flat_map (fun k => filter (p k) (e :: es)) l
             = flat_map (fun k => filter (p k) es) l).
  { induction l as [|k l IHl]; intros Hl; [reflexivity|].
    cbn [flat_map]. rewrite IHl by (intros c' Hc'; apply Hl; now right).
    f_equal. cbn [filter]. now rewrite (Hl k (or_introl eq_refl)). }
  rewrite !flat_map_app. cbn [flat_map].
  rewrite (Hsame l1) by (intros c' H; apply Hother, in_or_app; auto).
  rewrite (Hsame l2) by (intros c' H; apply Hother, in_or_app; auto).
  cbn [filter]. rewrite Hc. cbn [app]. apply Permutation_middle.
Qed.

(** When every element falls under exactly one key of a list, the buckets of
    the keys, one after the other, are a rearrangement of the elements. *)
Lemma buckets_partition {A K} (p : K -> A -> bool) (ks : list K) (es : list A) :
  (forall e, In e es ->
     exists l1 c l2,
       ks = (l1 ++ c :: l2)%list /\ p c e = true /\
       forall c', In c' (l1 ++ l2)%list -> p c' e = false) ->
  Permutation es (flat_map (fun k => filter (p k) es) ks).
Proof.
  induction es as [|e es IH]; intros H.
  - now rewrite flat_map_filter_nil.
  - destruct (H e (or_introl eq_refl)) as (l1 & c & l2 & Hks & Hc & Hother).
    apply Permutation_trans
      with (e :: flat_map (fun k => filter (p k) es) ks).
    + apply perm_skip, IH. intros e' He'. apply H. now right.
    + rewrite Hks. now apply buckets_cons.
Qed.

(** ** The categories *)

Lemma distinct_categories_from_spec64 (es : list Binary64.Expense) :
  forall seen,
    let cs := Binary64.distinct_categories_from seen es in
    NoDup (map Str.lower cs) /\
    (forall k, In k (map Str.lower cs) -> ~ In k seen) /\
    (forall e, In e es ->
               In (Str.lower (Binary64.category e)) seen
               \/ In (Str.lower (Binary64.category e)) (map Str.lower cs)) /\
    (forall c, In c cs -> exists e, In e es /\ Binary64.category e = c).
Proof.
  induction es as [|e es IH]; intros seen; simpl.
  - split; [constructor|]. split; [intros ? []|]. split; intros ? [].
  - destruct (existsb (String.eqb (Str.lower (Binary64.category e))) seen) eqn:Hseen.
    + destruct (IH seen) as (Hnd & Hfresh & Hcov & Hpres).
      split; [assumption|]. split; [assumption|]. split.
      * intros e' [ <- |Hin]; [|now apply Hcov].
        left. now apply existsb_eqb_In.
      * intros c Hc. destruct (Hpres c Hc) as (e' & He' & Heq). eauto.
    + destruct (IH (Str.lower (Binary64.category e) :: seen))
        as (Hnd & Hfresh & Hcov & Hpres).
      assert (Hnot : ~ In (Str.lower (Binary64.category e)) seen).
      { intros Hin. apply existsb_eqb_In in Hin. congruence. }
      simpl. split; [|split; [|split]].
      * constructor; [|assumption].
        intros Hin. apply (Hfresh _ Hin). simpl; auto.
      * intros k [ <- |Hin]; [assumption|].
        intros Hk. apply (Hfresh _ Hin). simpl; auto.
      * intros e' [ <- |Hin]; [right; auto|].
        destruct (Hcov e' Hin) as [[Heq|Hs]|Hc]; auto.
      * intros c [ <- |Hc]; [eauto|].
        destruct (Hpres c Hc) as (e' & He' & Heq). eauto.
Qed.

(** C6.  The categories of a store taken up to letter case partition its
    entries: their lower-case forms are pairwise different, each is the
    category of an entry, every entry falls in the bucket of one of them,
    and the buckets, one after the other, are a rearrangement of the store;
    no amount is counted twice or dropped.  The overall total is the sum of
    all the amounts and the total of a category the sum of the amounts of
    its bucket, both added from the left, starting at 0, on binary64
    numbers. *)
Theorem category_buckets_partition :
  forall es : list Binary64.Expense,
    let cs := Binary64.distinct_categories es in
    Binary64.total_overall es
    = fold_left PrimFloat.add (map Binary64.amount es) 0%float /\
    (forall c,
       Binary64.total_by_category es c
       = fold_left PrimFloat.add
           (map Binary64.amount (Binary64.category_entries es c)) 0%float) /\
    NoDup (map Str.lower cs) /\
    (forall c, In c cs -> exists e, In e es /\ Binary64.category e = c) /\
    (forall e, In e es ->
       exists c, In c cs /\ In e (Binary64.category_entries es c)) /\
    Permutation es (flat_map (Binary64.category_entries es) cs).
Proof.
  intros es cs.
  destruct (distinct_categories_from_spec64 es []) as (Hnd & _ & Hcov & Hpres).
  fold (Binary64.distinct_categories es) in Hnd, Hcov, Hpres. fold cs in Hnd, Hcov, Hpres.
  assert (Hin : forall e, In e es ->
            exists c, In c cs /\ lower (Binary64.category e) = lower c).
  { intros e He. destruct (Hcov e He) as [[]|H].
    apply in_map_iff in H. destruct H as (c & Hc & Hcs). eauto. }
  split; [reflexivity|]. split; [reflexivity|]. split; [exact Hnd|].
  split; [exact Hpres|]. split.
  - intros e He. destruct (Hin e He) as (c & Hc & Heq).
    exists c. split; [exact Hc|].
    unfold Binary64.category_entries. apply filter_In. split; [exact He|].
    now apply String.eqb_eq.
  - unfold Binary64.category_entries.
    apply (buckets_partition
             (fun c e => String.eqb (lower (Binary64.category e)) (lower c))).
    intros e He. destruct (Hin e He) as (c & Hc & Heq).
    destruct (in_split _ _ Hc) as (l1 & l2 & Hcs).
    exists l1, c, l2. split; [exact Hcs|]. split; [now apply String.eqb_eq|].
    intros c' Hc'. apply String.eqb_neq. intros Heq'.
    rewrite Hcs, map_app in Hnd. cbn [map] in Hnd.
    apply NoDup_remove_2 in Hnd. apply Hnd.
    rewrite <- map_app. rewrite <- Heq, Heq'. now apply in_map.
Qed.

(** The three amounts of [rounding_entries], bit for bit: the floats nearest
    to 0.1, 0.2 and 2.2. *)
Example rounding_entries_amounts :
  map Binary64.amount Binary64.rounding_entries
  = [0x1.999999999999ap-4; 0x1.999999999999ap-3; 0x1.199999999999ap+1]%float.
Proof. reflexivity. Qed.

(** C6 fails as stated, on floats: for the amounts 0.1 and 2.2 in the
    category [x] and 0.2 in the category [y], the overall total is 2.5; the
    totals of the two categories are 2.3000000000000003 and 0.2, and their
    sum is 2.5000000000000004. *)
Lemma total_overall_rounding :
  Binary64.total_overall Binary64.rounding_entries = 2.5%float /\
  Binary64.distinct_categories Binary64.rounding_entries = ["x"; "y"] /\
  map (Binary64.total_by_category Binary64.rounding_entries) ["x"; "y"]
  = [0x1.2666666666667p+1; 0x1.999999999999ap-3]%float /\
  Binary64.sum
    (map (Binary64.total_by_category Binary64.rounding_entries)
       (Binary64.distinct_categories Binary64.rounding_entries))
  = 0x1.4000000000001p+1%float /\
  (2.5 =? 0x1.4000000000001p+1)%float = false.
Proof. repeat split; reflexivity. Qed.

(** ** The buckets of the time summary *)

Lemma dict_get_dict_add64 k a d c :
  Binary64.dict_get (Binary64.dict_add k a d) c
  = if String.eqb k c then (Binary64.dict_get d c + a)%float
    else Binary64.dict_get d c.
Proof.
  induction d as [|[k' v] d IH]; simpl.
  - destruct (String.eqb k c); reflexivity.
  - destruct (String.eqb_spec k' k) as [ -> |Hne]; simpl.
    + destruct (String.eqb k c); reflexivity.
    + destruct (String.eqb_spec k' c) as [ -> |Hne'].
      * destruct (String.eqb_spec k c) as [ -> |_]; [congruence|reflexivity].
      * exact IH.
Qed.

Lemma in_keys_dict_add64 k a d k' :
  In k' (Binary64.keys (Binary64.dict_add k a d))
  <-> k' = k \/ In k' (Binary64.keys d).
Proof.
  unfold Binary64.keys. induction d as [|[k0 v] d IH]; simpl.
  - intuition.
  - destruct (String.eqb_spec k0 k) as [ -> |Hne]; simpl.
    + intuition.
    + rewrite IH. intuition.
Qed.

Lemma NoDup_keys_dict_add64 k a d :
  NoDup (Binary64.keys d) -> NoDup (Binary64.keys (Binary64.dict_add k a d)).
Proof.
  unfold Binary64.keys. induction d as [|[k0 v] d IH]; simpl; intros Hnd.
  - constructor; [intros []|constructor].
  - inversion Hnd as [|? ? Hnotin Hnd']; subst.
    destruct (String.eqb_spec k0 k) as [ -> |Hne]; simpl.
    + constructor; assumption.
    + constructor; [|now apply IH].
      intros Hin. apply (in_keys_dict_add64 k a d k0) in Hin.
      destruct Hin as [Heq|Hin]; [congruence|contradiction].
Qed.

Lemma period_key_some64 time_choice e d :
  time_choice = 1 \/ time_choice = 2 \/ time_choice = 3 ->
  exists key, Binary64.period_key time_choice e d = Some key.
Proof.
  intros [ -> | [ -> | -> ] ]; unfold Binary64.period_key; simpl; eauto.
Qed.

(** The loop as a function of the entries: the dictionary it builds, with
    the additions of each bucket in the order of the store. *)
Lemma summary_loop_buckets64 time_choice es :
  time_choice = 1 \/ time_choice = 2 \/ time_choice = 3 ->
  forall d,
  exists d' warnings,
    (forall st,
       Binary64.summary_loop time_choice es d st
       = (Done (Some d'), emit warnings st)) /\
    (forall st,
       Binary64.summary_loop time_choice (Binary64.valid_date_entries es) d st
       = (Done (Some d'), st)) /\
    (NoDup (Binary64.keys d) -> NoDup (Binary64.keys d')) /\
    (forall k, In k (Binary64.keys d')
               <-> In k (Binary64.keys d)
                   \/ exists e, In e es /\ Binary64.key_of time_choice e = Some k) /\
    (forall k,
       Binary64.dict_get d' k
       = fold_left PrimFloat.add
           (map Binary64.amount (Binary64.bucket time_choice es k))
           (Binary64.dict_get d k)).
Proof.
  intros Htc. induction es as [|e es IH]; intros d.
  - exists d, []. split; [|split; [|split; [|split]]].
    + intros st. now rewrite emit_nil.
    + reflexivity.
    + auto.
    + intros k. split; [auto|]. intros [H|(e & [] & _)]. exact H.
    + reflexivity.
  - unfold Binary64.valid_date_entries, Binary64.bucket in *.
    cbn [Binary64.summary_loop filter].
    destruct (validate_date (Binary64.date e)) eqn:Hv; cbn [negb].
    + destruct (validate_date_strptime _ Hv) as (dt & Hdt).
      destruct (period_key_some64 time_choice e dt Htc) as (key & Hkey).
      destruct (IH (Binary64.dict_add key (Binary64.amount e) d))
        as (d' & ws & H1 & H2 & H3 & H4 & H5).
      assert (Hh : forall k, Binary64.has_key time_choice k e = String.eqb key k)
        by (intros k; unfold Binary64.has_key, Binary64.key_of;
            now rewrite Hdt, Hkey).
      exists d', ws. cbn [Binary64.summary_loop]. rewrite Hv. cbn [negb].
      unfold bind. rewrite Hdt. unfold lift, ret. rewrite Hkey.
      split; [exact H1|]. split; [exact H2|]. split; [|split].
      * intros Hnd. apply H3. now apply NoDup_keys_dict_add64.
      * intros k. rewrite H4, in_keys_dict_add64. split.
        -- intros [[ -> |Hin]|(e' & He' & Hk')].
           ++ right. exists e. split; [simpl; auto|].
              unfold Binary64.key_of. now rewrite Hdt.
           ++ now left.
           ++ right. exists e'. split; [simpl; auto|exact Hk'].
        -- intros [Hin|(e' & [ <- |He'] & Hk')].
           ++ left. now right.
           ++ left. left. unfold Binary64.key_of in Hk'. rewrite Hdt in Hk'.
              congruence.
           ++ right. exists e'. split; assumption.
      * intros k. rewrite H5, dict_get_dict_add64, Hh.
        destruct (String.eqb key k); reflexivity.
    + destruct (IH d) as (d' & ws & H1 & H2 & H3 & H4 & H5).
      assert (Hdt : strptime (Binary64.date e) = None).
      { unfold validate_date in Hv.
        destruct (strptime (Binary64.date e)); [discriminate|reflexivity]. }
      assert (Hh : forall k, Binary64.has_key time_choice k e = false)
        by (intros k; unfold Binary64.has_key, Binary64.key_of; now rewrite Hdt).
      exists d', ([MsgSkipInvalidDate (Binary64.date e)] ++ ws)%list.
      split; [|split; [|split; [|split]]].
      * intros st. unfold bind, print. rewrite <- emit_emit. apply H1.
      * exact H2.
      * exact H3.
      * intros k. rewrite H4. split.
        -- intros [Hin|(e' & He' & Hk')]; [now left|].
           right. exists e'. split; [simpl; auto|exact Hk'].
        -- intros [Hin|(e' & [ <- |He'] & Hk')]; [now left| |].
           ++ unfold Binary64.key_of in Hk'. rewrite Hdt in Hk'. discriminate.
           ++ right. exists e'. split; assumption.
      * intros k. rewrite H5, Hh. reflexivity.
Qed.

(** C10.  For each of the three granularities the loop of the time summary
    ends with a dictionary that the entries with an invalid date change
    nothing in: the loop over the entries whose date passes [validate_date]
    builds the same one, and an entry with an invalid date is in no bucket.
    The dictionary has one bucket for each key of an entry with a valid date
    and no key twice; the value of a bucket is the sum of the amounts of its
    entries, added from the left, starting at 0, on binary64 numbers; and
    the buckets, one after the other, are a rearrangement of the entries
    with a valid date: each of their amounts is counted in one bucket,
    once. *)
Theorem time_summary_valid_entries :
  forall (time_choice : Z) (es : list Binary64.Expense) (st : State),
    time_choice = 1 \/ time_choice = 2 \/ time_choice = 3 ->
    exists summary st',
      Binary64.summary_loop time_choice es [] st = (Done (Some summary), st') /\
      fst (Binary64.summary_loop time_choice (Binary64.valid_date_entries es) [] st)
      = Done (Some summary) /\
      NoDup (Binary64.keys summary) /\
      (forall k, In k (Binary64.keys summary)
                 <-> exists e, In e es /\ Binary64.key_of time_choice e = Some k) /\
      (forall k,
         Binary64.dict_get summary k
         = fold_left PrimFloat.add
             (map Binary64.amount (Binary64.bucket time_choice es k)) 0%float) /\
      (forall e k,
         validate_date (Binary64.date e) = false ->
         ~ In e (Binary64.bucket time_choice es k)) /\
      Permutation (Binary64.valid_date_entries es)
        (flat_map (Binary64.bucket time_choice es) (Binary64.keys summary)).
Proof.
  intros time_choice es st Htc.
  destruct (summary_loop_buckets64 time_choice es Htc [])
    as (d' & ws & H1 & H2 & H3 & H4 & H5).
  assert (Hnd : NoDup (Binary64.keys d')) by (apply H3; constructor).
  assert (Hvalid : forall k e,
             Binary64.has_key time_choice k e = true ->
             validate_date (Binary64.date e) = true).
  { intros k e. unfold Binary64.has_key, Binary64.key_of, validate_date.
    destruct (strptime (Binary64.date e)); [reflexivity|discriminate]. }
  exists d', (emit ws st).
  split; [apply H1|]. split; [now rewrite H2|]. split; [exact Hnd|].
  split; [|split; [|split]].
  - intros k. rewrite H4. simpl. intuition.
  - intros k. rewrite H5. reflexivity.
  - intros e k Hv Hin. unfold Binary64.bucket in Hin.
    apply filter_In in Hin. destruct Hin as [_ Hk].
    apply Hvalid in Hk. congruence.
  - assert (Hb : forall k,
               Binary64.bucket time_choice es k
               = filter (Binary64.has_key time_choice k)
                   (Binary64.valid_date_entries es)).
    { intros k. unfold Binary64.bucket, Binary64.valid_date_entries.
      symmetry. apply filter_filter_implied. apply Hvalid. }
    rewrite (flat_map_ext _ _ Hb).
    apply (buckets_partition (Binary64.has_key time_choice)).
    intros e He. unfold Binary64.valid_date_entries in He.
    apply filter_In in He. destruct He as [He Hv].
    destruct (validate_date_strptime _ Hv) as (dt & Hdt).
    destruct (period_key_some64 time_choice e dt Htc) as (key & Hkey).
    assert (Hk : Binary64.key_of time_choice e = Some key)
      by (unfold Binary64.key_of; now rewrite Hdt).
    assert (Hin : In key (Binary64.keys d')).
    { apply H4. right. exists e. split; assumption. }
    destruct (in_split _ _ Hin) as (l1 & l2 & Hks).
    exists l1, key, l2. split; [exact Hks|].
    unfold Binary64.has_key. rewrite Hk. split; [apply String.eqb_refl|].
    intros k' Hk'. apply String.eqb_neq. intros ->.
    rewrite Hks in Hnd. apply NoDup_remove_2 in Hnd. contradiction.
Qed.

(** The daily summary of the three entries [rounding_entries]. *)
Lemma time_summary_valid_entries_witness :
  exists summary,
    fst (Binary64.summary_loop 1 Binary64.rounding_entries []
           (init (sample_world None))) = Done (Some summary) /\
    Binary64.dict_get summary "2024-03-01" = 0x1.2666666666667p+1%float.
Proof.
  destruct (time_summary_valid_entries 1 Binary64.rounding_entries
              (init (sample_world None)) (or_introl eq_refl))
    as (summary & st' & Hrun & _ & _ & _ & Hval & _).
  exists summary. split.
  - rewrite Hrun. reflexivity.
  - rewrite Hval. reflexivity.
Defined.

(** C10 fails as stated, on floats: in the daily summary of entries of 0.1
    and 2.2 on one day and 0.2 on another, all with a valid date, the values
    of the two buckets are 2.3000000000000003 and 0.2 and add up to
    2.5000000000000004; the amounts add up to 2.5, the overall total. *)
Lemma time_summary_rounding :
  fst (Binary64.summary_loop 1 Binary64.rounding_entries []
         (init (sample_world None)))
  = Done (Some [("2024-03-01", 0x1.2666666666667p+1);
                ("2024-03-02", 0x1.999999999999ap-3)]%float) /\
  Binary64.sum [0x1.2666666666667p+1; 0x1.999999999999ap-3]%float
  = 0x1.4000000000001p+1%float /\
  Binary64.valid_date_entries Binary64.rounding_entries
  = Binary64.rounding_entries /\
  Binary64.sum (map Binary64.amount Binary64.rounding_entries) = 2.5%float /\
  Binary64.total_overall Binary64.rounding_entries = 2.5%float /\
  (0x1.4000000000001p+1 =? 2.5)%float = false.
Proof. repeat split; reflexivity. Qed.
